(** * Weather analytics pipeline: batched consumers, rollup merge, engagement score

  A shallow embedding of the Go services of the repository:

  - the Pub/Sub consumers that buffer messages in a [BatchProcessor] and
    flush them by size or by timer (lead events, pages, users);
  - the rollup upsert used by the aggregation jobs
    ([INSERT ... ON CONFLICT ... DO UPDATE]);
  - the SQL [CASE] expression that computes the lead engagement score;
  - the interval loop of the backfill jobs that fill the rollup tables;
  - the collector's HTTP handlers for pages and lead events, with the
    request filter and the Redis cache in front of them.

  Effects are modelled by a small state monad whose result also records
  that the process exited ([log.Fatal]) or that a goroutine is blocked. *)

From Stdlib Require Import QArith Qround Qabs Qminmax Lqa.
From stdpp Require Import gmap strings list.
From stdpp Require Import pretty.

Open Scope Z_scope.

(** ** A state monad with process exit and blocking *)

Inductive result (A : Type) : Type :=
| Ret (a : A)   (* the call returned *)
| Exit          (* the process terminated: log.Fatal calls os.Exit(1) *)
| Block.        (* the goroutine waits (mutex held, empty channel) *)
Arguments Ret {A} a.
Arguments Exit {A}.
Arguments Block {A}.

Definition M (S A : Type) : Type := S -> result A * S.

Definition ret {S A} (a : A) : M S A := fun s => (Ret a, s).

Definition bind {S A B} (c : M S A) (k : A -> M S B) : M S B :=
fun s =>
  match c s with
  | (Ret a, s') => k a s'
  | (Exit, s') => (Exit, s')
  | (Block, s') => (Block, s')
  end.

Definition get {S} : M S S := fun s => (Ret s, s).
Definition modify {S} (f : S -> S) : M S unit := fun s => (Ret tt, f s).
Definition exit {S A} : M S A := fun s => (Exit, s).
Definition block {S A} : M S A := fun s => (Block, s).

Declare Scope m_scope.
Delimit Scope m_scope with m.
Notation "'do' x <- c ; k" := (bind c (fun x => k))
(at level 10, x name, c at level 100, k at level 200) : m_scope.
Notation "c ;;; k" := (bind c (fun _ => k))
(at level 100, k at level 200, right associativity) : m_scope.

(** [for _, x := range l { body }] with a loop-carried local variable. *)
Fixpoint rangeM {S A B} (body : A -> B -> M S B) (l : list A) (acc : B) : M S B :=
match l with
| [] => ret acc
| x :: l' => bind (body x acc) (rangeM body l')
end.

(** ** Pub/Sub messages and acknowledgement handles *)

Module PubSub.

Inductive verdict : Type := Acked | Nacked.

(** A message is identified by its handle; [Data] is generic so that each
    consumer can carry the payload the way it reads it. *)
Record Message (P : Type) : Type := { ID : nat; Data : P }.
Arguments ID {P} _.
Arguments Data {P} _.

(** Ack and Nack have no effect after the first call on a handle. *)
Definition settle (v : verdict) (id : nat) (h : gmap nat verdict) : gmap nat verdict :=
  match h !! id with
  | Some _ => h
  | None => <[id := v]> h
  end.

End PubSub.
Import PubSub.

(** Log lines: level and format string (arguments are not kept). *)
Inductive level : Type := INFO | WARN | ERROR | FATAL.
Definition logline : Type := (level * string)%type.

(** ** The lead-event consumer *)

Module LeadEvent.

(** [LeadEventDataPubSub]. [Metas] is a [map[string]interface{}] that the
    consumer only passes to [json.Marshal]: the field holds the result of
    that call, [None] when Marshal returns an error. *)
Record LeadEventDataPubSub : Type := {
  Brand : string;
  UUID : string;
  LeadUUID : string;
  Name : string;
  PageType : string;
  PageLanguage : string;
  Device : string;
  Url : string;
  Referrer : string;
  ReferrerType : string;
  RelevantReferrer : string;
  Metas : option string;
  Consent : bool;
  IP : string
}.

Record IPLocation : Type := { Country : string; City : string }.

(** A pulled message: [Data] holds the result of [json.Unmarshal] on the
    payload bytes, [None] when Unmarshal returns an error. *)
Definition Msg : Type := Message (option LeadEventDataPubSub).

(** One row of the BigQuery table [lead_event], in schema order. *)
Record Row : Type := {
  r_datetime : nat;
  r_brand : string;
  r_uuid : string;
  r_lead_uuid : string;
  r_name : string;
  r_page_type : string;
  r_page_language : string;
  r_device : string;
  r_url : string;
  r_referrer : string;
  r_referrer_type : string;
  r_relevant_referrer : string;
  r_metas : string;
  r_consent : bool;
  r_ip : string;
  r_location_country : string;
  r_location_city : string
}.

(** What the consumer does, in program order (a history variable). *)
Inductive event : Type :=
| EvLock
| EvUnlock
| EvAppend (m : Msg)
| EvProcessBatch (batch : list Msg)
| EvTimerFired
| EvTimerReset (deadline : nat).

(** The [BatchProcessor] struct. The timer is [Some t] while it is armed to
    fire at time [t]; [timerC] tells whether a value waits in the timer's
    channel. *)
Record BatchProcessor : Type := {
  messages : list Msg;
  batchMutex : bool;
  batchTimer : option nat;
  timerC : bool;
  maxBatchSize : Z;
  maxWaitTime : nat
}.

(** Process state: the batch processor, the package-level clients and the
    services behind them. *)
Record State : Type := {
  bp : BatchProcessor;
  now : nat;
  (* ipDb: net.ParseIP followed by ipDb.City; None when City returns an error *)
  ipDb : string -> option IPLocation;
  (* BigQuery: does inserter.Put of these rows succeed, and the table *)
  bqPutOk : list Row -> bool;
  lead_event : list Row;
  handles : gmap nat verdict;
  lookups : list string;
  logs : list logline;
  trace : list event
}.

Definition set_bp (f : BatchProcessor -> BatchProcessor) (s : State) : State :=
  {| bp := f (bp s); now := now s; ipDb := ipDb s; bqPutOk := bqPutOk s;
     lead_event := lead_event s; handles := handles s; lookups := lookups s;
     logs := logs s; trace := trace s |}.

Definition set_messages (l : list Msg) (b : BatchProcessor) : BatchProcessor :=
  {| messages := l; batchMutex := batchMutex b; batchTimer := batchTimer b;
     timerC := timerC b; maxBatchSize := maxBatchSize b; maxWaitTime := maxWaitTime b |}.

Definition set_mutex (v : bool) (b : BatchProcessor) : BatchProcessor :=
  {| messages := messages b; batchMutex := v; batchTimer := batchTimer b;
     timerC := timerC b; maxBatchSize := maxBatchSize b; maxWaitTime := maxWaitTime b |}.

Definition set_timer (t : option nat) (c : bool) (b : BatchProcessor) : BatchProcessor :=
  {| messages := messages b; batchMutex := batchMutex b; batchTimer := t;
     timerC := c; maxBatchSize := maxBatchSize b; maxWaitTime := maxWaitTime b |}.

Definition set_now (t : nat) (s : State) : State :=
  {| bp := bp s; now := t; ipDb := ipDb s; bqPutOk := bqPutOk s;
     lead_event := lead_event s; handles := handles s; lookups := lookups s;
     logs := logs s; trace := trace s |}.

Definition set_lead_event (t : list Row) (s : State) : State :=
  {| bp := bp s; now := now s; ipDb := ipDb s; bqPutOk := bqPutOk s;
     lead_event := t; handles := handles s; lookups := lookups s;
     logs := logs s; trace := trace s |}.

Definition set_handles (h : gmap nat verdict) (s : State) : State :=
  {| bp := bp s; now := now s; ipDb := ipDb s; bqPutOk := bqPutOk s;
     lead_event := lead_event s; handles := h; lookups := lookups s;
     logs := logs s; trace := trace s |}.

Definition set_lookups (l : list string) (s : State) : State :=
  {| bp := bp s; now := now s; ipDb := ipDb s; bqPutOk := bqPutOk s;
     lead_event := lead_event s; handles := handles s; lookups := l;
     logs := logs s; trace := trace s |}.

Definition set_logs (l : list logline) (s : State) : State :=
  {| bp := bp s; now := now s; ipDb := ipDb s; bqPutOk := bqPutOk s;
     lead_event := lead_event s; handles := handles s; lookups := lookups s;
     logs := l; trace := trace s |}.

Definition set_trace (l : list event) (s : State) : State :=
  {| bp := bp s; now := now s; ipDb := ipDb s; bqPutOk := bqPutOk s;
     lead_event := lead_event s; handles := handles s; lookups := lookups s;
     logs := logs s; trace := l |}.

Local Open Scope m_scope.

Definition emit (e : event) : M State unit :=
  modify (fun s => set_trace (trace s ++ [e]) s).

Definition LogInfo (fmt : string) : M State unit :=
  modify (fun s => set_logs (logs s ++ [(INFO, fmt)]) s).

Definition LogError (fmt : string) : M State unit :=
  modify (fun s => set_logs (logs s ++ [(ERROR, fmt)]) s).

(** [log.Fatal]: print, then os.Exit(1). *)
Definition log_Fatal (fmt : string) {A} : M State A :=
  modify (fun s => set_logs (logs s ++ [(FATAL, fmt)]) s) ;;; exit.

Definition Ack (m : Msg) : M State unit :=
  modify (fun s => set_handles (settle Acked (ID m) (handles s)) s).

Definition Nack (m : Msg) : M State unit :=
  modify (fun s => set_handles (settle Nacked (ID m) (handles s)) s).

(** [sync.Mutex]: Lock waits while the mutex is held. *)
Definition Lock : M State unit :=
  do s <- get;
  if batchMutex (bp s) then block
  else modify (set_bp (set_mutex true)) ;;; emit EvLock.

Definition Unlock : M State unit :=
  modify (set_bp (set_mutex false)) ;;; emit EvUnlock.

(** [NewBatchProcessor], called at time [t0]: [time.NewTimer] arms the timer
    at once. [main] passes 1000 messages and 10 seconds. *)
Definition NewBatchProcessor (t0 : nat) (maxBatchSize : Z) (maxWaitTime : nat)
  : BatchProcessor :=
  {| messages := []; batchMutex := false; batchTimer := Some (t0 + maxWaitTime)%nat;
     timerC := false; maxBatchSize := maxBatchSize; maxWaitTime := maxWaitTime |}.

Definition getIpLocation (ipAddress : string) : M State IPLocation :=
  do s <- get;
  modify (set_lookups (lookups s ++ [ipAddress])) ;;;
  match ipDb s ipAddress with
  | None => log_Fatal "%v"
  | Some record => ret record
  end.

Definition mkRow (t : nat) (d : LeadEventDataPubSub) (metasJSON : string)
    (locationCounty locationCity : string) : Row :=
  {| r_datetime := t; r_brand := Brand d; r_uuid := UUID d; r_lead_uuid := LeadUUID d;
     r_name := Name d; r_page_type := PageType d; r_page_language := PageLanguage d;
     r_device := Device d; r_url := Url d; r_referrer := Referrer d;
     r_referrer_type := ReferrerType d; r_relevant_referrer := RelevantReferrer d;
     r_metas := metasJSON; r_consent := Consent d; r_ip := IP d;
     r_location_country := locationCounty; r_location_city := locationCity |}.

(** Body of the loop over [bp.messages]; [rows] is the loop-carried slice.
    Returning [rows] unchanged is the [continue] of the source. *)
Definition processMessage (msg : Msg) (rows : list Row) : M State (list Row) :=
  match Data msg with
  | None =>
      LogError "Error unmarshalling message: %s" ;;; Nack msg ;;; ret rows
  | Some d =>
      match Metas d with
      | None =>
          LogError "Error marshalling metas: %s" ;;; Nack msg ;;; ret rows
      | Some metasJSONBytes =>
          LogInfo "Processing lead event of type %s with uuid %s" ;;;
          do loc <-
            (if negb (Name d =? "page_behavior")%string && negb (IP d =? "")%string
             then do ipLocation <- getIpLocation (IP d);
                  ret (Country ipLocation, City ipLocation)
             else ret ("", ""));
          do s <- get;
          ret (rows ++ [mkRow (now s) d metasJSONBytes (fst loc) (snd loc)])
      end
  end.

Definition processBatch : M State unit :=
  do s <- get;
  if (length (messages (bp s)) =? 0)%nat then ret tt
  else
    emit (EvProcessBatch (messages (bp s))) ;;;
    LogInfo "Processing %d messages" ;;;
    do rows <- rangeM processMessage (messages (bp s)) [];
    do s1 <- get;
    (if bqPutOk s1 rows
     then modify (set_lead_event (lead_event s1 ++ rows)) ;;;
          LogInfo "Successfully inserted %d rows in BigQuery in %dms." ;;;
          rangeM (fun msg (_ : unit) => Ack msg) (messages (bp s)) tt
     else LogError "Failed to insert rows: %v") ;;;
    modify (set_bp (set_messages [])).

Definition AddMessage (msg : Msg) : M State unit :=
  Lock ;;;
  emit (EvAppend msg) ;;;
  modify (set_bp (fun b => set_messages (messages b ++ [msg]) b)) ;;;
  do s <- get;
  (if Z.of_nat (length (messages (bp s))) >=? maxBatchSize (bp s)
   then processBatch else ret tt) ;;;
  Unlock.

(** [batchTimer.Reset(maxWaitTime)]. *)
Definition timer_Reset : M State unit :=
  do s <- get;
  modify (set_bp (set_timer (Some (now s + maxWaitTime (bp s))%nat) (timerC (bp s)))) ;;;
  emit (EvTimerReset (now s + maxWaitTime (bp s))%nat).

(** One iteration of the [for { select { case <-bp.batchTimer.C: ... } }]
    loop of [StartBatchTimer]: it waits until the channel holds a value. *)
Definition StartBatchTimer_iter : M State unit :=
  do s <- get;
  if timerC (bp s) then
    modify (set_bp (set_timer (batchTimer (bp s)) false)) ;;;
    emit EvTimerFired ;;;
    Lock ;;;
    do s1 <- get;
    (if (0 <? length (messages (bp s1)))%nat then processBatch else ret tt) ;;;
    Unlock ;;;
    timer_Reset
  else block.

(** Time passes: the clock advances and an armed timer whose deadline is
    reached sends on its channel and is no longer armed. *)
Definition elapse (d : nat) (s : State) : State :=
  let s' := set_now (now s + d)%nat s in
  match batchTimer (bp s') with
  | Some t => if (t <=? now s')%nat then set_bp (set_timer None true) s' else s'
  | None => s'
  end.

(** The consumer as the scheduler sees it: Pub/Sub delivers a message
    ([sub.Receive] calls [AddMessage]), time passes, or the timer goroutine
    runs one iteration of its loop. The mutex makes each of them atomic; an
    iteration that finds the channel empty stays blocked in its [select]
    and nothing happens. *)
Inductive action : Type :=
| Deliver (m : Msg)
| Elapse (d : nat)
| TimerLoop.

Definition step (a : action) : M State unit :=
  match a with
  | Deliver m => AddMessage m
  | Elapse d => modify (elapse d)
  | TimerLoop =>
      fun s => match StartBatchTimer_iter s with
               | (Block, _) => (Ret tt, s)
               | other => other
               end
  end.

Definition run (l : list action) : M State unit :=
  rangeM (fun a (_ : unit) => step a) l tt.

(** The messages delivered by a schedule, in order. *)
Fixpoint delivered (l : list action) : list Msg :=
  match l with
  | [] => []
  | Deliver m :: l' => m :: delivered l'
  | _ :: l' => delivered l'
  end.

(** The batches handed to [processBatch] so far, in order. *)
Fixpoint flushed (t : list event) : list (list Msg) :=
  match t with
  | [] => []
  | EvProcessBatch b :: t' => b :: flushed t'
  | _ :: t' => flushed t'
  end.

(** State of a freshly started consumer ([main]): nothing buffered, nothing
    done yet, timer armed by [NewBatchProcessor]. *)
Definition initial (t0 : nat) (size : Z) (wait : nat)
    (geo : string -> option IPLocation) (put : list Row -> bool) : State :=
  {| bp := NewBatchProcessor t0 size wait; now := t0; ipDb := geo; bqPutOk := put;
     lead_event := []; handles := ∅; lookups := []; logs := []; trace := [] |}.

(** The timer never dies: it is armed with a deadline at most [maxWaitTime]
    away, or its firing waits in the channel. *)
Definition timer_live (s : State) : Prop :=
  timerC (bp s) = true \/
  exists t, batchTimer (bp s) = Some t /\ (t <= now s + maxWaitTime (bp s))%nat.

(** *** The collector side: how a lead event gets its [ip] field *)

(** [LeadEventData], the body posted by the browser. *)
Record LeadEventData : Type := {
  c_UUID : string;
  c_LeadUUID : string;
  c_Name : string;
  c_PageType : string;
  c_PageLanguage : string;
  c_Device : string;
  c_Url : string;
  c_Referrer : string;
  c_ReferrerType : string;
  c_RelevantReferrer : string;
  c_Metas : option string;
  c_Consent : bool
}.

(** The record that [publishLeadEventData] serialises onto the topic. *)
Definition publishLeadEventData (brandName : string) (leadEventData : LeadEventData)
    (clientIp : string) : LeadEventDataPubSub :=
  {| Brand := brandName; UUID := c_UUID leadEventData; LeadUUID := c_LeadUUID leadEventData;
     Name := c_Name leadEventData; PageType := c_PageType leadEventData;
     PageLanguage := c_PageLanguage leadEventData; Device := c_Device leadEventData;
     Url := c_Url leadEventData; Referrer := c_Referrer leadEventData;
     ReferrerType := c_ReferrerType leadEventData;
     RelevantReferrer := c_RelevantReferrer leadEventData;
     Metas := c_Metas leadEventData; Consent := c_Consent leadEventData;
     IP := clientIp |}.

(** End of [collectLeadEventDataHandler]: the client IP ([getClientIP r],
    here [requestIp]) is only read when the lead consented. *)
Definition collectLeadEventData (brandName : string) (leadEventData : LeadEventData)
    (requestIp : string) : LeadEventDataPubSub :=
  let clientIp := if c_Consent leadEventData then requestIp else "" in
  publishLeadEventData brandName leadEventData clientIp.

(** A payload as the pipeline produces it. *)
Definition collected (d : LeadEventDataPubSub) : Prop :=
  exists brandName leadEventData requestIp,
    d = collectLeadEventData brandName leadEventData requestIp.

(** *** Sample data *)

(** A geo database that knows one address and fails on anything else. *)
Definition geo_one (ip : string) : option IPLocation :=
  if (ip =? "203.0.113.7")%string
  then Some {| Country := "France"; City := "Paris" |} else None.

Definition put_succeeds (_ : list Row) : bool := true.

Definition browser_event (uuid : string) (consent : bool) : LeadEventData :=
  {| c_UUID := uuid; c_LeadUUID := "lead-1"; c_Name := "page_view";
     c_PageType := "article"; c_PageLanguage := "fr"; c_Device := "desktop";
     c_Url := "https://example.org/a"; c_Referrer := ""; c_ReferrerType := "direct";
     c_RelevantReferrer := ""; c_Metas := Some "{}"; c_Consent := consent |}.

Definition sample_msg (id : nat) (consent : bool) (requestIp : string) : Msg :=
  {| ID := id;
     Data := Some (collectLeadEventData "brand" (browser_event "e" consent) requestIp) |}.

Definition m1 : Msg := sample_msg 1 true "203.0.113.7".
Definition m2 : Msg := sample_msg 2 true "203.0.113.7".
Definition m3 : Msg := sample_msg 3 false "203.0.113.7".
(** The address comes from the [X-Forwarded-For] header and need not parse. *)
Definition m_bad : Msg := sample_msg 4 true "not-an-ip".

(** A consumer with [maxBatchSize] 2 that already holds [m1]. *)
Definition holding_m1 : State :=
  set_bp (set_messages [m1]) (initial 0 2 10 geo_one put_succeeds).

(** A consumer about to flush [m_bad; m2]. *)
Definition holding_bad : State :=
  set_bp (set_messages [m_bad; m2]) (initial 0 2 10 geo_one put_succeeds).

(** What one action does to the history, seen from outside the mutex. *)
Record step_ok (a : action) (s s' : State) : Prop := {
  so_mutex : batchMutex (bp s') = false;
  so_part : concat (flushed (trace s')) ++ messages (bp s') =
            (concat (flushed (trace s)) ++ messages (bp s)) ++ delivered [a];
  so_nonempty : Forall (fun b => b <> []) (flushed (trace s)) ->
                Forall (fun b => b <> []) (flushed (trace s'));
  so_buffer : forall P : Msg -> Prop,
                Forall P (messages (bp s) ++ delivered [a]) ->
                Forall P (messages (bp s'));
  so_ipDb : ipDb s' = ipDb s;
  so_wait : maxWaitTime (bp s') = maxWaitTime (bp s);
  so_live : timer_live s -> timer_live s'
}.

(** States inside [AddMessage] and the timer loop, named for the proofs. *)
Definition locked (s : State) : State :=
  set_trace (trace (set_bp (set_mutex true) s) ++ [EvLock]) (set_bp (set_mutex true) s).

Definition appended (msg : Msg) (s : State) : State :=
  set_bp (fun b => set_messages (messages b ++ [msg]) b)
    (set_trace (trace s ++ [EvAppend msg]) s).

Definition unlocked (s : State) : State :=
  set_trace (trace (set_bp (set_mutex false) s) ++ [EvUnlock]) (set_bp (set_mutex false) s).

Definition fired (s : State) : State :=
  set_trace (trace (set_bp (set_timer (batchTimer (bp s)) false) s) ++ [EvTimerFired])
    (set_bp (set_timer (batchTimer (bp s)) false) s).

Definition rearmed (s : State) : State :=
  set_trace
    (trace (set_bp (set_timer (Some (now s + maxWaitTime (bp s))%nat) (timerC (bp s))) s)
       ++ [EvTimerReset (now s + maxWaitTime (bp s))%nat])
    (set_bp (set_timer (Some (now s + maxWaitTime (bp s))%nat) (timerC (bp s))) s).

(** The loop over the messages only touches the handles, the log and the
    list of geo lookups. *)
Record frame (s s' : State) : Prop := {
  fr_bp : bp s' = bp s;
  fr_now : now s' = now s;
  fr_ipDb : ipDb s' = ipDb s;
  fr_put : bqPutOk s' = bqPutOk s;
  fr_table : lead_event s' = lead_event s;
  fr_trace : trace s' = trace s
}.

(** The address that the loop body looks up for a message, if it looks one
    up: the message decodes, its [metas] encode, it is not a
    [page_behavior] event and its [ip] is not empty. *)
Definition looked_up (msg : Msg) : option string :=
  match Data msg with
  | Some d =>
      match Metas d with
      | Some _ =>
          if negb (Name d =? "page_behavior")%string && negb (IP d =? "")%string
          then Some (IP d) else None
      | None => None
      end
  | None => None
  end.

(** The geo database resolves every address that a flush of these messages
    looks up. *)
Definition locatable (geo : string -> option IPLocation) (msgs : list Msg) : Prop :=
  Forall (fun msg => match looked_up msg with
                     | Some ip => is_Some (geo ip)
                     | None => True
                     end) msgs.

(** [processBatch] written out over the results of its two loops. *)
Definition after_header (s : State) : State :=
  set_logs (logs (set_trace (trace s ++ [EvProcessBatch (messages (bp s))]) s) ++
              [(INFO, "Processing %d messages")])
    (set_trace (trace s ++ [EvProcessBatch (messages (bp s))]) s).

Definition after_put (s1 : State) (rows : list Row) : State :=
  set_logs (logs (set_lead_event (lead_event s1 ++ rows) s1) ++
              [(INFO, "Successfully inserted %d rows in BigQuery in %dms.")])
    (set_lead_event (lead_event s1 ++ rows) s1).

End LeadEvent.


(** ** The page consumer *)

Module PageConsumer.

(** [time.Time] as far as the consumer looks at it: the wall-clock second and
    the nanoseconds within it. *)
Record Time : Type := { seconds : Z; nanos : Z }.

(** [t.Format("2006-01-02T15:04:05Z")] prints the date and the time of day to
    the second; the printed string is represented by the second it denotes.
    The empty string of an absent date is [None]. *)
Definition Format (t : Time) : Z := seconds t.

Record PageDataPubSub : Type := {
  DateTime : Time;
  Brand : string;
  URL : string;
  Type_ : string;
  Language : string;
  PublicationDate : Time;
  ModificationDate : option Time;
  Title : string;
  Description : string;
  Content : string;
  Section_ : string;
  SubSection : option string;
  Image : option string;
  IsPaid : bool
}.

(** A row of the relational table [page]: the columns that [getPageFromDB]
    scans into [PageData], and the brand. *)
Record PageData : Type := {
  p_brand : string;
  p_URL : string;
  p_Type : string;
  p_Language : string;
  p_PublicationDate : Time;
  p_ModificationDate : option Time;
  p_Title : string;
  p_Description : string;
  p_Content : string;
  p_Section : string;
  p_SubSection : option string;
  p_Image : option string;
  p_IsPaid : bool
}.

Definition Msg : Type := Message (option PageDataPubSub).

(** The two statements the consumer sends to PostgreSQL, with their
    arguments. *)
Inductive stmt : Type :=
| InsertPage (d : PageDataPubSub)
| UpdatePage (d : PageDataPubSub).

Definition inserted_row (d : PageDataPubSub) : PageData :=
  {| p_brand := Brand d; p_URL := URL d; p_Type := Type_ d; p_Language := Language d;
     p_PublicationDate := PublicationDate d; p_ModificationDate := ModificationDate d;
     p_Title := Title d; p_Description := Description d; p_Content := Content d;
     p_Section := Section_ d; p_SubSection := SubSection d; p_Image := Image d;
     p_IsPaid := IsPaid d |}.

Definition key_matches (brand url : string) (r : PageData) : bool :=
  (p_brand r =? brand)%string && (p_URL r =? url)%string.

Definition updated_row (d : PageDataPubSub) (r : PageData) : PageData :=
  if key_matches (Brand d) (URL d) r then
    {| p_brand := p_brand r; p_URL := p_URL r; p_Type := p_Type r;
       p_Language := p_Language r; p_PublicationDate := p_PublicationDate r;
       p_ModificationDate := ModificationDate d;
       p_Title := Title d; p_Description := Description d; p_Content := Content d;
       p_Section := Section_ d; p_SubSection := SubSection d; p_Image := Image d;
       p_IsPaid := IsPaid d |}
  else r.

Definition apply_stmt (t : list PageData) (st : stmt) : list PageData :=
  match st with
  | InsertPage d => t ++ [inserted_row d]
  | UpdatePage d => map (updated_row d) t
  end.

(** [database/sql] transaction: open, aborted by a failed statement (every
    later statement fails and Commit reports an error), or finished. *)
Inductive tx_status : Type := TxActive | TxAborted | TxDone.

(** The services the consumer talks to, as far as they can make it take
    another branch. *)
Record Services : Type := {
  beginOk : bool;                          (* db.Begin *)
  queryOk : string -> string -> bool;      (* the SELECT of getPageFromDB *)
  execOk : stmt -> bool;                   (* tx.Exec on an open transaction *)
  commitOk : bool;                         (* tx.Commit on an open transaction *)
  bqPutOk : list PageDataPubSub -> bool;   (* inserter.Put *)
  parseLocale : string -> option string;   (* language.Parse, then Base().String() *)
  detectLanguage : string -> string        (* whatlanggo.Detect(..).Lang.Iso6391() *)
}.

Record State : Type := {
  messages : list Msg;            (* bp.messages *)
  page : list PageData;           (* the committed table *)
  tx_state : tx_status;
  tx_pending : list stmt;         (* executed in the open transaction *)
  bq_page : list PageDataPubSub;  (* the BigQuery table *)
  handles : gmap nat verdict;
  logs : list logline
}.

Definition set_messages (l : list Msg) (s : State) : State :=
  {| messages := l; page := page s; tx_state := tx_state s; tx_pending := tx_pending s;
     bq_page := bq_page s; handles := handles s; logs := logs s |}.

Definition set_page (t : list PageData) (s : State) : State :=
  {| messages := messages s; page := t; tx_state := tx_state s;
     tx_pending := tx_pending s; bq_page := bq_page s; handles := handles s;
     logs := logs s |}.

Definition set_tx (st : tx_status) (p : list stmt) (s : State) : State :=
  {| messages := messages s; page := page s; tx_state := st; tx_pending := p;
     bq_page := bq_page s; handles := handles s; logs := logs s |}.

Definition set_bq_page (t : list PageDataPubSub) (s : State) : State :=
  {| messages := messages s; page := page s; tx_state := tx_state s;
     tx_pending := tx_pending s; bq_page := t; handles := handles s; logs := logs s |}.

Definition set_handles (h : gmap nat verdict) (s : State) : State :=
  {| messages := messages s; page := page s; tx_state := tx_state s;
     tx_pending := tx_pending s; bq_page := bq_page s; handles := h; logs := logs s |}.

Definition set_logs (l : list logline) (s : State) : State :=
  {| messages := messages s; page := page s; tx_state := tx_state s;
     tx_pending := tx_pending s; bq_page := bq_page s; handles := handles s;
     logs := l |}.

Local Open Scope m_scope.

Definition LogInfo (fmt : string) : M State unit :=
  modify (fun s => set_logs (logs s ++ [(INFO, fmt)]) s).

Definition LogError (fmt : string) : M State unit :=
  modify (fun s => set_logs (logs s ++ [(ERROR, fmt)]) s).

Definition Ack (m : Msg) : M State unit :=
  modify (fun s => set_handles (settle Acked (ID m) (handles s)) s).

Definition Nack (m : Msg) : M State unit :=
  modify (fun s => set_handles (settle Nacked (ID m) (handles s)) s).

Section WithServices.

Variable env : Services.

(** [db.Begin]; the result is [err != nil]. *)
Definition db_Begin : M State bool :=
  if beginOk env then modify (set_tx TxActive []) ;;; ret false
  else ret true.

(** [tx.Exec]; the result is [err != nil]. *)
Definition tx_Exec (st : stmt) : M State bool :=
  do s <- get;
  match tx_state s with
  | TxActive =>
      if execOk env st then modify (set_tx TxActive (tx_pending s ++ [st])) ;;; ret false
      else modify (set_tx TxAborted (tx_pending s)) ;;; ret true
  | TxAborted => ret true
  | TxDone => ret true
  end.

(** [tx.Rollback]; its result is not looked at. *)
Definition tx_Rollback : M State unit :=
  modify (set_tx TxDone []).

(** [tx.Commit]; the result is [err != nil]. Only a successful commit of an
    open transaction changes the table. *)
Definition tx_Commit : M State bool :=
  do s <- get;
  match tx_state s with
  | TxActive =>
      if commitOk env
      then modify (fun s => set_tx TxDone [] (set_page (fold_left apply_stmt (tx_pending s) (page s)) s)) ;;;
           ret false
      else modify (set_tx TxDone []) ;;; ret true
  | TxAborted => modify (set_tx TxDone []) ;;; ret true
  | TxDone => ret true
  end.

(** [getPageFromDB]: the Go pair [(page, err)], with [err != nil] as a
    boolean. The query runs on [db], outside the transaction, and sees the
    committed table only. The SELECT has no ORDER BY: should several rows
    have the key, [QueryRow] scans one of them, here the first in table
    order. *)
Definition getPageFromDB (brandName url : string) : M State (option PageData * bool) :=
  do s <- get;
  if queryOk env brandName url
  then ret (List.find (key_matches brandName url) (page s), false)
  else ret (None, true).

Definition option_Z_eqb (a b : option Z) : bool :=
  match a, b with
  | Some x, Some y => x =? y
  | None, None => true
  | _, _ => false
  end.

(** Body of the loop over [bp.messages]; the loop carries [msgsToAck] and
    [rows]. Returning them unchanged is the [continue] of the source. *)
Definition processMessage (msg : Msg) (acc : list Msg * list PageDataPubSub)
    : M State (list Msg * list PageDataPubSub) :=
  LogInfo "string(msg.Data)" ;;;
  match Data msg with
  | None => LogError "Error unmarshalling message: %s" ;;; Nack msg ;;; ret acc
  | Some d =>
      match parseLocale env (Language d) with
      | None => LogError "Failed to parse locale '%s': %v" ;;; Nack msg ;;; ret acc
      | Some pageLanguage =>
          let contentLanguage := detectLanguage env (Content d) in
          if negb (contentLanguage =? pageLanguage)%string then
            LogError "Content language and page locale meta doesn't match: %s / %s" ;;;
            Ack msg ;;; ret acc
          else
            LogInfo "Processing page for brand '%s' of type '%s' with url '%s'" ;;;
            do r <- getPageFromDB (Brand d) (URL d);
            match r with
            | (_, true) => LogError "Failed to get page: %v" ;;; Nack msg ;;; ret acc
            | (None, false) =>
                LogInfo "Page is new" ;;;
                do err <- tx_Exec (InsertPage d);
                if err then
                  tx_Rollback ;;; LogError "Error inserting into page: " ;;;
                  Nack msg ;;; ret acc
                else ret (fst acc ++ [msg], snd acc ++ [d])%list
            | (Some page, false) =>
                let currentModificationDate := option_map Format (p_ModificationDate page) in
                let newModificationDate := option_map Format (ModificationDate d) in
                if negb (option_Z_eqb currentModificationDate newModificationDate) then
                  LogInfo "Page has changed" ;;;
                  do err <- tx_Exec (UpdatePage d);
                  if err then LogError "Error updating page: " ;;; Nack msg ;;; ret acc
                  else ret (fst acc ++ [msg], snd acc ++ [d])%list
                else LogInfo "Page has not changed" ;;; ret acc
            end
      end
  end.

Definition processBatch : M State unit :=
  do s <- get;
  if (length (messages s) =? 0)%nat then ret tt
  else
    LogInfo "Processing %d messages" ;;;
    do err <- db_Begin;
    if err then LogError "Error starting transaction: " ;;; ret tt
    else
      do acc <- rangeM processMessage (messages s) ([], []);
      do err <- tx_Commit;
      (if err then LogError "Error committing transaction: "
       else LogInfo "Successfully inserted and updated rows in PostgreSQL.") ;;;
      (if bqPutOk env (snd acc)
       then modify (fun s1 => set_bq_page (bq_page s1 ++ snd acc) s1) ;;;
            rangeM (fun m (_ : unit) => Ack m) (fst acc) tt ;;;
            LogInfo "Successfully inserted %d rows in BigQuery."
       else LogError "Failed to insert rows: %v") ;;;
      LogInfo "Successfully processed %d out of %d messages in %dms." ;;;
      modify (set_messages []).

End WithServices.

(** *** Sample data *)

Definition t0 : Time := {| seconds := 1700000000; nanos := 0 |}.

Definition article : PageDataPubSub :=
  {| DateTime := t0; Brand := "brand"; URL := "https://example.org/a";
     Type_ := "article"; Language := "fr-FR"; PublicationDate := t0;
     ModificationDate := Some t0; Title := "Titre"; Description := "Resume";
     Content := "Bonjour tout le monde"; Section_ := "news"; SubSection := None;
     Image := None; IsPaid := false |}.

Definition page_msg (id : nat) : Msg := {| ID := id; Data := Some article |}.

(** Every service answers; the content is detected as French. *)
Definition all_ok : Services :=
  {| beginOk := true; queryOk := fun _ _ => true; execOk := fun _ => true;
     commitOk := true; bqPutOk := fun _ => true;
     parseLocale := fun _ => Some "fr"; detectLanguage := fun _ => "fr" |}.

(** The same, except that [tx.Commit] returns an error. *)
Definition commit_fails : Services :=
  {| beginOk := true; queryOk := fun _ _ => true; execOk := fun _ => true;
     commitOk := false; bqPutOk := fun _ => true;
     parseLocale := fun _ => Some "fr"; detectLanguage := fun _ => "fr" |}.

Definition holding (l : list Msg) (table : list PageData) : State :=
  {| messages := l; page := table; tx_state := TxDone; tx_pending := [];
     bq_page := []; handles := ∅; logs := [] |}.

End PageConsumer.

(** ** The user consumer *)

Module UserConsumer.

Record UserDataPubSub : Type := {
  DateTime : Z;
  Brand : string;
  LeadUUID : string;
  UserID : string;
  Email : string;
  FirstName : string;
  LastName : string;
  IsSubscriber : bool
}.

(** A row of the relational table [user]: the columns that [getUserFromDB]
    scans into [UserData], and the key. *)
Record UserData : Type := {
  u_brand : string;
  u_lead_uuid : string;
  u_UserID : string;
  u_Email : string;
  u_FirstName : string;
  u_LastName : string;
  u_IsSubscriber : bool
}.

Definition Msg : Type := Message (option UserDataPubSub).

Inductive stmt : Type :=
| InsertUser (d : UserDataPubSub)
| UpdateUser (d : UserDataPubSub).

Definition inserted_row (d : UserDataPubSub) : UserData :=
  {| u_brand := Brand d; u_lead_uuid := LeadUUID d; u_UserID := UserID d;
     u_Email := Email d; u_FirstName := FirstName d; u_LastName := LastName d;
     u_IsSubscriber := IsSubscriber d |}.

Definition key_matches (brand leadUuid : string) (r : UserData) : bool :=
  (u_brand r =? brand)%string && (u_lead_uuid r =? leadUuid)%string.

Definition updated_row (d : UserDataPubSub) (r : UserData) : UserData :=
  if key_matches (Brand d) (LeadUUID d) r then
    {| u_brand := u_brand r; u_lead_uuid := u_lead_uuid r; u_UserID := UserID d;
       u_Email := Email d; u_FirstName := FirstName d; u_LastName := LastName d;
       u_IsSubscriber := IsSubscriber d |}
  else r.

Definition apply_stmt (t : list UserData) (st : stmt) : list UserData :=
  match st with
  | InsertUser d => t ++ [inserted_row d]
  | UpdateUser d => map (updated_row d) t
  end.

Inductive tx_status : Type := TxActive | TxAborted | TxDone.

Record Services : Type := {
  beginOk : bool;                          (* db.Begin *)
  queryOk : string -> string -> bool;      (* the SELECT of getUserFromDB *)
  execOk : stmt -> bool;                   (* tx.Exec and db.Exec *)
  commitOk : bool;                         (* tx.Commit on an open transaction *)
  bqPutOk : list UserDataPubSub -> bool    (* inserter.Put *)
}.

Record State : Type := {
  messages : list Msg;            (* bp.messages *)
  user : list UserData;           (* the committed table *)
  tx_state : tx_status;
  tx_pending : list stmt;
  bq_user : list UserDataPubSub;  (* the BigQuery table *)
  handles : gmap nat verdict;
  logs : list logline
}.

Definition set_messages (l : list Msg) (s : State) : State :=
  {| messages := l; user := user s; tx_state := tx_state s; tx_pending := tx_pending s;
     bq_user := bq_user s; handles := handles s; logs := logs s |}.

Definition set_user (t : list UserData) (s : State) : State :=
  {| messages := messages s; user := t; tx_state := tx_state s;
     tx_pending := tx_pending s; bq_user := bq_user s; handles := handles s;
     logs := logs s |}.

Definition set_tx (st : tx_status) (p : list stmt) (s : State) : State :=
  {| messages := messages s; user := user s; tx_state := st; tx_pending := p;
     bq_user := bq_user s; handles := handles s; logs := logs s |}.

Definition set_bq_user (t : list UserDataPubSub) (s : State) : State :=
  {| messages := messages s; user := user s; tx_state := tx_state s;
     tx_pending := tx_pending s; bq_user := t; handles := handles s; logs := logs s |}.

Definition set_handles (h : gmap nat verdict) (s : State) : State :=
  {| messages := messages s; user := user s; tx_state := tx_state s;
     tx_pending := tx_pending s; bq_user := bq_user s; handles := h; logs := logs s |}.

Definition set_logs (l : list logline) (s : State) : State :=
  {| messages := messages s; user := user s; tx_state := tx_state s;
     tx_pending := tx_pending s; bq_user := bq_user s; handles := handles s;
     logs := l |}.

Local Open Scope m_scope.

Definition LogInfo (fmt : string) : M State unit :=
  modify (fun s => set_logs (logs s ++ [(INFO, fmt)]) s).

Definition LogError (fmt : string) : M State unit :=
  modify (fun s => set_logs (logs s ++ [(ERROR, fmt)]) s).

Definition Ack (m : Msg) : M State unit :=
  modify (fun s => set_handles (settle Acked (ID m) (handles s)) s).

Definition Nack (m : Msg) : M State unit :=
  modify (fun s => set_handles (settle Nacked (ID m) (handles s)) s).

Section WithServices.

Variable env : Services.

Definition db_Begin : M State bool :=
  if beginOk env then modify (set_tx TxActive []) ;;; ret false
  else ret true.

Definition tx_Exec (st : stmt) : M State bool :=
  do s <- get;
  match tx_state s with
  | TxActive =>
      if execOk env st then modify (set_tx TxActive (tx_pending s ++ [st])) ;;; ret false
      else modify (set_tx TxAborted (tx_pending s)) ;;; ret true
  | TxAborted => ret true
  | TxDone => ret true
  end.

(** [db.Exec]: the statement runs on its own, outside the transaction, and
    is committed at once. *)
Definition db_Exec (st : stmt) : M State bool :=
  if execOk env st then modify (fun s => set_user (apply_stmt (user s) st) s) ;;; ret false
  else ret true.

Definition tx_Rollback : M State unit :=
  modify (set_tx TxDone []).

Definition tx_Commit : M State bool :=
  do s <- get;
  match tx_state s with
  | TxActive =>
      if commitOk env
      then modify (fun s => set_tx TxDone [] (set_user (fold_left apply_stmt (tx_pending s) (user s)) s)) ;;;
           ret false
      else modify (set_tx TxDone []) ;;; ret true
  | TxAborted => modify (set_tx TxDone []) ;;; ret true
  | TxDone => ret true
  end.

Definition getUserFromDB (brandName leadUuid : string) : M State (option UserData * bool) :=
  do s <- get;
  if queryOk env brandName leadUuid
  then ret (List.find (key_matches brandName leadUuid) (user s), false)
  else ret (None, true).

Definition processMessage (msg : Msg) (acc : list Msg * list UserDataPubSub)
    : M State (list Msg * list UserDataPubSub) :=
  match Data msg with
  | None => LogError "Error unmarshalling message: %s" ;;; Nack msg ;;; ret acc
  | Some d =>
      LogInfo "Processing user for brand '%s' with lead UUID '%s'" ;;;
      do r <- getUserFromDB (Brand d) (LeadUUID d);
      match r with
      | (_, true) => LogError "Failed to get user: %v" ;;; Nack msg ;;; ret acc
      | (None, false) =>
          LogInfo "User is new" ;;;
          do err <- tx_Exec (InsertUser d);
          if err then
            tx_Rollback ;;; LogError "Error inserting into user: " ;;;
            Nack msg ;;; ret acc
          else ret (fst acc ++ [msg], snd acc ++ [d])%list
      | (Some user, false) =>
          if negb (Bool.eqb (u_IsSubscriber user) (IsSubscriber d)) then
            LogInfo "User has changed" ;;;
            do err <- db_Exec (UpdateUser d);
            if err then LogError "Error updating user: " ;;; Nack msg ;;; ret acc
            else ret (fst acc ++ [msg], snd acc ++ [d])%list
          else LogInfo "User has not changed" ;;; ret acc
      end
  end.

Definition processBatch : M State unit :=
  do s <- get;
  if (length (messages s) =? 0)%nat then ret tt
  else
    LogInfo "Processing %d messages" ;;;
    do err <- db_Begin;
    if err then LogError "Error starting transaction: " ;;; ret tt
    else
      do acc <- rangeM processMessage (messages s) ([], []);
      do err <- tx_Commit;
      (if err then LogError "Error committing transaction: "
       else LogInfo "Successfully inserted and updated rows in PostgreSQL.") ;;;
      (if bqPutOk env (snd acc)
       then modify (fun s1 => set_bq_user (bq_user s1 ++ snd acc) s1) ;;;
            rangeM (fun m (_ : unit) => Ack m) (fst acc) tt ;;;
            LogInfo "Successfully inserted %d rows in BigQuery."
       else LogError "Failed to insert rows: %v") ;;;
      LogInfo "Successfully processed %d out of %d messages in %dms." ;;;
      modify (set_messages []).

End WithServices.

(** *** Sample data *)

Definition reader : UserDataPubSub :=
  {| DateTime := 1700000000; Brand := "brand"; LeadUUID := "lead-1"; UserID := "u-1";
     Email := "reader@example.org"; FirstName := "Ada"; LastName := "L";
     IsSubscriber := false |}.

Definition user_msg (id : nat) : Msg := {| ID := id; Data := Some reader |}.

Definition all_ok : Services :=
  {| beginOk := true; queryOk := fun _ _ => true; execOk := fun _ => true;
     commitOk := true; bqPutOk := fun _ => true |}.

Definition commit_fails : Services :=
  {| beginOk := true; queryOk := fun _ _ => true; execOk := fun _ => true;
     commitOk := false; bqPutOk := fun _ => true |}.

Definition holding (l : list Msg) (table : list UserData) : State :=
  {| messages := l; user := table; tx_state := TxDone; tx_pending := [];
     bq_user := []; handles := ∅; logs := [] |}.

End UserConsumer.

(** ** Rollup upserts of the aggregation jobs *)

Module Rollup.

(** The measures of one rollup row ([article_metrics],
    [lead_engagement_metrics]). The averages are SQL numbers, taken here as
    exact rationals: the rounding of the column type is not modelled. *)
Record Metrics : Type := {
  view_count : Z;
  avg_time_spent : Q;
  avg_reading_rate : Q
}.

(** The conflict target: brand, url or lead_uuid, calculation_period. *)
Definition Key : Type := (string * string * string)%type.

(** [DO UPDATE SET ...]: every right-hand side reads the existing row and
    [EXCLUDED], the row proposed for insertion. A zero divisor makes the
    statement fail. *)
Definition do_update (old excluded : Metrics) : option Metrics :=
  let n := view_count old + view_count excluded in
  if n =? 0 then None
  else Some {| view_count := n;
               avg_time_spent :=
                 (avg_time_spent old + avg_time_spent excluded) / inject_Z n;
               avg_reading_rate :=
                 (avg_reading_rate old + avg_reading_rate excluded) / inject_Z n |}.

(** [INSERT ... ON CONFLICT (key) DO UPDATE ...]; [None] when the statement
    fails. *)
Definition upsert (k : Key) (v : Metrics) (t : gmap Key Metrics)
    : option (gmap Key Metrics) :=
  match t !! k with
  | None => Some (<[k := v]> t)
  | Some old =>
      match do_update old v with
      | Some new => Some (<[k := new]> t)
      | None => None
      end
  end.

(** [db.Exec(insertQuery, ...)] in the job: an error is logged and the loop
    goes on with the table as it was. *)
Definition exec_insert (k : Key) (v : Metrics) (t : gmap Key Metrics)
    : gmap Key Metrics :=
  default t (upsert k v t).

(** The merge as the specification's data model words it: the mean of the
    two averages weighted by their counts. *)
Definition spec_weighted_mean (old_avg : Q) (old_count : Z) (new_avg : Q) (new_count : Z) : Q :=
  (old_avg * inject_Z old_count + new_avg * inject_Z new_count)
  / inject_Z (old_count + new_count).

(** The rows of the specification's example; the reading rates are ours. *)
Definition existing_row : Metrics :=
  {| view_count := 10; avg_time_spent := 50; avg_reading_rate := 1 # 2 |}.

Definition incoming_row : Metrics :=
  {| view_count := 5; avg_time_spent := 80; avg_reading_rate := 1 # 4 |}.

End Rollup.

(** ** The lead engagement score *)

Module Score.

(** One row of the CTE [monthly_metrics]. The view counts are sums of
    integers; the averages are [ROUND(AVG(...), 2)] numerics, taken as exact
    rationals. None of them is NULL: each aggregate has an [ELSE 0]. *)
Record monthly_metrics : Type := {
  views_month_1 : Z;
  views_month_2 : Z;
  views_month_3 : Z;
  avg_time_spent_month_1 : Q;
  avg_time_spent_month_2 : Q;
  avg_time_spent_month_3 : Q;
  avg_reading_rate_month_1 : Q;
  avg_reading_rate_month_2 : Q;
  avg_reading_rate_month_3 : Q
}.

(** SQL NULL is [None]. *)
Definition NULLIF (a b : Z) : option Z := if a =? b then None else Some a.

(** Division of numerics, NULL when the divisor is NULL. The quotient is
    taken exact. *)
Definition sql_div (x : Q) (d : option Z) : option Q :=
  match d with
  | Some n => Some (x / inject_Z n)%Q
  | None => None
  end.

(** [ROUND(x, 2)] on numeric: nearest multiple of 0.01, ties away from
    zero. *)
Definition ROUND2 (x : Q) : Q :=
  (if Qle_bool 0 x then inject_Z (Qfloor (x * 100 + (1 # 2))) / 100
   else - (inject_Z (Qfloor (- x * 100 + (1 # 2))) / 100))%Q.

(** [GREATEST] and [LEAST] ignore NULL arguments. *)
Definition GREATEST (a : option Q) (b : Q) : Q :=
  match a with
  | Some x => Qmax x b
  | None => b
  end.

Definition LEAST (a b : Q) : Q := Qmin a b.

(** The numerator of the [ELSE] branch. *)
Definition weighted_delta (m : monthly_metrics) : Q :=
  ((2 # 10) * inject_Z (views_month_2 m - views_month_1 m) +
   (5 # 10) * inject_Z (views_month_3 m - views_month_2 m) +
   (1 # 10) * (avg_time_spent_month_2 m - avg_time_spent_month_1 m) +
   (3 # 10) * (avg_time_spent_month_3 m - avg_time_spent_month_2 m) +
   (1 # 10) * (avg_reading_rate_month_2 m - avg_reading_rate_month_1 m) +
   (3 # 10) * (avg_reading_rate_month_3 m - avg_reading_rate_month_2 m))%Q.

Definition total_views (m : monthly_metrics) : Z :=
  views_month_3 m + views_month_2 m + views_month_1 m.

(** The [CASE ... END AS score] column of [getLeadEngagementScore]. *)
Definition score (m : monthly_metrics) : Q :=
  if (views_month_1 m =? 0) && (views_month_2 m =? 0) && (views_month_3 m >=? 0) then 0%Q
  else if (views_month_2 m =? 0) && (views_month_3 m =? 0) then (- (1))%Q
  else
    LEAST
      (GREATEST
         (option_map ROUND2 (sql_div (weighted_delta m) (NULLIF (total_views m) 0)))
         (- (1))%Q)
      1%Q.

(** Three windows that differ in their views only. *)
Definition views_only (v1 v2 v3 : Z) : monthly_metrics :=
  {| views_month_1 := v1; views_month_2 := v2; views_month_3 := v3;
     avg_time_spent_month_1 := 0; avg_time_spent_month_2 := 0;
     avg_time_spent_month_3 := 0; avg_reading_rate_month_1 := 0;
     avg_reading_rate_month_2 := 0; avg_reading_rate_month_3 := 0 |}.

End Score.

(** ** Lead-event consumer: what a flush does to the handles *)

Module LeadEventOutcome.
Import LeadEvent.

(** The payload of a message for which the loop stages a row: it decodes
    and its [metas] can be encoded again. *)
Definition staged_payload (m : Msg) : option LeadEventDataPubSub :=
  match Data m with
  | Some d => match Metas d with Some _ => Some d | None => None end
  | None => None
  end.

Definition staged_payloads (msgs : list Msg) : list LeadEventDataPubSub :=
  omap staged_payload msgs.

(** The handles after the [Nack] calls of the loop, and after the [Ack]
    calls that follow a successful insert. *)
Definition nack_unstaged (h : gmap nat verdict) (msgs : list Msg) : gmap nat verdict :=
  fold_left (fun h m => match staged_payload m with
                        | Some _ => h
                        | None => settle Nacked (ID m) h
                        end) msgs h.

Definition ack_all (h : gmap nat verdict) (msgs : list Msg) : gmap nat verdict :=
  fold_left (fun h m => settle Acked (ID m) h) msgs h.

Definition undecodable (id : nat) : Msg := {| ID := id; Data := None |}.

(** A consumer about to flush a message that does not decode, followed by
    two lead events. *)
Definition holding_mixed : State :=
  set_bp (set_messages [undecodable 9; m1; m3]) (initial 0 5 10 geo_one put_succeeds).

(** BigQuery refuses every insert. [inserter.Put] of no rows makes no
    request and returns nil. *)
Definition put_fails (rows : list Row) : bool :=
  match rows with
  | [] => true
  | _ :: _ => false
  end.

Definition holding_unlucky : State :=
  set_bp (set_messages [m1; m3]) (initial 0 5 10 geo_one put_fails).

Definition behavior_event : LeadEventDataPubSub :=
  {| Brand := "brand"; UUID := "b-1"; LeadUUID := "lead-1"; Name := "page_behavior";
     PageType := "article"; PageLanguage := "fr"; Device := "desktop";
     Url := "https://example.org/a"; Referrer := ""; ReferrerType := "";
     RelevantReferrer := ""; Metas := Some "{}"; Consent := true;
     IP := "203.0.113.7" |}.

End LeadEventOutcome.

(** ** Page consumer: the state in which the loop of a flush starts *)

Module PageConsumerFlush.
Import PageConsumer.

(** After the first log line and a successful [db.Begin]. *)
Definition began (s : State) : State :=
  set_tx TxActive [] (set_logs (logs s ++ [(INFO, "Processing %d messages")]) s).

(** The handles after [Ack] on each message of a list. *)
Definition ack_all (h : gmap nat verdict) (msgs : list Msg) : gmap nat verdict :=
  fold_left (fun h m => settle Acked (ID m) h) msgs h.

End PageConsumerFlush.

(** ** Page and user consumers: more sample data *)

Module ConsumerSamples.

(** The article of [PageConsumer.article], modified one hour later. *)
Definition article_v2 : PageConsumer.PageDataPubSub :=
  {| PageConsumer.DateTime := PageConsumer.t0;
     PageConsumer.Brand := "brand"; PageConsumer.URL := "https://example.org/a";
     PageConsumer.Type_ := "article"; PageConsumer.Language := "fr-FR";
     PageConsumer.PublicationDate := PageConsumer.t0;
     PageConsumer.ModificationDate :=
       Some {| PageConsumer.seconds := 1700003600; PageConsumer.nanos := 0 |};
     PageConsumer.Title := "Titre corrige"; PageConsumer.Description := "Resume";
     PageConsumer.Content := "Bonjour tout le monde"; PageConsumer.Section_ := "news";
     PageConsumer.SubSection := None; PageConsumer.Image := None;
     PageConsumer.IsPaid := false |}.

(** Another article of the same brand. *)
Definition article_b : PageConsumer.PageDataPubSub :=
  {| PageConsumer.DateTime := PageConsumer.t0;
     PageConsumer.Brand := "brand"; PageConsumer.URL := "https://example.org/b";
     PageConsumer.Type_ := "article"; PageConsumer.Language := "fr-FR";
     PageConsumer.PublicationDate := PageConsumer.t0;
     PageConsumer.ModificationDate := None;
     PageConsumer.Title := "Autre"; PageConsumer.Description := "Resume";
     PageConsumer.Content := "Encore un texte"; PageConsumer.Section_ := "news";
     PageConsumer.SubSection := None; PageConsumer.Image := None;
     PageConsumer.IsPaid := true |}.

Definition msg_of (id : nat) (d : PageConsumer.PageDataPubSub) : PageConsumer.Msg :=
  {| ID := id; Data := Some d |}.

(** Every service answers, but the content is detected as English. *)
Definition detects_english : PageConsumer.Services :=
  {| PageConsumer.beginOk := true; PageConsumer.queryOk := fun _ _ => true;
     PageConsumer.execOk := fun _ => true; PageConsumer.commitOk := true;
     PageConsumer.bqPutOk := fun _ => true;
     PageConsumer.parseLocale := fun _ => Some "fr";
     PageConsumer.detectLanguage := fun _ => "en" |}.

(** Every service answers, but PostgreSQL refuses to insert [article_b]. *)
Definition refuses_b : PageConsumer.Services :=
  {| PageConsumer.beginOk := true; PageConsumer.queryOk := fun _ _ => true;
     PageConsumer.execOk :=
       fun st => match st with
                 | PageConsumer.InsertPage d =>
                     negb (PageConsumer.URL d =? "https://example.org/b")%string
                 | PageConsumer.UpdatePage _ => true
                 end;
     PageConsumer.commitOk := true; PageConsumer.bqPutOk := fun _ => true;
     PageConsumer.parseLocale := fun _ => Some "fr";
     PageConsumer.detectLanguage := fun _ => "fr" |}.

(** Every service answers, but the SELECT for the key of
    [PageConsumer.article] returns an error. *)
Definition lookup_fails_a : PageConsumer.Services :=
  {| PageConsumer.beginOk := true;
     PageConsumer.queryOk :=
       fun _ url => negb (url =? "https://example.org/a")%string;
     PageConsumer.execOk := fun _ => true;
     PageConsumer.commitOk := true; PageConsumer.bqPutOk := fun _ => true;
     PageConsumer.parseLocale := fun _ => Some "fr";
     PageConsumer.detectLanguage := fun _ => "fr" |}.

(** The reader of [UserConsumer.reader], now a subscriber. *)
Definition subscriber : UserConsumer.UserDataPubSub :=
  {| UserConsumer.DateTime := 1700003600; UserConsumer.Brand := "brand";
     UserConsumer.LeadUUID := "lead-1"; UserConsumer.UserID := "u-1";
     UserConsumer.Email := "reader@example.org"; UserConsumer.FirstName := "Ada";
     UserConsumer.LastName := "L"; UserConsumer.IsSubscriber := true |}.

Definition user_msg_of (id : nat) (d : UserConsumer.UserDataPubSub) : UserConsumer.Msg :=
  {| ID := id; Data := Some d |}.

End ConsumerSamples.

(** ** The backfill jobs for [article_metrics] and [lead_engagement_metrics] *)

Module RollupJob.
Import Rollup.

(** [time.Time]: the instant in nanoseconds and, for its location, the
    offset of the wall clock at each instant (constant for UTC and for a
    fixed offset). *)
Record Time : Type := { unix : Z; zone : Z -> Z }.

Definition Before (t u : Time) : bool := unix t <? unix u.

Definition Add (t : Time) (d : Z) : Time := {| unix := unix t + d; zone := zone t |}.

Definition hour : Z := 3600 * 1000000000.
Definition day : Z := 24 * hour.

Section Backfill.

(** The step of the loop: [1 * time.Hour] for the article metrics,
    [24 * time.Hour] for the lead engagement metrics. *)
Variable step : Z.

(** How a count of whole steps of wall clock prints as the
    [calculation_period] string ("2006-01-02 15:00:00", "2006-01-02
    00:00:00"). *)
Variable render : Z -> string.

(** BigQuery: the rows [(url or lead_uuid, measures)] read for a brand and
    an interval before the iterator ends or fails; [None] when [query.Run]
    or [it.Read] fails. *)
Variable query : string -> Time -> Time -> option (list (string * Metrics)).

(** [intervalStart.Format("2006-01-02 15") + ":00:00"]: the wall clock of
    the interval start, truncated to the step. *)
Definition period (t : Time) : string := render ((unix t + zone t (unix t)) / step).

(** The loop over the rows of one interval. *)
Definition store_rows (brandName : string) (label : string)
    (rows : list (string * Metrics)) (tbl : gmap Key Metrics) : gmap Key Metrics :=
  fold_left (fun tbl r => exec_insert (brandName, fst r, label) (snd r) tbl) rows tbl.

(** Body of the loop over the intervals; a failed query is the [continue]
    of the source. *)
Definition interval_body (brandName : string) (t : Time) (tbl : gmap Key Metrics)
    : gmap Key Metrics :=
  match query brandName t (Add t step) with
  | None => tbl
  | Some rows => store_rows brandName (period t) rows tbl
  end.

(** [for t := startDate; t.Before(endDate); t = t.Add(step) { ... }] in the
    goroutine of one brand, with a bound on the number of iterations;
    [None] when the bound is reached before the loop ends. *)
Fixpoint backfill (fuel : nat) (brandName : string) (t endDate : Time)
    (tbl : gmap Key Metrics) : option (gmap Key Metrics) :=
  if Before t endDate then
    match fuel with
    | O => None
    | S fuel' =>
        backfill fuel' brandName (Add t step) endDate (interval_body brandName t tbl)
    end
  else Some tbl.

(** The number of iterations the loop needs. *)
Definition iterations (startDate endDate : Time) : nat :=
  Z.to_nat ((unix endDate - unix startDate + step - 1) / step).

End Backfill.

(** Sample data: article metrics from 00:00:00 to 02:00:05 UTC. *)
Definition utc (ns : Z) : Time := {| unix := ns; zone := fun _ => 0 |}.

Definition sample_query (brandName : string) (t u : Time)
    : option (list (string * Metrics)) :=
  Some [("https://example.org/a", existing_row); ("https://example.org/b", incoming_row)].

Definition sample_render (n : Z) : string := pretty n.

End RollupJob.

(** ** The collector: the HTTP handlers that feed the topics *)

(** [go-weather]: the handlers behind [/collect/v1/page-data] and
    [/collect/v1/lead-event], with [isCollectAllowed] and what it calls.
    Redis is a map from keys to values with the instant at which they expire;
    the clock stands still while one request is served. The values are the
    two kinds the handlers write: the string [exists] and the JSON document
    of a brand, which [json.Unmarshal] reads back as the brand that
    [json.Marshal] wrote (strings are taken as valid UTF-8). The log lines
    are left out of this module. *)

Module Collector.

Record Brand : Type := { Name : string; Host : string; SiteHost : string }.

Inductive cached : Type :=
| Exists_                  (* "exists" *)
| BrandJSON (b : Brand).   (* json.Marshal(brand) *)

Record entry : Type := { value : cached; expires : Z }.

(** What the outside world answers while one request is served. *)
Record Env : Type := {
  redis_get_err : string -> bool;       (* GET fails (not redis.Nil) *)
  redis_set_err : string -> bool;       (* SET fails *)
  brand_row : string -> option (string * string);
                                        (* SELECT name, site_host FROM brand WHERE host = $1 *)
  url_Parse : string -> option string;  (* the Host of the parsed URL *)
  referrer_Medium : string -> string;   (* referrerparser.Parse(s).Medium *)
  publish_err : bool;                   (* result.Get returns an error *)
  new_uuid : string;                    (* uuid.New().String() *)
  Time_String : PageConsumer.Time -> string
}.

Record State : Type := {
  now : Z;                              (* nanoseconds *)
  redis : gmap string entry;
  topic_page : list PageConsumer.PageDataPubSub;
  topic_lead_event : list LeadEvent.LeadEventDataPubSub
}.

Definition set_redis (f : gmap string entry -> gmap string entry) (s : State) : State :=
  {| now := now s; redis := f (redis s); topic_page := topic_page s;
     topic_lead_event := topic_lead_event s |}.

Definition second : Z := 1000000000.
Definition minute : Z := 60 * second.

Inductive get_result : Type :=
| Nil                      (* redis.Nil: no such key *)
| GetErr
| Found (v : cached).

Definition redis_Get (env : Env) (key : string) (s : State) : get_result :=
  if redis_get_err env key then GetErr
  else match redis s !! key with
       | Some e => if now s <? expires e then Found (value e) else Nil
       | None => Nil
       end.

(** [redisClient.Set(ctx, key, v, ttl).Err()]: [true] when it worked. *)
Definition redis_Set (env : Env) (key : string) (v : cached) (ttl : Z) (s : State)
    : bool * State :=
  if redis_set_err env key then (false, s)
  else (true, set_redis (insert key {| value := v; expires := now s + ttl |}) s).

(** *** [isUserAgentBlocked] *)

Definition blockedUserAgents : list string := [
  "curl";
  "wget";
  "PostmanRuntime";
  "Apache-HttpClient";
  "Python-urllib";
  "Java/1.";
  "libwww-perl";
  "PHP";
  "Go-http-client";
  "HTTrack";
  "Rogue Wave";
  "Mozilla/4.0 (compatible; MSIE 6.0; Windows NT 5.1; SV1; .NET CLR 1.1.4322)";
  "Mozilla/4.0 (compatible; MSIE 6.0; Windows NT 5.0; SV1; .NET CLR 1.1.4322)";
  "Mozilla/4.0 (compatible; MSIE 6.0; Windows NT 5.1; SV1; .NET CLR 1.0.3705)";
  "Mozilla/4.0 (compatible; MSIE 6.0; Windows NT 5.1; SV1; .NET CLR 1.0.3705; .NET CLR 1.1.4322)";
  "Mozilla/4.0 (compatible; MSIE 6.0; Windows NT 5.1; SV1; .NET CLR 1.0.3705; .NET CLR 1.1.4322; .NET CLR 2.0.50727)";
  "Mozilla/4.0 (compatible; MSIE 6.0; Windows NT 5.1; SV1; .NET CLR 3.0.04506.30)";
  "Mozilla/4.0 (compatible; MSIE 6.0; Windows NT 5.1; SV1; .NET CLR 3.5.30729)";
  "Mozilla/4.0 (compatible; MSIE 7.0; Windows NT 6.0; Trident/4.0)";
  "Mozilla/4.0 (compatible; MSIE 8.0; Windows NT 6.0; Trident/4.0)";
  "Mozilla/4.0 (compatible; MSIE 9.0; Windows NT 6.1; Trident/5.0)";
  "Mozilla/4.0 (compatible; MSIE 10.0; Windows NT 6.1; Trident/6.0)";
  "Mozilla/5.0 (compatible; Yahoo! Slurp; http://help.yahoo.com/help/us/ysearch/slurp)";
  "Mozilla/5.0 (compatible; Googlebot/2.1; +http://www.google.com/bot.html)";
  "Mozilla/5.0 (compatible; Bingbot/2.0; +http://www.bing.com/bingbot.htm)";
  "Mozilla/5.0 (compatible; Baiduspider/2.0; +http://www.baidu.com/search/spider.html)";
  "Mozilla/5.0 (compatible; YandexBot/3.0; +http://yandex.com/bots)"
].

(** [strings.Contains]: [substr] starts at some position of [s]. *)
Fixpoint Contains (s substr : string) : bool :=
  String.prefix substr s ||
  match s with
  | EmptyString => false
  | String _ s' => Contains s' substr
  end.

(** The first result of [isUserAgentBlocked]; the error is non-nil exactly
    when it is [true]. *)
Fixpoint isUserAgentBlocked_in (blocked : list string) (userAgent : string) : bool :=
  match blocked with
  | [] => false
  | b :: rest => if Contains userAgent b then true else isUserAgentBlocked_in rest userAgent
  end.

Definition isUserAgentBlocked (userAgent : string) : bool :=
  isUserAgentBlocked_in blockedUserAgents userAgent.

(** *** [getBrandFromHost] *)

Definition brand_key (host : string) : string := "brand:" +:+ host.

Definition getBrandFromHost (env : Env) (host : string) (s : State)
    : option Brand * State :=
  let cacheKey := brand_key host in
  match redis_Get env cacheKey s with
  | Found (BrandJSON brand) => (Some brand, s)
  | Found Exists_ => (None, s)           (* Error unmarshalling brand *)
  | Nil | GetErr =>
      match brand_row env host with
      | None => (None, s)                (* Error querying database *)
      | Some (name, site_host) =>
          let brand := {| Name := name; Host := host; SiteHost := site_host |} in
          (Some brand, snd (redis_Set env cacheKey (BrandJSON brand) RollupJob.hour s))
      end
  end.

(** *** [isCollectAllowed] *)

Module http.

(** [http.Request] as the handlers read it: [Body] is the decoded JSON
    payload ([None] when decoding fails), [ClientIP] is what [getClientIP]
    returns for the request. *)
Record Request (B : Type) : Type := {
  Method : string;
  UserAgent : string;
  Host : string;
  Origin : string;
  ClientIP : string;
  Body : option B
}.
Arguments Method {B} _.
Arguments UserAgent {B} _.
Arguments Host {B} _.
Arguments Origin {B} _.
Arguments ClientIP {B} _.
Arguments Body {B} _.

Definition StatusNoContent : Z := 204.
Definition StatusBadRequest : Z := 400.
Definition StatusForbidden : Z := 403.
Definition StatusMethodNotAllowed : Z := 405.
Definition StatusInternalServerError : Z := 500.

End http.

(** The brand, or the status code that goes with the error. *)
Definition isCollectAllowed {B} (env : Env) (r : http.Request B) (s : State)
    : (Brand + Z) * State :=
  if negb (http.Method r =? "POST")%string then (inr http.StatusMethodNotAllowed, s)
  else if isUserAgentBlocked (http.UserAgent r) then (inr http.StatusForbidden, s)
  else
    let host := http.Host r in
    if (host =? "")%string then (inr http.StatusBadRequest, s)
    else
      match getBrandFromHost env host s with
      | (None, s1) => (inr http.StatusInternalServerError, s1)
      | (Some brand, s1) =>
          let origin := http.Origin r in
          if (origin =? "")%string then (inl brand, s1)
          else
            match url_Parse env origin with
            | None => (inr http.StatusBadRequest, s1)
            | Some parsedOrigin_Host =>
                if negb (parsedOrigin_Host =? SiteHost brand)%string
                   && negb (parsedOrigin_Host =? Host brand)%string
                then (inr http.StatusForbidden, s1)
                else (inl brand, s1)
            end
      end.

(** What the handler writes to the [http.ResponseWriter]. *)
Record Response : Type := { status : Z; lead_uuid_cookie : option string }.

Definition respond (code : Z) : Response := {| status := code; lead_uuid_cookie := None |}.

(** *** [collectPageDataHandler] *)

Record PageData : Type := {
  URL : string;
  Type_ : string;
  Language : string;
  PublicationDate : PageConsumer.Time;
  ModificationDate : option PageConsumer.Time;
  Title : string;
  Description : string;
  Content : string;
  Section_ : string;
  SubSection : option string;
  Image : option string;
  IsPaid : bool
}.

(** [time.Now().UTC()] *)
Definition time_Now (s : State) : PageConsumer.Time :=
  {| PageConsumer.seconds := now s / second; PageConsumer.nanos := now s mod second |}.

(** The record that [publishPageData] serialises. *)
Definition pageDataPubSub (brandName : string) (pageData : PageData) (s : State)
    : PageConsumer.PageDataPubSub :=
  {| PageConsumer.DateTime := time_Now s;
     PageConsumer.Brand := brandName;
     PageConsumer.URL := URL pageData;
     PageConsumer.Type_ := Type_ pageData;
     PageConsumer.Language := Language pageData;
     PageConsumer.PublicationDate := PublicationDate pageData;
     PageConsumer.ModificationDate := ModificationDate pageData;
     PageConsumer.Title := Title pageData;
     PageConsumer.Description := Description pageData;
     PageConsumer.Content := Content pageData;
     PageConsumer.Section_ := Section_ pageData;
     PageConsumer.SubSection := SubSection pageData;
     PageConsumer.Image := Image pageData;
     PageConsumer.IsPaid := IsPaid pageData |}.

(** [publishPageData]: [true] when it returns an error; the message is on
    the topic when it does not. *)
Definition publishPageData (env : Env) (brandName : string) (pageData : PageData)
    (s : State) : bool * State :=
  if publish_err env then (true, s)
  else (false,
        {| now := now s; redis := redis s;
           topic_page := topic_page s ++ [pageDataPubSub brandName pageData s];
           topic_lead_event := topic_lead_event s |}).

Definition page_key (env : Env) (brand : Brand) (pageData : PageData) : string :=
  let modificationDateString :=
    match ModificationDate pageData with
    | Some t => Time_String env t
    | None => ""
    end in
  "page:" +:+ Name brand +:+ ":" +:+ URL pageData +:+ ":" +:+ modificationDateString.

(** The handler once [isCollectAllowed] has returned the brand. *)
Definition collectPageData (env : Env) (brand : Brand) (r : http.Request PageData)
    (s : State) : Response * State :=
  match http.Body r with
  | None => (respond http.StatusBadRequest, s)
  | Some pageData =>
      let cacheKey := page_key env brand pageData in
      match redis_Get env cacheKey s with
      | Nil =>
          let s1 := snd (publishPageData env (Name brand) pageData s) in
          let s2 := snd (redis_Set env cacheKey Exists_ (10 * minute) s1) in
          (respond http.StatusNoContent, s2)
      | GetErr => (respond http.StatusInternalServerError, s)
      | Found _ => (respond http.StatusNoContent, s)
      end
  end.

Definition collectPageDataHandler (env : Env) (r : http.Request PageData) (s : State)
    : Response * State :=
  match isCollectAllowed env r s with
  | (inr errorCode, s1) => (respond errorCode, s1)
  | (inl brand, s1) => collectPageData env brand r s1
  end.

(** *** [collectLeadEventDataHandler] *)

Definition allowedLeadEvents : gmap string bool :=
  {[ "page_view" := true; "page_behavior" := true ]}.

(** [allowedLeadEvents[name]]: a missing key reads as [false]. *)
Definition allowed (name : string) : bool := default false (allowedLeadEvents !! name).

Definition with_LeadUUID (v : string) (d : LeadEvent.LeadEventData) : LeadEvent.LeadEventData :=
  {| LeadEvent.c_UUID := LeadEvent.c_UUID d; LeadEvent.c_LeadUUID := v;
     LeadEvent.c_Name := LeadEvent.c_Name d; LeadEvent.c_PageType := LeadEvent.c_PageType d;
     LeadEvent.c_PageLanguage := LeadEvent.c_PageLanguage d;
     LeadEvent.c_Device := LeadEvent.c_Device d; LeadEvent.c_Url := LeadEvent.c_Url d;
     LeadEvent.c_Referrer := LeadEvent.c_Referrer d;
     LeadEvent.c_ReferrerType := LeadEvent.c_ReferrerType d;
     LeadEvent.c_RelevantReferrer := LeadEvent.c_RelevantReferrer d;
     LeadEvent.c_Metas := LeadEvent.c_Metas d; LeadEvent.c_Consent := LeadEvent.c_Consent d |}.

Definition with_ReferrerType (v : string) (d : LeadEvent.LeadEventData)
    : LeadEvent.LeadEventData :=
  {| LeadEvent.c_UUID := LeadEvent.c_UUID d; LeadEvent.c_LeadUUID := LeadEvent.c_LeadUUID d;
     LeadEvent.c_Name := LeadEvent.c_Name d; LeadEvent.c_PageType := LeadEvent.c_PageType d;
     LeadEvent.c_PageLanguage := LeadEvent.c_PageLanguage d;
     LeadEvent.c_Device := LeadEvent.c_Device d; LeadEvent.c_Url := LeadEvent.c_Url d;
     LeadEvent.c_Referrer := LeadEvent.c_Referrer d;
     LeadEvent.c_ReferrerType := v;
     LeadEvent.c_RelevantReferrer := LeadEvent.c_RelevantReferrer d;
     LeadEvent.c_Metas := LeadEvent.c_Metas d; LeadEvent.c_Consent := LeadEvent.c_Consent d |}.

Definition lead_event_key (brand : Brand) (leadEventData : LeadEvent.LeadEventData) : string :=
  "lead_event:" +:+ Name brand +:+ ":" +:+ LeadEvent.c_LeadUUID leadEventData
    +:+ ":" +:+ LeadEvent.c_Name leadEventData +:+ ":" +:+ LeadEvent.c_Url leadEventData.

(** The block [if leadEventData.Name == "page_view"]. *)
Definition classify_referrer (env : Env) (leadEventData : LeadEvent.LeadEventData)
    : LeadEvent.LeadEventData :=
  if (LeadEvent.c_Name leadEventData =? "page_view")%string then
    if (LeadEvent.c_Referrer leadEventData =? "")%string
    then with_ReferrerType "direct" leadEventData
    else
      let internal :=
        match url_Parse env (LeadEvent.c_Url leadEventData),
              url_Parse env (LeadEvent.c_Referrer leadEventData) with
        | Some parsedUrl_Host, Some parsedReferrer_Host =>
            (parsedUrl_Host =? parsedReferrer_Host)%string
        | _, _ => false                  (* parseError *)
        end in
      if internal then with_ReferrerType "internal" leadEventData
      else with_ReferrerType
             (referrer_Medium env (LeadEvent.c_Referrer leadEventData)) leadEventData
  else leadEventData.

(** The call of [publishLeadEventData]; its error is only logged. *)
Definition publish_lead_event (env : Env) (d : LeadEvent.LeadEventDataPubSub) (s : State)
    : State :=
  if publish_err env then s
  else {| now := now s; redis := redis s; topic_page := topic_page s;
          topic_lead_event := topic_lead_event s ++ [d] |}.

(** The handler once [isCollectAllowed] has returned the brand. *)
Definition collectLeadEvent (env : Env) (brand : Brand)
    (r : http.Request LeadEvent.LeadEventData) (s : State) : Response * State :=
  match http.Body r with
  | None => (respond http.StatusBadRequest, s)
  | Some leadEventData =>
      if negb (allowed (LeadEvent.c_Name leadEventData))
      then (respond http.StatusBadRequest, s)
      else
        let fresh := (LeadEvent.c_LeadUUID leadEventData =? "")%string in
        let leadEventData :=
          if fresh then with_LeadUUID (new_uuid env) leadEventData else leadEventData in
        let cookie := if fresh then Some (LeadEvent.c_LeadUUID leadEventData) else None in
        let cacheKey := lead_event_key brand leadEventData in
        match redis_Get env cacheKey s with
        | Nil =>
            let s1 := snd (redis_Set env cacheKey Exists_ (10 * second) s) in
            let leadEventData := classify_referrer env leadEventData in
            let s2 :=
              publish_lead_event env
                (LeadEvent.collectLeadEventData (Name brand) leadEventData (http.ClientIP r))
                s1 in
            ({| status := http.StatusNoContent; lead_uuid_cookie := cookie |}, s2)
        | GetErr =>
            ({| status := http.StatusInternalServerError; lead_uuid_cookie := cookie |}, s)
        | Found _ =>
            ({| status := http.StatusNoContent; lead_uuid_cookie := cookie |}, s)
        end
  end.

Definition collectLeadEventDataHandler (env : Env)
    (r : http.Request LeadEvent.LeadEventData) (s : State) : Response * State :=
  match isCollectAllowed env r s with
  | (inr errorCode, s1) => (respond errorCode, s1)
  | (inl brand, s1) => collectLeadEvent env brand r s1
  end.

(** *** The service over time *)

Inductive request : Type :=
| PageData_ (env : Env) (r : http.Request PageData)
| LeadEvent_ (env : Env) (r : http.Request LeadEvent.LeadEventData)
| Sleep (d : Z).                (* the clock advances by [d] nanoseconds *)

Definition serve (s : State) (q : request) : State :=
  match q with
  | PageData_ env r => snd (collectPageDataHandler env r s)
  | LeadEvent_ env r => snd (collectLeadEventDataHandler env r s)
  | Sleep d =>
      {| now := now s + Z.max 0 d; redis := redis s; topic_page := topic_page s;
         topic_lead_event := topic_lead_event s |}
  end.

Definition started (t : Z) : State :=
  {| now := t; redis := ∅; topic_page := []; topic_lead_event := [] |}.

(** *** Sample data *)

Definition all_up : Env :=
  {| redis_get_err := fun _ => false;
     redis_set_err := fun _ => false;
     brand_row := fun host =>
       if (host =? "collect.example.org")%string then Some ("brand", "www.example.org")
       else None;
     url_Parse := fun u =>
       if (u =? "https://www.example.org")%string then Some "www.example.org"
       else if (u =? "https://www.example.org/a")%string then Some "www.example.org"
       else None;
     referrer_Medium := fun _ => "unknown";
     publish_err := false;
     new_uuid := "00000000-0000-4000-8000-000000000000";
     Time_String := fun t => pretty (PageConsumer.seconds t) |}.

(** Pub/Sub refuses the message; everything else works. *)
Definition pubsub_down : Env :=
  {| redis_get_err := redis_get_err all_up; redis_set_err := redis_set_err all_up;
     brand_row := brand_row all_up; url_Parse := url_Parse all_up;
     referrer_Medium := referrer_Medium all_up; publish_err := true;
     new_uuid := new_uuid all_up; Time_String := Time_String all_up |}.

(** The brand table has changed since the brand was cached. *)
Definition brand_renamed : Env :=
  {| redis_get_err := redis_get_err all_up; redis_set_err := redis_set_err all_up;
     brand_row := fun _ => Some ("renamed", "www.example.net");
     url_Parse := url_Parse all_up;
     referrer_Medium := referrer_Medium all_up; publish_err := false;
     new_uuid := new_uuid all_up; Time_String := Time_String all_up |}.

Definition post {B} (body : option B) : http.Request B :=
  {| http.Method := "POST"; http.UserAgent := "Mozilla/5.0 (X11; Linux x86_64) Firefox/130.0";
     http.Host := "collect.example.org"; http.Origin := "https://www.example.org";
     http.ClientIP := "203.0.113.7"; http.Body := body |}.

Definition sample_page : PageData :=
  {| URL := "https://www.example.org/a"; Type_ := "article"; Language := "fr-FR";
     PublicationDate := PageConsumer.t0; ModificationDate := None;
     Title := "Titre"; Description := "Resume"; Content := "Bonjour";
     Section_ := "news"; SubSection := None; Image := None; IsPaid := false |}.

(** A lead event of a browser that has no lead yet, with a name the
    collector does not know. *)
Definition click_event : LeadEvent.LeadEventData :=
  {| LeadEvent.c_UUID := "e"; LeadEvent.c_LeadUUID := "";
     LeadEvent.c_Name := "click"; LeadEvent.c_PageType := "article";
     LeadEvent.c_PageLanguage := "fr"; LeadEvent.c_Device := "desktop";
     LeadEvent.c_Url := "https://www.example.org/a";
     LeadEvent.c_Referrer := ""; LeadEvent.c_ReferrerType := "";
     LeadEvent.c_RelevantReferrer := ""; LeadEvent.c_Metas := None;
     LeadEvent.c_Consent := true |}.

(** A page view of a known lead who did not consent. *)
Definition view_event : LeadEvent.LeadEventData :=
  {| LeadEvent.c_UUID := "e"; LeadEvent.c_LeadUUID := "lead-1";
     LeadEvent.c_Name := "page_view"; LeadEvent.c_PageType := "article";
     LeadEvent.c_PageLanguage := "fr"; LeadEvent.c_Device := "desktop";
     LeadEvent.c_Url := "https://www.example.org/a";
     LeadEvent.c_Referrer := ""; LeadEvent.c_ReferrerType := "";
     LeadEvent.c_RelevantReferrer := ""; LeadEvent.c_Metas := None;
     LeadEvent.c_Consent := false |}.

Definition sample_brand : Brand :=
  {| Name := "brand"; Host := "collect.example.org"; SiteHost := "www.example.org" |}.

End Collector.

(** ** The collector: what holds of its cache and of its topic *)

Module CollectorSpec.
Import Collector.

(** A brand key holds the JSON document of a brand of that host. *)
Definition brand_cache_ok (store : gmap string entry) : Prop :=
  forall host e, store !! brand_key host = Some e ->
    exists b, value e = BrandJSON b /\ Host b = host.

Definition not_a_brand_key (k : string) : Prop := forall host, k <> brand_key host.

(** The payload that the lead handler puts on the topic for a body. *)
Definition lead_payload (env : Env) (brand : Brand)
    (r : http.Request LeadEvent.LeadEventData) (d : LeadEvent.LeadEventData)
    : LeadEvent.LeadEventDataPubSub :=
  let d1 := if (LeadEvent.c_LeadUUID d =? "")%string
            then with_LeadUUID (new_uuid env) d else d in
  LeadEvent.collectLeadEventData (Name brand) (classify_referrer env d1) (http.ClientIP r).

(** What is true of every record on the lead-event topic. *)
Definition lead_record_ok (d : LeadEvent.LeadEventDataPubSub) : Prop :=
  LeadEvent.collected d /\
  allowed (LeadEvent.Name d) = true /\
  (LeadEvent.Consent d = false -> LeadEvent.IP d = "").

Definition collector_inv (s : State) : Prop :=
  brand_cache_ok (redis s) /\ Forall lead_record_ok (topic_lead_event s).

End CollectorSpec.

(** ** The monad and the acknowledgement handles: equations *)

Lemma bind_run {S A B} (c : M S A) (k : A -> M S B) (s : S) :
  bind c k s =
  match c s with
  | (Ret a, s') => k a s'
  | (Exit, s') => (Exit, s')
  | (Block, s') => (Block, s')
  end.
Proof. reflexivity. Qed.

Lemma rangeM_nil {S A B} (body : A -> B -> M S B) (acc : B) :
  rangeM body [] acc = ret acc.
Proof. reflexivity. Qed.

Lemma rangeM_cons {S A B} (body : A -> B -> M S B) (x : A) (l : list A) (acc : B) :
  rangeM body (x :: l) acc = bind (body x acc) (rangeM body l).
Proof. reflexivity. Qed.

Lemma settle_lookup_self v id h :
  PubSub.settle v id h !! id = Some (default v (h !! id)).
Proof.
  unfold PubSub.settle. destruct (h !! id) eqn:E; simpl.
  - exact E.
  - apply lookup_insert_eq.
Qed.

Lemma settle_lookup_ne v id id' h :
  id <> id' -> PubSub.settle v id h !! id' = h !! id'.
Proof.
  intros Hne. unfold PubSub.settle. destruct (h !! id); [reflexivity|].
  by apply lookup_insert_ne.
Qed.

Lemma settle_settled v id h x :
  h !! id = Some x -> PubSub.settle v id h = h.
Proof. intros E. unfold PubSub.settle. by rewrite E. Qed.

(** ** Lead-event consumer: what a batch leaves untouched *)

Module LeadEventFacts.
Import LeadEvent.

Lemma frame_refl s : frame s s.
Proof. by split. Qed.

Lemma frame_trans s1 s2 s3 : frame s1 s2 -> frame s2 s3 -> frame s1 s3.
Proof.
  intros [] []; split; congruence.
Qed.

Local Arguments rangeM : simpl never.

Ltac run_m :=
  unfold processMessage, getIpLocation, log_Fatal, LogError, LogInfo, Nack, Ack,
    emit, bind, ret, get, modify, exit, block; simpl.

Lemma processMessage_frame msg rows s :
  frame s (snd (processMessage msg rows s)) /\
  fst (processMessage msg rows s) <> Block.
Proof.
  run_m.
  destruct (Data msg) as [d|]; simpl; [|by split].
  destruct (Metas d) as [mj|]; simpl; [|by split].
  destruct (negb (Name d =? "page_behavior")%string && negb (IP d =? "")%string);
    simpl; [|by split].
  destruct (ipDb s (IP d)); simpl; by split.
Qed.

Lemma locatable_cons geo msg msgs :
  locatable geo (msg :: msgs) -> locatable geo [msg] /\ locatable geo msgs.
Proof.
  intros H. inversion H as [|? ? Hm Hl]; subst. split; [|exact Hl].
  constructor; [exact Hm|constructor].
Qed.

Lemma locatable_app geo l1 l2 :
  locatable geo (l1 ++ l2) <-> locatable geo l1 /\ locatable geo l2.
Proof. apply Forall_app. Qed.

Lemma processMessage_returns msg rows s :
  locatable (ipDb s) [msg] -> exists rows', fst (processMessage msg rows s) = Ret rows'.
Proof.
  intros Hgeo. inversion Hgeo as [|? ? Hm _]; subst. clear Hgeo.
  unfold looked_up in Hm. run_m.
  destruct (Data msg) as [d|]; simpl; [|by eexists].
  destruct (Metas d) as [mj|]; simpl; [|by eexists].
  destruct (negb (Name d =? "page_behavior")%string && negb (IP d =? "")%string);
    simpl; [|by eexists].
  destruct Hm as [loc ->]. simpl. by eexists.
Qed.

Lemma range_processMessage_frame msgs : forall rows s,
  frame s (snd (rangeM processMessage msgs rows s)) /\
  fst (rangeM processMessage msgs rows s) <> Block.
Proof.
  induction msgs as [|msg msgs IH]; intros rows s;
    [rewrite rangeM_nil | rewrite rangeM_cons].
  - by split.
  - rewrite !(bind_run (processMessage msg rows)).
    destruct (processMessage_frame msg rows s) as [Hf Hb].
    destruct (processMessage msg rows s) as [[rows'| |] s1]; simpl in *.
    + destruct (IH rows' s1) as [Hf' Hb']. split; [|exact Hb'].
      eapply frame_trans; eauto.
    + by split.
    + done.
Qed.

Lemma range_processMessage_returns msgs : forall rows s,
  locatable (ipDb s) msgs ->
  exists rows', fst (rangeM processMessage msgs rows s) = Ret rows'.
Proof.
  induction msgs as [|msg msgs IH]; intros rows s Hgeo;
    [rewrite rangeM_nil | rewrite rangeM_cons].
  - by eexists.
  - apply locatable_cons in Hgeo as [Hmsg Hrest].
    rewrite !(bind_run (processMessage msg rows)).
    destruct (processMessage_returns msg rows s Hmsg) as [rows1 Hr].
    destruct (processMessage_frame msg rows s) as [Hf _].
    destruct (processMessage msg rows s) as [r s1]; simpl in *. subst r.
    apply IH. by rewrite (fr_ipDb _ _ Hf).
Qed.

(** Acknowledging the whole batch leaves everything but the handles. *)
Lemma range_Ack_frame msgs : forall s,
  frame s (snd (rangeM (fun msg (_ : unit) => Ack msg) msgs tt s)) /\
  fst (rangeM (fun msg (_ : unit) => Ack msg) msgs tt s) = Ret tt.
Proof.
  induction msgs as [|msg msgs IH]; intros s;
    [rewrite rangeM_nil | rewrite rangeM_cons].
  - by split.
  - rewrite !(bind_run (Ack msg)). unfold Ack at 1 2, modify at 1 2.
    destruct (IH (set_handles (settle Acked (ID msg) (handles s)) s)) as [Hf Hr].
    split; [|exact Hr].
    eapply frame_trans; [|exact Hf]. by split.
Qed.

Lemma processBatch_unfold s :
  processBatch s =
  if (length (messages (bp s)) =? 0)%nat then (Ret tt, s)
  else
    match rangeM processMessage (messages (bp s)) [] (after_header s) with
    | (Ret rows, s1) =>
        if bqPutOk s1 rows then
          match rangeM (fun msg (_ : unit) => Ack msg) (messages (bp s)) tt
                  (after_put s1 rows) with
          | (Ret _, s2) => (Ret tt, set_bp (set_messages []) s2)
          | (Exit, s2) => (Exit, s2)
          | (Block, s2) => (Block, s2)
          end
        else
          (Ret tt, set_bp (set_messages [])
                     (set_logs (logs s1 ++ [(ERROR, "Failed to insert rows: %v")]) s1))
    | (Exit, s1) => (Exit, s1)
    | (Block, s1) => (Block, s1)
    end.
Proof.
  unfold processBatch. rewrite bind_run. cbn [get].
  destruct (length (messages (bp s)) =? 0)%nat; [reflexivity|].
  rewrite !bind_run. cbn [emit modify]. rewrite !bind_run. cbn [LogInfo modify].
  rewrite !bind_run. fold (after_header s).
  destruct (rangeM processMessage (messages (bp s)) [] (after_header s))
    as [[rows| |] s1]; [|reflexivity|reflexivity].
  rewrite !bind_run. cbn [get]. 
  destruct (bqPutOk s1 rows); [|reflexivity].
  rewrite !bind_run. cbn [modify]. rewrite !bind_run. cbn [LogInfo modify].
  fold (after_put s1 rows).
  destruct (rangeM _ (messages (bp s)) tt (after_put s1 rows)) as [[[]| |] s2];
    reflexivity.
Qed.

Lemma processBatch_empty s :
  messages (bp s) = [] -> processBatch s = (Ret tt, s).
Proof. intros E. rewrite processBatch_unfold. by rewrite E. Qed.

(** A flush of a non-empty buffer: the batch is handed over as a whole and,
    unless the process exits in the loop, the buffer is reset to empty. *)
Lemma processBatch_nonempty s :
  messages (bp s) <> [] ->
  fst (processBatch s) <> Block /\
  (locatable (ipDb s) (messages (bp s)) -> fst (processBatch s) = Ret tt) /\
  (fst (processBatch s) = Exit ->
     bp (snd (processBatch s)) = bp s /\
     trace (snd (processBatch s)) = trace s ++ [EvProcessBatch (messages (bp s))]) /\
  (fst (processBatch s) = Ret tt ->
     bp (snd (processBatch s)) = set_messages [] (bp s) /\
     now (snd (processBatch s)) = now s /\
     ipDb (snd (processBatch s)) = ipDb s /\
     trace (snd (processBatch s)) = trace s ++ [EvProcessBatch (messages (bp s))]).
Proof.
  intros Hne. rewrite processBatch_unfold.
  assert (E0 : (length (messages (bp s)) =? 0)%nat = false).
  { destruct (messages (bp s)); [done|reflexivity]. }
  rewrite E0.
  destruct (range_processMessage_frame (messages (bp s)) [] (after_header s))
    as [Hf Hb].
  assert (Hret : locatable (ipDb s) (messages (bp s)) -> exists rows,
            fst (rangeM processMessage (messages (bp s)) [] (after_header s)) = Ret rows).
  { intros Hg. apply range_processMessage_returns. exact Hg. }
  destruct (rangeM processMessage (messages (bp s)) [] (after_header s))
    as [[rows| |] s1]; cbn [fst snd] in *.
  - destruct Hf as [Hbp Hnow Hip _ _ Htr]. cbn in Hbp, Hnow, Hip, Htr.
    destruct (bqPutOk s1 rows).
    + destruct (range_Ack_frame (messages (bp s)) (after_put s1 rows)) as [Hfa Hra].
      destruct (rangeM _ (messages (bp s)) tt (after_put s1 rows)) as [r2 s2].
      cbn [fst snd] in *. subst r2. cbn [fst snd].
      destruct Hfa as [Hbp2 Hnow2 Hip2 _ _ Htr2]. cbn in Hbp2, Hnow2, Hip2, Htr2.
      split; [done|]. split; [done|]. split; [done|]. intros _. cbn.
      rewrite Hbp2, Hbp, Hnow2, Hnow, Hip2, Hip, Htr2, Htr. done.
    + cbn [fst snd]. split; [done|]. split; [done|]. split; [done|]. intros _. cbn.
      rewrite Hbp, Hnow, Hip, Htr. done.
  - destruct Hf as [Hbp _ _ _ _ Htr]. cbn in Hbp, Htr.
    split; [done|]. split.
    + intros Hg. destruct (Hret Hg) as [? ?]. done.
    + split; [|done]. intros _. by rewrite Hbp, Htr.
  - done.
Qed.

Lemma Unlock_run s : Unlock s = (Ret tt, unlocked s).
Proof. reflexivity. Qed.

Lemma timer_Reset_run s : timer_Reset s = (Ret tt, rearmed s).
Proof. reflexivity. Qed.

Lemma AddMessage_unfold msg s :
  batchMutex (bp s) = false ->
  AddMessage msg s =
  if Z.of_nat (length (messages (bp s) ++ [msg])) >=? maxBatchSize (bp s) then
    match processBatch (appended msg (locked s)) with
    | (Ret _, s2) => (Ret tt, unlocked s2)
    | (Exit, s2) => (Exit, s2)
    | (Block, s2) => (Block, s2)
    end
  else (Ret tt, unlocked (appended msg (locked s))).
Proof.
  intros Hm. unfold AddMessage. rewrite bind_run. unfold Lock at 1.
  rewrite bind_run. cbn [get]. rewrite Hm.
  rewrite !bind_run. cbn [modify emit]. rewrite !bind_run. cbn [modify emit].
  rewrite !bind_run. cbn [modify]. rewrite !bind_run. cbn [get].
  change (set_bp _ (set_trace _ (set_trace _ _))) with (appended msg (locked s)).
  change (messages (bp (appended msg (locked s)))) with (messages (bp s) ++ [msg]).
  change (maxBatchSize (bp (appended msg (locked s)))) with (maxBatchSize (bp s)).
  destruct (Z.of_nat (length (messages (bp s) ++ [msg])) >=? maxBatchSize (bp s)).
  - rewrite bind_run. destruct (processBatch _) as [[[]| |] s2]; reflexivity.
  - reflexivity.
Qed.

Lemma StartBatchTimer_iter_unfold s :
  batchMutex (bp s) = false ->
  StartBatchTimer_iter s =
  if timerC (bp s) then
    if (0 <? length (messages (bp s)))%nat then
      match processBatch (locked (fired s)) with
      | (Ret _, s2) => (Ret tt, rearmed (unlocked s2))
      | (Exit, s2) => (Exit, s2)
      | (Block, s2) => (Block, s2)
      end
    else (Ret tt, rearmed (unlocked (locked (fired s))))
  else (Block, s).
Proof.
  intros Hm. unfold StartBatchTimer_iter. rewrite bind_run. cbn [get].
  destruct (timerC (bp s)); [|reflexivity].
  rewrite !bind_run. cbn [modify emit]. rewrite !bind_run. cbn [modify emit].
  change (set_trace _ (set_bp _ s)) with (fired s).
  rewrite bind_run. unfold Lock at 1. rewrite bind_run. cbn [get].
  change (batchMutex (bp (fired s))) with (batchMutex (bp s)). rewrite Hm.
  rewrite !bind_run. cbn [modify emit].
  change (set_trace _ (set_bp _ (fired s))) with (locked (fired s)).
  rewrite !bind_run. cbn [get].
  change (messages (bp (locked (fired s)))) with (messages (bp s)).
  destruct (0 <? length (messages (bp s)))%nat.
  - rewrite bind_run. destruct (processBatch _) as [[[]| |] s2]; try reflexivity.
  - reflexivity.
Qed.

Lemma flushed_app t1 t2 : flushed (t1 ++ t2) = flushed t1 ++ flushed t2.
Proof.
  induction t1 as [|e t1 IH]; [reflexivity|].
  destruct e; simpl; rewrite ?IH; reflexivity.
Qed.

Lemma set_messages_unlock (b : BatchProcessor) l l' :
  batchMutex b = false ->
  set_mutex false (set_messages l (set_messages l' (set_mutex true b))) = set_messages l b.
Proof. destruct b; simpl; intros ->; reflexivity. Qed.

(** [AddMessage] on a free mutex: below the threshold the message is only
    appended; at the threshold the whole buffer goes to [processBatch]
    before the mutex is released. *)
Lemma AddMessage_spec msg s :
  batchMutex (bp s) = false ->
  fst (AddMessage msg s) <> Block /\
  if Z.of_nat (length (messages (bp s) ++ [msg])) >=? maxBatchSize (bp s) then
    (locatable (ipDb s) (messages (bp s) ++ [msg]) -> fst (AddMessage msg s) = Ret tt) /\
    (fst (AddMessage msg s) = Exit ->
       trace (snd (AddMessage msg s)) =
       trace s ++ [EvLock; EvAppend msg; EvProcessBatch (messages (bp s) ++ [msg])]) /\
    (fst (AddMessage msg s) = Ret tt ->
       bp (snd (AddMessage msg s)) = set_messages [] (bp s) /\
       now (snd (AddMessage msg s)) = now s /\
       ipDb (snd (AddMessage msg s)) = ipDb s /\
       trace (snd (AddMessage msg s)) =
       trace s ++ [EvLock; EvAppend msg; EvProcessBatch (messages (bp s) ++ [msg]); EvUnlock])
  else
    fst (AddMessage msg s) = Ret tt /\
    bp (snd (AddMessage msg s)) = set_messages (messages (bp s) ++ [msg]) (bp s) /\
    now (snd (AddMessage msg s)) = now s /\
    ipDb (snd (AddMessage msg s)) = ipDb s /\
    trace (snd (AddMessage msg s)) = trace s ++ [EvLock; EvAppend msg; EvUnlock].
Proof.
  intros Hm. rewrite (AddMessage_unfold msg s Hm).
  destruct (Z.of_nat (length (messages (bp s) ++ [msg])) >=? maxBatchSize (bp s)).
  - assert (Hne : messages (bp (appended msg (locked s))) <> []).
    { cbn. destruct (messages (bp s)); done. }
    destruct (processBatch_nonempty _ Hne) as (Hb & Hg & He & Hr).
    destruct (processBatch (appended msg (locked s))) as [[[]| |] s2]; cbn [fst snd] in *.
    + destruct (Hr eq_refl) as (Hbp & Hnow & Hip & Htr).
      split; [done|]. split; [done|]. split; [done|]. intros _.
      cbn. rewrite Hbp, Hnow, Hip, Htr. cbn.
      rewrite <- !app_assoc. cbn.
      split; [|done]. by apply set_messages_unlock.
    + destruct (He eq_refl) as (Hbp & Htr).
      split; [done|]. split; [exact Hg|]. split; [|done]. intros _.
      rewrite Htr. cbn. rewrite <- !app_assoc. done.
    + done.
  - cbn. split; [done|]. split; [done|]. rewrite <- !app_assoc. cbn.
    split; [|done]. destruct (bp s); simpl in *; subst; reflexivity.
Qed.

Lemma set_timer_unlock (b : BatchProcessor) t c c' :
  batchMutex b = false ->
  set_timer t c (set_mutex false (set_mutex true (set_timer (batchTimer b) c' b)))
  = set_timer t c b.
Proof. destruct b; simpl; intros ->; reflexivity. Qed.

Lemma set_timer_unlock_flush (b : BatchProcessor) t c c' :
  batchMutex b = false ->
  set_timer t c
    (set_mutex false (set_messages [] (set_mutex true (set_timer (batchTimer b) c' b))))
  = set_timer t c (set_messages [] b).
Proof. destruct b; simpl; intros ->; reflexivity. Qed.

(** One iteration of the timer loop once the timer has fired. *)
Lemma StartBatchTimer_iter_spec s :
  batchMutex (bp s) = false ->
  timerC (bp s) = true ->
  fst (StartBatchTimer_iter s) <> Block /\
  if (0 <? length (messages (bp s)))%nat then
    (locatable (ipDb s) (messages (bp s)) -> fst (StartBatchTimer_iter s) = Ret tt) /\
    (fst (StartBatchTimer_iter s) = Exit ->
       trace (snd (StartBatchTimer_iter s)) =
       trace s ++ [EvTimerFired; EvLock; EvProcessBatch (messages (bp s))]) /\
    (fst (StartBatchTimer_iter s) = Ret tt ->
       bp (snd (StartBatchTimer_iter s)) =
         set_timer (Some (now s + maxWaitTime (bp s))%nat) false (set_messages [] (bp s)) /\
       now (snd (StartBatchTimer_iter s)) = now s /\
       ipDb (snd (StartBatchTimer_iter s)) = ipDb s /\
       trace (snd (StartBatchTimer_iter s)) =
       trace s ++ [EvTimerFired; EvLock; EvProcessBatch (messages (bp s)); EvUnlock;
                   EvTimerReset (now s + maxWaitTime (bp s))%nat])
  else
    fst (StartBatchTimer_iter s) = Ret tt /\
    bp (snd (StartBatchTimer_iter s)) =
      set_timer (Some (now s + maxWaitTime (bp s))%nat) false (bp s) /\
    now (snd (StartBatchTimer_iter s)) = now s /\
    ipDb (snd (StartBatchTimer_iter s)) = ipDb s /\
    trace (snd (StartBatchTimer_iter s)) =
    trace s ++ [EvTimerFired; EvLock; EvUnlock;
                EvTimerReset (now s + maxWaitTime (bp s))%nat].
Proof.
  intros Hm Hc. rewrite (StartBatchTimer_iter_unfold s Hm), Hc.
  destruct (0 <? length (messages (bp s)))%nat eqn:Elen.
  - assert (Hne : messages (bp (locked (fired s))) <> []).
    { cbn. destruct (messages (bp s)); [discriminate|done]. }
    destruct (processBatch_nonempty _ Hne) as (Hb & Hg & He & Hr).
    destruct (processBatch (locked (fired s))) as [[[]| |] s2]; cbn [fst snd] in *.
    + destruct (Hr eq_refl) as (Hbp & Hnow & Hip & Htr).
      split; [done|]. split; [done|]. split; [done|]. intros _.
      cbn. rewrite Hbp, Hnow, Hip, Htr. cbn.
      rewrite <- !app_assoc. cbn.
      split; [|done]. by apply set_timer_unlock_flush.
    + destruct (He eq_refl) as (Hbp & Htr).
      split; [done|]. split; [exact Hg|]. split; [|done]. intros _.
      rewrite Htr. cbn. rewrite <- !app_assoc. done.
    + done.
  - cbn. split; [done|]. split; [done|]. rewrite <- !app_assoc. cbn.
    split; [|done]. by apply set_timer_unlock.
Qed.

Lemma elapse_fields d s :
  messages (bp (elapse d s)) = messages (bp s) /\
  batchMutex (bp (elapse d s)) = batchMutex (bp s) /\
  maxBatchSize (bp (elapse d s)) = maxBatchSize (bp s) /\
  maxWaitTime (bp (elapse d s)) = maxWaitTime (bp s) /\
  now (elapse d s) = (now s + d)%nat /\
  ipDb (elapse d s) = ipDb s /\
  trace (elapse d s) = trace s.
Proof.
  unfold elapse. cbn.
  destruct (batchTimer (bp s)) as [t|]; [|done].
  destruct (t <=? now s + d)%nat; done.
Qed.

Lemma elapse_fires d s t :
  batchTimer (bp s) = Some t -> (t <= now s + d)%nat -> timerC (bp (elapse d s)) = true.
Proof.
  intros Ht Hle. unfold elapse. cbn. rewrite Ht.
  destruct (Nat.leb_spec t (now s + d)); [reflexivity|lia].
Qed.

(** C7. [AddMessage] takes the mutex, appends, and when the buffer has
    reached [maxBatchSize] hands the whole buffer to [processBatch] before
    it releases the mutex and returns; below the threshold it only appends.
    When a non-empty buffer below the threshold has waited until the timer's
    deadline, the iteration of the timer loop that receives the firing
    flushes that buffer once, resets the timer to [maxWaitTime] from now,
    and the loop then waits for the next firing; before the deadline the
    loop waits. Neither call can wait for the mutex here, and both return
    when the geo database resolves the addresses that the flush looks up
    (otherwise [processBatch] may end the process). *)
Theorem C7_flush_by_size_and_by_timer (s : State) (msg : Msg) :
  batchMutex (bp s) = false ->
  (fst (AddMessage msg s) <> Block /\
   (locatable (ipDb s) (messages (bp s) ++ [msg]) -> fst (AddMessage msg s) = Ret tt) /\
   (fst (AddMessage msg s) = Ret tt ->
    batchMutex (bp (snd (AddMessage msg s))) = false /\
    if Z.of_nat (length (messages (bp s) ++ [msg])) >=? maxBatchSize (bp s) then
      trace (snd (AddMessage msg s)) =
        trace s ++ [EvLock; EvAppend msg;
                    EvProcessBatch (messages (bp s) ++ [msg]); EvUnlock] /\
      messages (bp (snd (AddMessage msg s))) = []
    else
      trace (snd (AddMessage msg s)) = trace s ++ [EvLock; EvAppend msg; EvUnlock] /\
      messages (bp (snd (AddMessage msg s))) = messages (bp s) ++ [msg]))
  /\
  (forall t d,
     messages (bp s) <> [] ->
     Z.of_nat (length (messages (bp s))) < maxBatchSize (bp s) ->
     timerC (bp s) = false ->
     batchTimer (bp s) = Some t ->
     (t <= now s + d)%nat ->
     let s1 := elapse d s in
     let s2 := snd (StartBatchTimer_iter s1) in
     StartBatchTimer_iter s = (Block, s) /\
     fst (StartBatchTimer_iter s1) <> Block /\
     (locatable (ipDb s) (messages (bp s)) -> fst (StartBatchTimer_iter s1) = Ret tt) /\
     (fst (StartBatchTimer_iter s1) = Ret tt ->
      trace s2 =
        trace s ++ [EvTimerFired; EvLock; EvProcessBatch (messages (bp s)); EvUnlock;
                    EvTimerReset (now s1 + maxWaitTime (bp s))%nat] /\
      messages (bp s2) = [] /\
      batchMutex (bp s2) = false /\
      batchTimer (bp s2) = Some (now s1 + maxWaitTime (bp s))%nat /\
      StartBatchTimer_iter s2 = (Block, s2))).
Proof.
  intros Hm. split.
  - destruct (AddMessage_spec msg s Hm) as [Hb H]. split; [exact Hb|].
    destruct (Z.of_nat (length (messages (bp s) ++ [msg])) >=? maxBatchSize (bp s)).
    + destruct H as (Hret & _ & Hr). split; [exact Hret|]. intros R.
      destruct (Hr R) as (Hbp & _ & _ & Htr).
      rewrite Hbp, Htr. cbn. done.
    + destruct H as (Hret & Hbp & _ & _ & Htr). split; [done|]. intros _.
      rewrite Hbp, Htr. cbn. done.
  - intros t d Hne Hlt Hc Ht Hle s1 s2.
    destruct (elapse_fields d s) as (Emsg & Emut & _ & Ewait & Enow & Eip & Etr).
    assert (Hm1 : batchMutex (bp s1) = false) by (subst s1; congruence).
    assert (Hc1 : timerC (bp s1) = true) by (subst s1; eapply elapse_fires; eauto).
    split.
    { rewrite (StartBatchTimer_iter_unfold s Hm), Hc. reflexivity. }
    destruct (StartBatchTimer_iter_spec s1 Hm1 Hc1) as [Hb H].
    split; [exact Hb|].
    assert (Hlen : (0 <? length (messages (bp s1)))%nat = true).
    { subst s1. rewrite Emsg. destruct (messages (bp s)); [done|reflexivity]. }
    rewrite Hlen in H. destruct H as (Hret & _ & Hr). split.
    { intros Hg. apply Hret. subst s1. by rewrite Eip, Emsg. }
    intros R. destruct (Hr R) as (Hbp & _ & _ & Htr).
    fold s2 in Hbp, Htr.
    assert (Hm2 : batchMutex (bp s2) = false) by (rewrite Hbp; cbn; exact Hm1).
    split. { rewrite Htr. subst s1. rewrite Etr, Emsg, Ewait. reflexivity. }
    split. { rewrite Hbp. reflexivity. }
    split. { exact Hm2. }
    split. { rewrite Hbp. cbn. subst s1. rewrite Ewait. reflexivity. }
    rewrite (StartBatchTimer_iter_unfold s2 Hm2). rewrite Hbp at 1. reflexivity.
Qed.

(** *** Schedules: the flushed batches partition the delivered messages *)

Lemma delivered_app l1 l2 : delivered (l1 ++ l2) = delivered l1 ++ delivered l2.
Proof.
  induction l1 as [|a l1 IH]; [reflexivity|].
  destruct a; simpl; rewrite ?IH; reflexivity.
Qed.

Lemma elapse_live d s : timer_live s -> timer_live (elapse d s).
Proof.
  unfold timer_live, elapse. cbn.
  intros [Hc | (t & Ht & Hle)].
  - left. destruct (batchTimer (bp s)) as [t|]; [|exact Hc].
    destruct (t <=? now s + d)%nat; [reflexivity|exact Hc].
  - rewrite Ht. destruct (Nat.leb_spec t (now s + d)).
    + left. reflexivity.
    + right. exists t. cbn. split; [exact Ht|lia].
Qed.

Lemma elapse_live_fires d s :
  timer_live s -> (maxWaitTime (bp s) <= d)%nat -> timerC (bp (elapse d s)) = true.
Proof.
  unfold timer_live, elapse. cbn.
  intros [Hc | (t & Ht & Hle)] Hd.
  - destruct (batchTimer (bp s)) as [t|]; [|exact Hc].
    destruct (t <=? now s + d)%nat; [reflexivity|exact Hc].
  - rewrite Ht. destruct (Nat.leb_spec t (now s + d)); [reflexivity|lia].
Qed.

Lemma concat_flushed_snoc t l :
  concat (flushed (t ++ l)) = concat (flushed t) ++ concat (flushed l).
Proof. by rewrite flushed_app, concat_app. Qed.

Lemma Forall_flushed_snoc t l :
  Forall (fun b : list Msg => b <> []) (flushed l) ->
  Forall (fun b : list Msg => b <> []) (flushed t) ->
  Forall (fun b : list Msg => b <> []) (flushed (t ++ l)).
Proof. intros Hl Ht. rewrite flushed_app. apply Forall_app. by split. Qed.

Lemma timer_live_same s s' :
  timerC (bp s') = timerC (bp s) -> batchTimer (bp s') = batchTimer (bp s) ->
  maxWaitTime (bp s') = maxWaitTime (bp s) -> now s' = now s ->
  timer_live s -> timer_live s'.
Proof. unfold timer_live. intros -> -> -> ->. done. Qed.

Lemma step_spec a s :
  batchMutex (bp s) = false ->
  fst (step a s) <> Block /\
  (locatable (ipDb s) (messages (bp s) ++ delivered [a]) -> fst (step a s) = Ret tt) /\
  (fst (step a s) = Ret tt -> step_ok a s (snd (step a s))) /\
  (fst (step a s) = Exit ->
     concat (flushed (trace (snd (step a s)))) =
     (concat (flushed (trace s)) ++ messages (bp s)) ++ delivered [a]).
Proof.
  intros Hm. destruct a as [m|d|]; cbn [step delivered].
  - destruct (AddMessage_spec m s Hm) as [Hb H]. split; [exact Hb|].
    destruct (Z.of_nat (length (messages (bp s) ++ [m])) >=? maxBatchSize (bp s)).
    + destruct H as (Hret & He & Hr). split; [exact Hret|]. split.
      * intros R. destruct (Hr R) as (Hbp & Hnow & Hip & Htr). split.
        -- by rewrite Hbp.
        -- rewrite Hbp, Htr, concat_flushed_snoc. cbn.
           by rewrite !app_nil_r, app_assoc.
        -- rewrite Htr. apply Forall_flushed_snoc. cbn.
           constructor; [|constructor]. destruct (messages (bp s)); done.
        -- intros P _. rewrite Hbp. constructor.
        -- exact Hip.
        -- by rewrite Hbp.
        -- apply timer_live_same; rewrite ?Hbp; done.
      * intros E. rewrite (He E), concat_flushed_snoc. cbn.
        by rewrite !app_nil_r, app_assoc.
    + destruct H as (Hret & Hbp & Hnow & Hip & Htr).
      split; [done|]. split; [|rewrite Hret; done]. intros _. split.
      * by rewrite Hbp.
      * rewrite Hbp, Htr, concat_flushed_snoc. cbn.
        by rewrite !app_nil_r, app_assoc.
      * rewrite Htr. apply Forall_flushed_snoc. cbn. constructor.
      * intros P HP. rewrite Hbp. exact HP.
      * exact Hip.
      * by rewrite Hbp.
      * apply timer_live_same; rewrite ?Hbp; done.
  - cbn. destruct (elapse_fields d s) as (Emsg & Emut & _ & Ewait & Enow & Eip & Etr).
    split; [done|]. split; [done|]. split; [|done]. intros _. split.
    + congruence.
    + by rewrite Emsg, Etr, app_nil_r.
    + by rewrite Etr.
    + intros P HP. rewrite Emsg. by rewrite app_nil_r in HP.
    + exact Eip.
    + exact Ewait.
    + apply elapse_live.
  - destruct (timerC (bp s)) eqn:Hc.
    + destruct (StartBatchTimer_iter_spec s Hm Hc) as [Hb H].
      destruct (0 <? length (messages (bp s)))%nat eqn:Elen.
      * destruct H as (Hret & He & Hr).
        destruct (StartBatchTimer_iter s) as [[[]| |] s']; cbn [fst snd] in *; [| |done].
        -- split; [done|]. split; [done|]. split; [|done]. intros _.
           destruct (Hr eq_refl) as (Hbp & Hnow & Hip & Htr). split.
           ++ by rewrite Hbp.
           ++ rewrite Hbp, Htr, concat_flushed_snoc. cbn.
              by rewrite !app_nil_r.
           ++ rewrite Htr. apply Forall_flushed_snoc. cbn.
              constructor; [|constructor]. destruct (messages (bp s)); done.
           ++ intros P _. rewrite Hbp. constructor.
           ++ exact Hip.
           ++ by rewrite Hbp.
           ++ intros _. right. rewrite Hbp, Hnow. cbn.
              eexists. split; [reflexivity|lia].
        -- split; [done|]. split; [by rewrite app_nil_r|]. split; [done|]. intros _.
           rewrite (He eq_refl), concat_flushed_snoc. cbn.
           by rewrite !app_nil_r.
      * destruct H as (Hret & Hbp & Hnow & Hip & Htr).
        destruct (StartBatchTimer_iter s) as [[[]| |] s']; cbn [fst snd] in *; try done.
        split; [done|]. split; [done|]. split; [|done]. intros _. split.
        -- by rewrite Hbp.
        -- rewrite Hbp, Htr, concat_flushed_snoc. cbn.
           by rewrite !app_nil_r.
        -- rewrite Htr. apply Forall_flushed_snoc. cbn. constructor.
        -- intros P HP. rewrite Hbp. by rewrite app_nil_r in HP.
        -- exact Hip.
        -- by rewrite Hbp.
        -- intros _. right. rewrite Hbp, Hnow. cbn.
           eexists. split; [reflexivity|lia].
    + rewrite (StartBatchTimer_iter_unfold s Hm), Hc. cbn.
      split; [done|]. split; [done|]. split; [|done]. intros _.
      split; rewrite ?app_nil_r; done.
Qed.

Lemma run_nil s : run [] s = (Ret tt, s).
Proof. reflexivity. Qed.

Lemma run_cons a l s :
  run (a :: l) s =
  match step a s with
  | (Ret _, s1) => run l s1
  | (Exit, s1) => (Exit, s1)
  | (Block, s1) => (Block, s1)
  end.
Proof.
  unfold run. rewrite rangeM_cons, bind_run.
  destruct (step a s) as [[[]| |] s1]; reflexivity.
Qed.

Lemma run_app l1 : forall l2 s,
  run (l1 ++ l2) s =
  match run l1 s with
  | (Ret _, s1) => run l2 s1
  | (Exit, s1) => (Exit, s1)
  | (Block, s1) => (Block, s1)
  end.
Proof.
  induction l1 as [|a l1 IH]; intros l2 s.
  - reflexivity.
  - rewrite <- app_comm_cons, !run_cons.
    destruct (step a s) as [[[]| |] s1]; [apply IH|reflexivity|reflexivity].
Qed.

Lemma locatable_step geo msgs a l :
  locatable geo (msgs ++ delivered (a :: l)) ->
  locatable geo (msgs ++ delivered [a]) /\ locatable geo (delivered l).
Proof.
  change (a :: l) with ([a] ++ l). rewrite delivered_app.
  rewrite !locatable_app. tauto.
Qed.

Lemma run_spec l : forall s,
  batchMutex (bp s) = false ->
  fst (run l s) <> Block /\
  (locatable (ipDb s) (messages (bp s) ++ delivered l) -> fst (run l s) = Ret tt) /\
  (fst (run l s) = Ret tt ->
     batchMutex (bp (snd (run l s))) = false /\
     concat (flushed (trace (snd (run l s)))) ++ messages (bp (snd (run l s))) =
       (concat (flushed (trace s)) ++ messages (bp s)) ++ delivered l /\
     (Forall (fun b => b <> []) (flushed (trace s)) ->
      Forall (fun b => b <> []) (flushed (trace (snd (run l s))))) /\
     ipDb (snd (run l s)) = ipDb s /\
     maxWaitTime (bp (snd (run l s))) = maxWaitTime (bp s) /\
     (timer_live s -> timer_live (snd (run l s)))) /\
  (fst (run l s) = Exit ->
     exists pre post, delivered l = pre ++ post /\
       concat (flushed (trace (snd (run l s)))) =
       (concat (flushed (trace s)) ++ messages (bp s)) ++ pre).
Proof.
  induction l as [|a l IH]; intros s Hm.
  - rewrite run_nil. cbn. split; [done|]. split; [done|]. split; [|done].
    intros _. by rewrite app_nil_r.
  - rewrite run_cons.
    destruct (step_spec a s Hm) as (Hb & Hg & Hr & He).
    destruct (step a s) as [[[]| |] s1]; cbn [fst snd] in *; [| |done].
    + destruct (Hr eq_refl) as [Hm1 Hpart Hne Hbuf Hip Hw Hlive].
      destruct (IH s1 Hm1) as (Hb' & Hg' & Hr' & He').
      split; [exact Hb'|]. split; [|split].
      * intros G. apply Hg'. rewrite Hip.
        apply locatable_step in G as [G1 G2].
        apply locatable_app. split; [by apply Hbuf|exact G2].
      * intros R. destruct (Hr' R) as (Hm2 & Hpart2 & Hne2 & Hip2 & Hw2 & Hlive2).
        split; [exact Hm2|]. split; [|split; [|split; [|split]]].
        -- rewrite Hpart2, Hpart.
           change (a :: l) with ([a] ++ l). by rewrite delivered_app, app_assoc.
        -- auto.
        -- congruence.
        -- congruence.
        -- auto.
      * intros E. destruct (He' E) as (pre & post & Hd & Hc).
        exists (delivered [a] ++ pre), post. split.
        -- change (a :: l) with ([a] ++ l). by rewrite delivered_app, Hd, app_assoc.
        -- by rewrite Hc, Hpart, app_assoc.
    + split; [done|]. split; [|split; [done|]].
      { intros G. apply Hg. by apply locatable_step in G as [G1 _]. }
      intros _.
      exists (delivered [a]), (delivered l). split.
      * change (a :: l) with ([a] ++ l). by rewrite delivered_app.
      * by apply He.
Qed.

(** Once [maxWaitTime] has passed, the next iteration of the timer loop
    leaves the buffer empty. *)
Lemma final_tick s :
  batchMutex (bp s) = false -> locatable (ipDb s) (messages (bp s)) -> timer_live s ->
  fst (run [Elapse (maxWaitTime (bp s)); TimerLoop] s) = Ret tt /\
  messages (bp (snd (run [Elapse (maxWaitTime (bp s)); TimerLoop] s))) = [].
Proof.
  intros Hm Hg Hl. rewrite run_cons. cbn [step modify]. rewrite run_cons. cbn [step].
  set (s1 := elapse (maxWaitTime (bp s)) s).
  destruct (elapse_fields (maxWaitTime (bp s)) s)
    as (Emsg & Emut & _ & Ewait & Enow & Eip & Etr).
  assert (Hm1 : batchMutex (bp s1) = false) by (subst s1; congruence).
  assert (Hc1 : timerC (bp s1) = true) by (subst s1; by apply elapse_live_fires).
  assert (Hg1 : locatable (ipDb s1) (messages (bp s1)))
    by (subst s1; by rewrite Eip, Emsg).
  destruct (StartBatchTimer_iter_spec s1 Hm1 Hc1) as [Hb H].
  destruct (0 <? length (messages (bp s1)))%nat eqn:Elen.
  - destruct H as (Hret & _ & Hr). specialize (Hret Hg1).
    destruct (StartBatchTimer_iter s1) as [r s2]; cbn [fst snd] in *. subst r.
    destruct (Hr eq_refl) as (Hbp & _). rewrite run_nil. cbn. rewrite Hbp. done.
  - destruct H as (Hret & Hbp & _).
    destruct (StartBatchTimer_iter s1) as [r s2]; cbn [fst snd] in *. subst r.
    rewrite run_nil. cbn. rewrite Hbp. cbn. split; [done|].
    destruct (messages (bp s1)); [done|discriminate].
Qed.

(** C8. Whatever the order in which Pub/Sub delivers messages, time passes
    and the timer loop runs: while the consumer is running, the batches
    handed to [processBatch], in order, followed by the messages still
    buffered, are exactly the delivered messages in order, and no batch is
    empty; if the process exits inside a flush, the batches flushed up to
    then still are a prefix of the delivered messages. No message is left
    behind: after one more [maxWaitTime] and timer iteration the buffer is
    empty and the batches alone are the delivered messages (when the geo
    database resolves the addresses looked up for the delivered messages,
    so that the consumer keeps running). *)
Theorem C8_batches_partition_deliveries
    (t0 : nat) (size : Z) (wait : nat) (geo : string -> option IPLocation)
    (put : list Row -> bool) (sched : list action) :
  let s0 := initial t0 size wait geo put in
  match run sched s0 with
  | (Ret _, s') =>
      concat (flushed (trace s')) ++ messages (bp s') = delivered sched /\
      Forall (fun b => b <> []) (flushed (trace s'))
  | (Exit, s') =>
      exists pre post, delivered sched = pre ++ post /\
        concat (flushed (trace s')) = pre
  | (Block, _) => False
  end /\
  (locatable geo (delivered sched) ->
   let final := run (sched ++ [Elapse wait; TimerLoop]) s0 in
   fst final = Ret tt /\
   messages (bp (snd final)) = [] /\
   concat (flushed (trace (snd final))) = delivered sched).
Proof.
  intros s0.
  assert (Hm0 : batchMutex (bp s0) = false) by reflexivity.
  assert (Hl0 : timer_live s0).
  { right. exists (t0 + wait)%nat. split; [reflexivity|]. cbn. lia. }
  destruct (run_spec sched s0 Hm0) as (Hb & Hg & Hr & He).
  split.
  - destruct (run sched s0) as [[[]| |] s']; cbn [fst snd] in *; [| |done].
    + destruct (Hr eq_refl) as (_ & Hpart & Hne & _). split.
      * exact Hpart.
      * apply Hne. constructor.
    + destruct (He eq_refl) as (pre & post & Hd & Hc). by exists pre, post.
  - intros Hgeo final.
    assert (Hg0 : locatable (ipDb s0) (messages (bp s0) ++ delivered sched)) by exact Hgeo.
    specialize (Hg Hg0).
    destruct (run_spec (sched ++ [Elapse wait; TimerLoop]) s0 Hm0) as (_ & Hg' & Hr' & _).
    assert (Hg0' : locatable (ipDb s0)
                     (messages (bp s0) ++ delivered (sched ++ [Elapse wait; TimerLoop]))).
    { rewrite delivered_app. cbn [delivered]. by rewrite app_nil_r. }
    specialize (Hg' Hg0'). fold final in Hg', Hr'.
    destruct (Hr' Hg') as (_ & Hpart & _).
    assert (Hmsgs : messages (bp (snd final)) = []).
    { subst final. rewrite run_app.
      destruct (run sched s0) as [r s1]; cbn [fst snd] in *. subst r.
      destruct (Hr eq_refl) as (Hm1 & Hpart1 & _ & Hip & Hw & Hlive).
      assert (Hw1 : maxWaitTime (bp s1) = wait) by (rewrite Hw; reflexivity).
      rewrite <- Hw1. apply final_tick; [exact Hm1| |by apply Hlive].
      rewrite Hip. cbn in Hpart1. rewrite <- Hpart1 in Hgeo.
      by apply locatable_app in Hgeo as [_ Hgeo]. }
    split; [exact Hg'|]. split; [exact Hmsgs|].
    rewrite Hmsgs, app_nil_r in Hpart. rewrite Hpart.
    rewrite delivered_app. cbn. by rewrite app_nil_r.
Qed.

(** C7 on a consumer with [maxBatchSize] 2 that holds one message. *)
Lemma C7_witness :
  trace (snd (AddMessage m2 holding_m1)) =
    [EvLock; EvAppend m2; EvProcessBatch [m1; m2]; EvUnlock] /\
  trace (snd (StartBatchTimer_iter (elapse 10 holding_m1))) =
    [EvTimerFired; EvLock; EvProcessBatch [m1]; EvUnlock; EvTimerReset 20].
Proof.
  assert (Hm : batchMutex (bp holding_m1) = false) by reflexivity.
  assert (Hg2 : locatable (ipDb holding_m1) (messages (bp holding_m1) ++ [m2])).
  { repeat constructor; eexists; reflexivity. }
  assert (Hg : locatable (ipDb holding_m1) (messages (bp holding_m1))).
  { repeat constructor; eexists; reflexivity. }
  destruct (C7_flush_by_size_and_by_timer holding_m1 m2 Hm) as [(_ & RA & A) B].
  split.
  - apply (A (RA Hg2)).
  - assert (H1 : messages (bp holding_m1) <> []) by discriminate.
    assert (H2 : Z.of_nat (length (messages (bp holding_m1))) < maxBatchSize (bp holding_m1))
      by reflexivity.
    assert (H3 : (10 <= now holding_m1 + 10)%nat) by (cbn; lia).
    destruct (B 10%nat 10%nat H1 H2 eq_refl eq_refl H3) as (_ & _ & RB & B').
    apply (B' (RB Hg)).
Defined.

(** C8 on a schedule that flushes once by size and once by timer. *)
Lemma C8_witness :
  concat (flushed (trace (snd (run ([Deliver m1; Deliver m2; TimerLoop; Deliver m3]
                                      ++ [Elapse 10; TimerLoop])
                                 (initial 0 2 10 geo_one put_succeeds)))))
  = [m1; m2; m3].
Proof.
  pose proof (C8_batches_partition_deliveries 0 2 10 geo_one put_succeeds
                [Deliver m1; Deliver m2; TimerLoop; Deliver m3]) as H.
  cbv zeta in H. destruct H as [_ H].
  apply H.
  repeat constructor; eexists; reflexivity.
Defined.

(** One message whose lookup fails ends the loop, and the process, before
    any handle is touched. *)
Lemma processMessage_geo_failure msg rows s d mj :
  Data msg = Some d -> Metas d = Some mj ->
  Name d <> "page_behavior" -> IP d <> "" ->
  ipDb s (IP d) = None ->
  fst (processMessage msg rows s) = Exit /\
  handles (snd (processMessage msg rows s)) = handles s /\
  forall rest, rangeM processMessage (msg :: rest) rows s = processMessage msg rows s.
Proof.
  intros HD HM HN HI Hgeo.
  assert (E : processMessage msg rows s =
              (Exit,
               set_logs (logs s ++ [(INFO, "Processing lead event of type %s with uuid %s");
                                    (FATAL, "%v")])
                 (set_lookups (lookups s ++ [IP d]) s))).
  { unfold processMessage. rewrite HD, HM.
    apply String.eqb_neq in HN, HI. rewrite HN, HI. cbn [negb andb].
    rewrite !bind_run. cbn [LogInfo modify]. rewrite !bind_run.
    unfold getIpLocation. rewrite !bind_run. cbn [get modify]. rewrite !bind_run.
    cbn [modify]. cbn. rewrite Hgeo. cbn. rewrite <- app_assoc. reflexivity. }
  split; [by rewrite E|]. split; [by rewrite E|].
  intros rest. rewrite rangeM_cons, bind_run, E. reflexivity.
Qed.

(** C5. A lead event whose address the geo database cannot resolve (here an
    unparsable [X-Forwarded-For] value, with consent) is first in a batch of
    two: [getIpLocation] calls [log.Fatal], the process exits inside the
    loop, the failing message is not negatively acknowledged, the second
    message is never looked at and nothing is inserted. *)
Theorem C5_geo_failure_exits_the_process :
  fst (processBatch holding_bad) = Exit /\
  handles (snd (processBatch holding_bad)) !! 4%nat = None /\
  handles (snd (processBatch holding_bad)) !! 2%nat = None /\
  lookups (snd (processBatch holding_bad)) = ["not-an-ip"] /\
  lead_event (snd (processBatch holding_bad)) = [] /\
  last (logs (snd (processBatch holding_bad))) = Some (FATAL, "%v").
Proof. vm_compute. repeat split; reflexivity. Qed.

(** C9. For a decoded lead event that the collector published for a lead
    without consent, or whose [ip] field is empty, the loop body makes no
    geo lookup and always returns. When [metas] can be encoded it stages
    exactly one more row, which carries the event's uuid, consent flag and
    [ip], and has empty [location_country] and [location_city]; the handle
    of the message is left to the final loop. Only when [metas] cannot be
    encoded is no row staged, and the message is then negatively
    acknowledged. *)
Theorem C9_no_lookup_without_consent_or_ip
    (s : State) (msg : Msg) (rows : list Row) (d : LeadEventDataPubSub) :
  Data msg = Some d ->
  (collected d /\ Consent d = false) \/ IP d = "" ->
  lookups (snd (processMessage msg rows s)) = lookups s /\
  match Metas d with
  | Some metasJSON =>
      handles (snd (processMessage msg rows s)) = handles s /\
      exists row,
        fst (processMessage msg rows s) = Ret (rows ++ [row])%list /\
        row = mkRow (now s) d metasJSON "" "" /\
        r_uuid row = UUID d /\ r_consent row = Consent d /\ r_ip row = IP d /\
        r_location_country row = "" /\ r_location_city row = ""
  | None =>
      fst (processMessage msg rows s) = Ret rows /\
      handles (snd (processMessage msg rows s)) = settle Nacked (ID msg) (handles s)
  end.
Proof.
  intros HD Hc.
  assert (HI : IP d = "").
  { destruct Hc as [[(b & led & rip & ->) Hcons] | H]; [|exact H].
    cbn in Hcons. cbn. by rewrite Hcons. }
  unfold processMessage. rewrite HD.
  destruct (Metas d) as [mj|].
  - rewrite HI. rewrite andb_false_r. cbn. split; [done|]. split; [done|].
    eexists. split; [reflexivity|]. repeat split; cbn; auto.
  - cbn. done.
Qed.

(** The end-to-end scenario: the same event with and without consent, in one
    batch. Only the first address is looked up; the second row has an empty
    [ip] and empty location fields. *)
Example consent_end_to_end :
  let s := snd (processBatch
                  (set_bp (set_messages [m1; m3]) (initial 0 2 10 geo_one put_succeeds))) in
  lookups s = ["203.0.113.7"] /\
  map (fun r => (r_consent r, r_ip r, r_location_country r, r_location_city r))
    (lead_event s)
  = [(true, "203.0.113.7", "France", "Paris"); (false, "", "", "")] /\
  handles s !! 1%nat = Some Acked /\ handles s !! 3%nat = Some Acked.
Proof. vm_compute. repeat split; reflexivity. Qed.

(** C9 on an event collected without consent. *)
Lemma C9_witness :
  lookups (snd (processMessage m3 [] holding_m1)) = [] /\
  handles (snd (processMessage m3 [] holding_m1)) = ∅ /\
  exists row,
    fst (processMessage m3 [] holding_m1) = Ret ([] ++ [row])%list /\
    r_uuid row = "e" /\ r_consent row = false /\ r_ip row = "" /\
    r_location_country row = "" /\ r_location_city row = "".
Proof.
  pose proof (C9_no_lookup_without_consent_or_ip holding_m1 m3 []
                (collectLeadEventData "brand" (browser_event "e" false) "203.0.113.7")
                eq_refl) as H.
  destruct H as (Hl & Hh & row & Hr & _ & H1 & H2 & H3 & H4 & H5).
  - left. split; [|reflexivity]. by eexists _, _, _.
  - split; [exact Hl|]. split; [exact Hh|].
    exists row. split; [exact Hr|]. by repeat split.
Defined.

End LeadEventFacts.

(** ** Page and user consumers *)

Module ConsumerFacts.

(** The branch "Page has not changed": whatever the services and the state,
    the loop body only writes to the log. The message is neither staged for
    acknowledgement nor acknowledged. *)
Lemma page_unchanged_only_logs
    (env : PageConsumer.Services) (msg : PageConsumer.Msg)
    (acc : list PageConsumer.Msg * list PageConsumer.PageDataPubSub)
    (s : PageConsumer.State) (d : PageConsumer.PageDataPubSub)
    (row : PageConsumer.PageData) (lang : string) :
  Data msg = Some d ->
  PageConsumer.parseLocale env (PageConsumer.Language d) = Some lang ->
  PageConsumer.detectLanguage env (PageConsumer.Content d) = lang ->
  PageConsumer.queryOk env (PageConsumer.Brand d) (PageConsumer.URL d) = true ->
  List.find (PageConsumer.key_matches (PageConsumer.Brand d) (PageConsumer.URL d))
    (PageConsumer.page s) = Some row ->
  option_map PageConsumer.Format (PageConsumer.p_ModificationDate row) =
    option_map PageConsumer.Format (PageConsumer.ModificationDate d) ->
  PageConsumer.processMessage env msg acc s =
  (Ret acc,
   PageConsumer.set_logs
     (PageConsumer.logs s ++
        [(INFO, "string(msg.Data)");
         (INFO, "Processing page for brand '%s' of type '%s' with url '%s'");
         (INFO, "Page has not changed")]) s).
Proof.
  intros HD HL HC HQ HF HM.
  unfold PageConsumer.processMessage. rewrite bind_run. cbn [PageConsumer.LogInfo modify].
  rewrite HD, HL, HC, String.eqb_refl. cbn [negb].
  rewrite bind_run. cbn [PageConsumer.LogInfo modify].
  rewrite bind_run. unfold PageConsumer.getPageFromDB. rewrite bind_run. cbn [get].
  rewrite HQ. cbn [ret PageConsumer.page PageConsumer.set_logs]. rewrite HF, HM.
  assert (E : forall o, PageConsumer.option_Z_eqb o o = true).
  { intros [z|]; [apply Z.eqb_refl|reflexivity]. }
  rewrite E. cbn [negb]. rewrite bind_run. cbn. rewrite <- !app_assoc. reflexivity.
Qed.

(** The loop of the page consumer always runs to its end, and it leaves the
    committed table and the BigQuery table alone: it only stages. *)
Lemma page_processMessage_frame (env : PageConsumer.Services) msg acc s :
  exists acc',
    fst (PageConsumer.processMessage env msg acc s) = Ret acc' /\
    PageConsumer.page (snd (PageConsumer.processMessage env msg acc s))
      = PageConsumer.page s /\
    PageConsumer.bq_page (snd (PageConsumer.processMessage env msg acc s))
      = PageConsumer.bq_page s.
Proof.
  unfold PageConsumer.processMessage, PageConsumer.getPageFromDB, PageConsumer.tx_Exec,
    PageConsumer.tx_Rollback, PageConsumer.LogInfo, PageConsumer.LogError,
    PageConsumer.Ack, PageConsumer.Nack, bind, ret, get, modify.
  cbn.
  repeat match goal with
         | |- context [match ?x with _ => _ end] =>
             lazymatch x with
             | context [match _ with _ => _ end] => fail
             | _ => destruct x eqn:?; cbn
             end
         end;
    eexists; repeat split; reflexivity.
Qed.

Lemma page_loop_frame (env : PageConsumer.Services) msgs : forall acc s,
  exists acc',
    fst (rangeM (PageConsumer.processMessage env) msgs acc s) = Ret acc' /\
    PageConsumer.page (snd (rangeM (PageConsumer.processMessage env) msgs acc s))
      = PageConsumer.page s /\
    PageConsumer.bq_page (snd (rangeM (PageConsumer.processMessage env) msgs acc s))
      = PageConsumer.bq_page s.
Proof.
  induction msgs as [|msg msgs IH]; intros acc s.
  - exists acc. by rewrite rangeM_nil.
  - rewrite rangeM_cons, bind_run.
    destruct (page_processMessage_frame env msg acc s) as (acc1 & Hr & Hp & Hb).
    destruct (PageConsumer.processMessage env msg acc s) as [r s1]; cbn [fst snd] in *.
    subst r. destruct (IH acc1 s1) as (acc' & Hr' & Hp' & Hb').
    exists acc'. split; [exact Hr'|]. split; congruence.
Qed.

Lemma page_range_Ack_frame (l : list PageConsumer.Msg) : forall st,
  fst (rangeM (fun m (_ : unit) => PageConsumer.Ack m) l tt st) = Ret tt /\
  PageConsumer.page (snd (rangeM (fun m (_ : unit) => PageConsumer.Ack m) l tt st))
    = PageConsumer.page st.
Proof.
  induction l as [|m l IH]; intros st.
  - by rewrite rangeM_nil.
  - rewrite rangeM_cons, bind_run. cbn [PageConsumer.Ack modify].
    destruct (IH (PageConsumer.set_handles
                    (settle Acked (ID m) (PageConsumer.handles st)) st)) as [E1 E2].
    split; [exact E1|exact E2].
Qed.

(** Whatever the batch: when [tx.Commit] fails the committed table is what
    it was before the flush, and the flush still returns normally. *)
Lemma page_failed_commit_keeps_table (env : PageConsumer.Services) s :
  PageConsumer.commitOk env = false ->
  fst (PageConsumer.processBatch env s) = Ret tt /\
  PageConsumer.page (snd (PageConsumer.processBatch env s)) = PageConsumer.page s.
Proof.
  intros Hc. unfold PageConsumer.processBatch. rewrite bind_run. cbn [get].
  destruct (length (PageConsumer.messages s) =? 0)%nat; [by split|].
  rewrite bind_run. cbn [PageConsumer.LogInfo modify].
  rewrite bind_run. unfold PageConsumer.db_Begin.
  destruct (PageConsumer.beginOk env); [|by split].
  rewrite bind_run. cbn [modify]. cbn [ret]. rewrite bind_run.
  match goal with
  | |- context [rangeM (PageConsumer.processMessage env) ?l ?a ?st] =>
      destruct (page_loop_frame env l a st) as (acc & Hr & Hp & _);
      destruct (rangeM (PageConsumer.processMessage env) l a st) as [r s1]
  end.
  cbn [fst snd] in *. subst r.
  rewrite bind_run. unfold PageConsumer.tx_Commit. rewrite bind_run. cbn [get]. rewrite Hc.
  assert (Hput : forall st,
            PageConsumer.page st = PageConsumer.page s ->
            let out :=
              bind
                (if PageConsumer.bqPutOk env acc.2
                 then bind (modify (fun s1 => PageConsumer.set_bq_page
                                       (PageConsumer.bq_page s1 ++ acc.2) s1))
                        (fun _ => bind (rangeM (fun m (_ : unit) => PageConsumer.Ack m)
                                          acc.1 tt)
                           (fun _ => PageConsumer.LogInfo
                                       "Successfully inserted %d rows in BigQuery."))
                 else PageConsumer.LogError "Failed to insert rows: %v")
                (fun _ => bind (PageConsumer.LogInfo
                                  "Successfully processed %d out of %d messages in %dms.")
                   (fun _ => modify (PageConsumer.set_messages []))) st in
            fst out = Ret tt /\ PageConsumer.page (snd out) = PageConsumer.page s).
  { intros st Hst. cbn zeta. rewrite bind_run.
    destruct (PageConsumer.bqPutOk env acc.2).
    - rewrite bind_run. cbn [modify]. rewrite bind_run.
      destruct (page_range_Ack_frame acc.1
                  (PageConsumer.set_bq_page (PageConsumer.bq_page st ++ acc.2) st))
        as [E1 E2].
      destruct (rangeM _ acc.1 tt _) as [r2 s2]. cbn [fst snd] in *. subst r2.
      cbn. split; [reflexivity|]. rewrite E2. exact Hst.
    - cbn. split; [reflexivity|exact Hst]. }
  destruct (PageConsumer.tx_state s1).
  - rewrite !bind_run. cbn [modify ret]. rewrite bind_run.
    cbn [PageConsumer.LogError modify]. apply Hput. cbn. exact Hp.
  - rewrite !bind_run. cbn [modify ret]. rewrite bind_run.
    cbn [PageConsumer.LogError modify]. apply Hput. cbn. exact Hp.
  - cbn [ret]. rewrite bind_run.
    cbn [PageConsumer.LogError modify]. apply Hput. cbn. exact Hp.
Qed.

(** C2. A page message is delivered, committed and acknowledged; the same
    message is delivered again in a later batch (new handle 8). The second
    delivery finds the row with an equal modification date: the table
    [page] and the BigQuery table keep their single row, but the handle of
    the second delivery is left unsettled: the consumer calls neither Ack
    nor Nack on it. *)
Theorem C2_unchanged_page_is_never_acknowledged :
  let first := PageConsumer.processBatch PageConsumer.all_ok
                 (PageConsumer.holding [PageConsumer.page_msg 7] []) in
  let second := PageConsumer.processBatch PageConsumer.all_ok
                  (PageConsumer.set_messages [PageConsumer.page_msg 8] (snd first)) in
  fst first = Ret tt /\
  PageConsumer.page (snd first) = [PageConsumer.inserted_row PageConsumer.article] /\
  PageConsumer.bq_page (snd first) = [PageConsumer.article] /\
  PageConsumer.handles (snd first) !! 7%nat = Some Acked /\
  fst second = Ret tt /\
  PageConsumer.page (snd second) = PageConsumer.page (snd first) /\
  PageConsumer.bq_page (snd second) = PageConsumer.bq_page (snd first) /\
  PageConsumer.handles (snd second) !! 8%nat = None /\
  PageConsumer.messages (snd second) = [].
Proof. vm_compute. repeat split; reflexivity. Qed.

(** C1. A batch with one new page (one new user) is flushed and [tx.Commit]
    returns an error: the relational table stays empty, the error is
    logged, and the consumer goes on to insert the staged row into BigQuery
    and to acknowledge the staged message. *)
Theorem C1_failed_commit_is_followed_by_insert_and_ack :
  (let out := PageConsumer.processBatch PageConsumer.commit_fails
                (PageConsumer.holding [PageConsumer.page_msg 7] []) in
   fst out = Ret tt /\
   PageConsumer.page (snd out) = [] /\
   PageConsumer.bq_page (snd out) = [PageConsumer.article] /\
   PageConsumer.handles (snd out) !! 7%nat = Some Acked /\
   In (ERROR, "Error committing transaction: ") (PageConsumer.logs (snd out)))
  /\
  (let out := UserConsumer.processBatch UserConsumer.commit_fails
                (UserConsumer.holding [UserConsumer.user_msg 7] []) in
   fst out = Ret tt /\
   UserConsumer.user (snd out) = [] /\
   UserConsumer.bq_user (snd out) = [UserConsumer.reader] /\
   UserConsumer.handles (snd out) !! 7%nat = Some Acked /\
   In (ERROR, "Error committing transaction: ") (UserConsumer.logs (snd out))).
Proof.
  vm_compute. repeat split; try reflexivity.
  - do 4 right. left. reflexivity.
  - do 3 right. left. reflexivity.
Qed.

End ConsumerFacts.

(** ** Rollup upserts *)

Module RollupFacts.
Import Rollup.

Lemma do_update_defined (old v : Metrics) :
  view_count old + view_count v <> 0 ->
  do_update old v =
  Some {| view_count := view_count old + view_count v;
          avg_time_spent :=
            (avg_time_spent old + avg_time_spent v)
            / inject_Z (view_count old + view_count v);
          avg_reading_rate :=
            (avg_reading_rate old + avg_reading_rate v)
            / inject_Z (view_count old + view_count v) |}.
Proof.
  intros Hn. unfold do_update.
  destruct (Z.eqb_spec (view_count old + view_count v) 0); [contradiction|reflexivity].
Qed.

(** Counts that add up to zero: the statement fails on the division and the
    job leaves the table as it was. *)
Lemma upsert_zero_divisor (k : Key) (v old : Metrics) (t : gmap Key Metrics) :
  t !! k = Some old ->
  view_count old + view_count v = 0 ->
  upsert k v t = None /\ exec_insert k v t = t.
Proof.
  intros Hk Hz. unfold exec_insert, upsert, do_update. rewrite Hk, Hz. by split.
Qed.

(** A key that is not in the table yet: the proposed row is inserted as it
    is. *)
Lemma upsert_fresh (k : Key) (v : Metrics) (t : gmap Key Metrics) :
  t !! k = None -> upsert k v t = Some (<[k := v]> t).
Proof. intros Hk. unfold upsert. by rewrite Hk. Qed.

(** C3. When the key of the proposed row is already in the table (and the
    two counts do not add up to zero, which would make the statement fail),
    the upsert replaces the row at that key and leaves the others: the new
    count is the sum of the counts, each new average is the sum of the two
    averages divided by the sum of the counts. On the rows (10, 50) and
    (5, 80) this gives 15 and 130/15, which is 8.67 to two decimals. *)
Theorem C3_conflicting_upsert_sums_counts_and_divides_sum_of_averages
    (k : Key) (v old : Metrics) (t : gmap Key Metrics) :
  t !! k = Some old ->
  view_count old + view_count v <> 0 ->
  (exists new,
     upsert k v t = Some (<[k := new]> t) /\
     view_count new = view_count old + view_count v /\
     (avg_time_spent new ==
        (avg_time_spent old + avg_time_spent v)
        / inject_Z (view_count old + view_count v))%Q /\
     (avg_reading_rate new ==
        (avg_reading_rate old + avg_reading_rate v)
        / inject_Z (view_count old + view_count v))%Q) /\
  (exists merged,
     do_update existing_row incoming_row = Some merged /\
     view_count merged = 15 /\
     (avg_time_spent merged == (50 + 80) / 15)%Q /\
     (8665 # 1000 <= avg_time_spent merged < 8675 # 1000)%Q).
Proof.
  intros Hk Hn. split.
  - eexists. unfold upsert. rewrite Hk, (do_update_defined old v Hn).
    split; [reflexivity|]. cbn. repeat split; reflexivity.
  - eexists. split; [reflexivity|]. cbn.
    split; [reflexivity|]. split; [reflexivity|].
    split; [vm_compute; discriminate | vm_compute; reflexivity].
Qed.

(** C3 on a table that holds the existing row of the example. *)
Lemma C3_witness :
  exists new,
    upsert ("brand", "lead-1", "2024-01-01 00:00:00") incoming_row
      {[ ("brand", "lead-1", "2024-01-01 00:00:00") := existing_row ]}
    = Some (<[("brand", "lead-1", "2024-01-01 00:00:00") := new]>
              {[ ("brand", "lead-1", "2024-01-01 00:00:00") := existing_row ]}) /\
    view_count new = 15.
Proof.
  destruct (C3_conflicting_upsert_sums_counts_and_divides_sum_of_averages
              ("brand", "lead-1", "2024-01-01 00:00:00") incoming_row existing_row
              {[ ("brand", "lead-1", "2024-01-01 00:00:00") := existing_row ]})
    as [(new & Hu & Hc & _) _].
  - apply lookup_singleton_eq.
  - discriminate.
  - exists new. split; [exact Hu|exact Hc].
Defined.

(** C4 as stated fails on the rows of the example: the code's average is
    130/15, the count-weighted mean is 900/15 = 60. *)
Lemma C4_counterexample :
  exists merged,
    do_update existing_row incoming_row = Some merged /\
    ~ (avg_time_spent merged ==
       spec_weighted_mean (avg_time_spent existing_row) (view_count existing_row)
         (avg_time_spent incoming_row) (view_count incoming_row))%Q.
Proof.
  eexists. split; [reflexivity|]. cbn. intros H. discriminate H.
Qed.

(** C4, amended. On a conflict (with counts that do not add up to zero) the
    count accumulates by simple sum and each new average is the sum of the
    old and the incoming average divided by the sum of the counts. This is
    the count-weighted mean exactly when
    old_avg * (old_count - 1) + new_avg * (new_count - 1) = 0. *)
Theorem C4_merge_divides_plain_sum_of_averages (old v : Metrics) :
  view_count old + view_count v <> 0 ->
  exists new,
    do_update old v = Some new /\
    view_count new = view_count old + view_count v /\
    (avg_time_spent new ==
       (avg_time_spent old + avg_time_spent v)
       / inject_Z (view_count old + view_count v))%Q /\
    (avg_reading_rate new ==
       (avg_reading_rate old + avg_reading_rate v)
       / inject_Z (view_count old + view_count v))%Q /\
    ((avg_time_spent new ==
        spec_weighted_mean (avg_time_spent old) (view_count old)
          (avg_time_spent v) (view_count v))%Q
     <->
     (avg_time_spent old * inject_Z (view_count old - 1)
      + avg_time_spent v * inject_Z (view_count v - 1) == 0)%Q).
Proof.
  intros Hn. eexists. split; [exact (do_update_defined old v Hn)|].
  cbn. split; [reflexivity|]. split; [reflexivity|]. split; [reflexivity|].
  unfold spec_weighted_mean.
  set (a := avg_time_spent old). set (b := avg_time_spent v).
  set (n := view_count old + view_count v) in *.
  assert (Hq : ~ (inject_Z n == 0)%Q).
  { intros H. apply Hn. unfold Qeq in H. cbn in H. lia. }
  assert (Hs : forall c, (inject_Z (c - 1) == inject_Z c - 1)%Q).
  { intros c. unfold Z.sub. rewrite inject_Z_plus, inject_Z_opp. reflexivity. }
  rewrite !Hs.
  set (x := inject_Z (view_count old)). set (y := inject_Z (view_count v)).
  assert (Hring : (a * (x - 1) + b * (y - 1) == (a * x + b * y) - (a + b))%Q) by ring.
  rewrite Hring. split.
  - intros H.
    assert (H' : (a + b == a * x + b * y)%Q).
    { apply (Qmult_inj_r _ _ (/ inject_Z n)).
      - intros Hz. apply Hq. rewrite <- (Qinv_involutive (inject_Z n)), Hz. reflexivity.
      - exact H. }
    rewrite <- H'. ring.
  - intros H.
    assert (H' : (a + b == a * x + b * y)%Q).
    { assert (E : (a + b == (a + b) + ((a * x + b * y) - (a + b)))%Q)
        by (rewrite H; ring).
      rewrite E. ring. }
    unfold Qdiv. rewrite H'. reflexivity.
Qed.

(** C4 on the rows of the example. *)
Lemma C4_witness :
  exists new,
    do_update existing_row incoming_row = Some new /\ view_count new = 15.
Proof.
  destruct (C4_merge_divides_plain_sum_of_averages existing_row incoming_row)
    as (new & Hu & Hc & _).
  - discriminate.
  - exists new. split; [exact Hu|exact Hc].
Defined.

End RollupFacts.

(** ** The lead engagement score *)

Module ScoreFacts.
Import Score.

(** [ROUND2] returns a multiple of 0.01 at most 0.005 away. *)
Lemma ROUND2_near (x : Q) :
  exists k : Z, (ROUND2 x == inject_Z k / 100)%Q /\
    (x - (1 # 200) <= ROUND2 x <= x + (1 # 200))%Q.
Proof.
  unfold ROUND2. destruct (Qle_bool 0 x) eqn:E.
  - exists (Qfloor (x * 100 + (1 # 2))). split; [reflexivity|].
    pose proof (Qfloor_le (x * 100 + (1 # 2))) as Hlo.
    pose proof (Qlt_floor (x * 100 + (1 # 2))) as Hhi.
    rewrite inject_Z_plus in Hhi. change (inject_Z 1) with 1%Q in Hhi.
    set (f := inject_Z (Qfloor (x * 100 + (1 # 2)))) in *.
    split; apply Qle_shift_div_l || apply Qle_shift_div_r; try reflexivity; lra.
  - exists (- Qfloor (- x * 100 + (1 # 2))). split.
    { rewrite inject_Z_opp. unfold Qdiv. ring. }
    pose proof (Qfloor_le (- x * 100 + (1 # 2))) as Hlo.
    pose proof (Qlt_floor (- x * 100 + (1 # 2))) as Hhi.
    rewrite inject_Z_plus in Hhi. change (inject_Z 1) with 1%Q in Hhi.
    set (f := inject_Z (Qfloor (- x * 100 + (1 # 2)))) in *.
    assert (Hd : (f / 100 == f * (1 # 100))%Q) by (unfold Qdiv; reflexivity).
    rewrite Hd. split; lra.
Qed.





(** C10. When the two oldest windows have no views, the score is 0 even if
    the most recent window has views. *)
Theorem C10_recent_activity_alone_scores_zero (m : monthly_metrics) :
  views_month_1 m = 0 -> views_month_2 m = 0 -> 0 < views_month_3 m ->
  score m = 0%Q.
Proof.
  intros H1 H2 H3. unfold score. rewrite H1, H2. cbn.
  destruct (Z.geb_spec (views_month_3 m) 0); [reflexivity|lia].
Qed.

(** C10 on windows (0, 0, 7). *)
Lemma C10_witness : score (views_only 0 0 7) = 0%Q.
Proof.
  apply (C10_recent_activity_alone_scores_zero (views_only 0 0 7)); cbn;
    [reflexivity|reflexivity|lia].
Defined.

End ScoreFacts.

(** ** Lead-event consumer: outcomes of a flush *)

Module LeadEventOutcomeFacts.
Import LeadEvent LeadEventFacts LeadEventOutcome.

Local Arguments rangeM : simpl never.

Lemma processMessage_outcome msg rows s :
  locatable (ipDb s) [msg] ->
  exists rows',
    fst (processMessage msg rows s) = Ret rows' /\
    handles (snd (processMessage msg rows s)) =
      match staged_payload msg with
      | Some _ => handles s
      | None => settle Nacked (ID msg) (handles s)
      end /\
    map r_uuid rows' =
      map r_uuid rows ++ map UUID (omap staged_payload [msg]).
Proof.
  intros Hgeo. inversion Hgeo as [|? ? Hm _]; subst. clear Hgeo.
  unfold looked_up in Hm.
  unfold staged_payload, processMessage, getIpLocation, log_Fatal,
    LogError, LogInfo, Nack, bind, ret, get, modify, exit. cbn.
  destruct (Data msg) as [d|]; cbn; [|eexists; by rewrite app_nil_r].
  destruct (Metas d) as [mj|]; cbn; [|eexists; by rewrite app_nil_r].
  destruct (negb (Name d =? "page_behavior")%string && negb (IP d =? "")%string); cbn.
  - destruct Hm as [loc ->]. cbn. eexists. split; [reflexivity|].
    split; [reflexivity|]. by rewrite map_app.
  - eexists. split; [reflexivity|]. split; [reflexivity|]. by rewrite map_app.
Qed.

Lemma loop_outcome msgs : forall rows s,
  locatable (ipDb s) msgs ->
  exists rows',
    fst (rangeM processMessage msgs rows s) = Ret rows' /\
    handles (snd (rangeM processMessage msgs rows s)) = nack_unstaged (handles s) msgs /\
    map r_uuid rows' = map r_uuid rows ++ map UUID (staged_payloads msgs).
Proof.
  induction msgs as [|msg msgs IH]; intros rows s Hgeo.
  - rewrite rangeM_nil. exists rows. cbn. by rewrite app_nil_r.
  - apply locatable_cons in Hgeo as [Hmsg Hrest].
    rewrite rangeM_cons, bind_run.
    destruct (processMessage_outcome msg rows s Hmsg) as (rows1 & Hr & Hh & Hu).
    destruct (processMessage_frame msg rows s) as [Hf _].
    destruct (processMessage msg rows s) as [r s1]; cbn [fst snd] in *. subst r.
    assert (Hgeo1 : locatable (ipDb s1) msgs) by (by rewrite (fr_ipDb _ _ Hf)).
    destruct (IH rows1 s1 Hgeo1) as (rows' & Hr' & Hh' & Hu').
    exists rows'. split; [exact Hr'|]. split.
    + rewrite Hh', Hh. reflexivity.
    + rewrite Hu', Hu, <- app_assoc. f_equal. unfold staged_payloads. cbn.
      destruct (staged_payload msg); reflexivity.
Qed.

Lemma ack_loop_handles msgs : forall s,
  handles (snd (rangeM (fun msg (_ : unit) => Ack msg) msgs tt s)) = ack_all (handles s) msgs.
Proof.
  induction msgs as [|msg msgs IH]; intros s.
  - reflexivity.
  - rewrite rangeM_cons, bind_run. cbn [Ack modify]. rewrite IH. reflexivity.
Qed.

Lemma nack_unstaged_lookup msgs : forall h id,
  nack_unstaged h msgs !! id =
  match h !! id with
  | Some v => Some v
  | None =>
      if existsb (fun m => (ID m =? id)%nat && negb (bool_decide (is_Some (staged_payload m))))
           msgs
      then Some Nacked else None
  end.
Proof.
  induction msgs as [|m msgs IH]; intros h id.
  - cbn. by destruct (h !! id).
  - cbn [nack_unstaged fold_left existsb]. fold (nack_unstaged).
    change (fold_left _ msgs ?x) with (nack_unstaged x msgs).
    rewrite IH. destruct (staged_payload m) as [d|] eqn:Es.
    + rewrite bool_decide_eq_true_2 by eauto. rewrite andb_false_r. reflexivity.
    + rewrite bool_decide_eq_false_2 by (intros [? ?]; discriminate).
      rewrite andb_true_r. destruct (Nat.eqb_spec (ID m) id) as [->|Hne].
      * rewrite settle_lookup_self. by destruct (h !! id).
      * rewrite settle_lookup_ne by done. reflexivity.
Qed.

Lemma ack_all_lookup msgs : forall h id,
  ack_all h msgs !! id =
  match h !! id with
  | Some v => Some v
  | None => if existsb (fun m => (ID m =? id)%nat) msgs then Some Acked else None
  end.
Proof.
  induction msgs as [|m msgs IH]; intros h id.
  - cbn. by destruct (h !! id).
  - cbn [ack_all fold_left existsb].
    change (fold_left _ msgs ?x) with (ack_all x msgs).
    rewrite IH. destruct (Nat.eqb_spec (ID m) id) as [->|Hne].
    + rewrite settle_lookup_self. by destruct (h !! id).
    + rewrite settle_lookup_ne by done. reflexivity.
Qed.

(** A flush of a non-empty buffer whose lookups are all resolved: it
    returns with an empty buffer; the rows it builds are those of the staged
    messages in order; the insert decides between the two outcomes. *)
Lemma processBatch_outcome s :
  locatable (ipDb s) (messages (bp s)) ->
  messages (bp s) <> [] ->
  fst (processBatch s) = Ret tt /\
  messages (bp (snd (processBatch s))) = [] /\
  exists rows,
    map r_uuid rows = map UUID (staged_payloads (messages (bp s))) /\
    (bqPutOk s rows = true ->
       lead_event (snd (processBatch s)) = lead_event s ++ rows /\
       handles (snd (processBatch s)) =
         ack_all (nack_unstaged (handles s) (messages (bp s))) (messages (bp s))) /\
    (bqPutOk s rows = false ->
       lead_event (snd (processBatch s)) = lead_event s /\
       handles (snd (processBatch s)) = nack_unstaged (handles s) (messages (bp s))).
Proof.
  intros Hgeo Hne. rewrite processBatch_unfold.
  assert (E0 : (length (messages (bp s)) =? 0)%nat = false).
  { destruct (messages (bp s)); [done|reflexivity]. }
  rewrite E0.
  assert (Hgeo' : locatable (ipDb (after_header s)) (messages (bp s))) by exact Hgeo.
  destruct (loop_outcome (messages (bp s)) [] (after_header s) Hgeo')
    as (rows & Hr & Hh & Hu).
  destruct (range_processMessage_frame (messages (bp s)) [] (after_header s)) as [Hf _].
  destruct (rangeM processMessage (messages (bp s)) [] (after_header s)) as [r s1].
  cbn [fst snd] in *. subst r.
  destruct Hf as [Hbp _ _ Hput Htab _]. cbn in Hbp, Hput, Htab, Hh.
  rewrite Hput.
  destruct (bqPutOk s rows) eqn:Eput.
  - destruct (range_Ack_frame (messages (bp s)) (after_put s1 rows)) as [Hfa Hra].
    pose proof (ack_loop_handles (messages (bp s)) (after_put s1 rows)) as Hah.
    destruct (rangeM _ (messages (bp s)) tt (after_put s1 rows)) as [r2 s2].
    cbn [fst snd] in *. subst r2.
    destruct Hfa as [Hbp2 _ _ _ Htab2 _]. cbn in Hbp2, Htab2, Hah.
    split; [reflexivity|]. split; [reflexivity|].
    exists rows. split; [exact Hu|]. split; [|intros E; congruence].
    intros _. cbn. rewrite Htab2, Htab, Hah, Hh. done.
  - split; [reflexivity|]. split; [reflexivity|].
    exists rows. split; [exact Hu|]. split; [intros E; congruence|].
    intros _. cbn. rewrite Htab, Hh. done.
Qed.

Lemma existsb_ID_elem (msgs : list Msg) (m : Msg) :
  m ∈ msgs -> existsb (fun m' => (ID m' =? ID m)%nat) msgs = true.
Proof.
  intros Hin. apply existsb_exists. exists m. split.
  - by apply list_elem_of_In.
  - apply Nat.eqb_refl.
Qed.

Lemma NoDup_ID_inj (l : list Msg) (m m' : Msg) :
  List.NoDup (List.map ID l) -> In m l -> In m' l -> ID m' = ID m -> m' = m.
Proof.
  induction l as [|a l IH]; cbn; intros Hnd H1 H2 Hid; [contradiction|].
  inversion Hnd as [|? ? Hnotin Hnd']; subst.
  destruct H1 as [->|H1], H2 as [->|H2].
  - reflexivity.
  - exfalso. apply Hnotin. rewrite <- Hid. by apply in_map.
  - exfalso. apply Hnotin. rewrite Hid. by apply in_map.
  - by apply IH.
Qed.

(** X1. When the geo database resolves the addresses that the flush looks
    up and the insert into BigQuery succeeds, every message of the batch
    whose handle was unsettled gets exactly one verdict: Nack if no row
    could be staged for it (it does not decode, or its metas do not
    encode), Ack otherwise. The final loop calls Ack on the nacked messages
    too, but the first verdict stands. *)
Theorem flush_settles_each_message_once (s : State) (m : Msg) :
  locatable (ipDb s) (messages (bp s)) ->
  (forall rows, bqPutOk s rows = true) ->
  NoDup (map ID (messages (bp s))) ->
  m ∈ messages (bp s) ->
  handles s !! ID m = None ->
  fst (processBatch s) = Ret tt /\
  handles (snd (processBatch s)) !! ID m =
    Some (if bool_decide (is_Some (staged_payload m)) then Acked else Nacked).
Proof.
  intros Hgeo Hput Hnd Hin Hnone.
  assert (Hne : messages (bp s) <> []) by (intros E; rewrite E in Hin; inversion Hin).
  destruct (processBatch_outcome s Hgeo Hne) as (Hret & _ & rows & _ & Hok & _).
  split; [exact Hret|].
  destruct (Hok (Hput rows)) as [_ ->].
  rewrite ack_all_lookup, nack_unstaged_lookup, Hnone.
  destruct (existsb (fun m0 => (ID m0 =? ID m)%nat
                               && negb (bool_decide (is_Some (staged_payload m0))))
              (messages (bp s))) eqn:Ex.
  - apply existsb_exists in Ex as (m' & Hin' & Hm').
    apply andb_prop in Hm' as [Hid Hst]. apply Nat.eqb_eq in Hid.
    assert (m' = m) as ->.
    { apply (NoDup_ID_inj (messages (bp s))); [|by apply list_elem_of_In|exact Hin'|exact Hid].
      by apply NoDup_ListNoDup. }
    apply negb_true_iff in Hst. by rewrite Hst.
  - rewrite (existsb_ID_elem _ _ Hin).
    destruct (bool_decide (is_Some (staged_payload m))) eqn:Est; [reflexivity|].
    exfalso. assert (Hex : existsb (fun m0 => (ID m0 =? ID m)%nat
                               && negb (bool_decide (is_Some (staged_payload m0))))
              (messages (bp s)) = true).
    { apply existsb_exists. exists m. split; [by apply list_elem_of_In|].
      by rewrite Nat.eqb_refl, Est. }
    congruence.
Qed.

(** X1 on a batch of an undecodable message and two lead events. *)
Lemma flush_settles_each_message_once_witness :
  handles (snd (processBatch holding_mixed)) !! 9%nat = Some Nacked /\
  handles (snd (processBatch holding_mixed)) !! 1%nat = Some Acked.
Proof.
  assert (Hg : locatable (ipDb holding_mixed) (messages (bp holding_mixed))).
  { repeat constructor. eexists. reflexivity. }
  assert (Hp : forall rows, bqPutOk holding_mixed rows = true) by reflexivity.
  assert (Hnd : NoDup (map ID (messages (bp holding_mixed)))).
  { apply (bool_decide_unpack _). vm_compute. exact I. }
  split.
  - pose proof (flush_settles_each_message_once holding_mixed (undecodable 9) Hg Hp Hnd) as H.
    destruct H as [_ H]; [cbn; set_solver|reflexivity|]. exact H.
  - pose proof (flush_settles_each_message_once holding_mixed m1 Hg Hp Hnd) as H.
    destruct H as [_ H]; [cbn; set_solver|reflexivity|]. exact H.
Defined.

(** X2. When the geo database resolves the addresses that the flush looks
    up, at least one row is staged and BigQuery refuses the insert, the flush
    still returns and empties the buffer: the table is unchanged, and the
    handles only carry the Nacks of the messages without a staged row. A
    batch in which every message was staged is dropped with all its handles
    untouched. *)
Theorem failed_insert_drops_the_batch (s : State) :
  locatable (ipDb s) (messages (bp s)) ->
  staged_payloads (messages (bp s)) <> [] ->
  (forall rows, rows <> [] -> bqPutOk s rows = false) ->
  fst (processBatch s) = Ret tt /\
  messages (bp (snd (processBatch s))) = [] /\
  lead_event (snd (processBatch s)) = lead_event s /\
  handles (snd (processBatch s)) = nack_unstaged (handles s) (messages (bp s)) /\
  (Forall (fun m => is_Some (staged_payload m)) (messages (bp s)) ->
   handles (snd (processBatch s)) = handles s).
Proof.
  intros Hgeo Hst Hput.
  assert (Hne : messages (bp s) <> []).
  { intros E. apply Hst. by rewrite E. }
  destruct (processBatch_outcome s Hgeo Hne) as (Hret & Hmsgs & rows & Hu & _ & Hko).
  assert (Hrows : rows <> []).
  { intros ->. cbn in Hu. apply Hst. symmetry in Hu.
    by apply map_eq_nil in Hu. }
  destruct (Hko (Hput rows Hrows)) as [Htab Hh].
  split; [exact Hret|]. split; [exact Hmsgs|]. split; [exact Htab|].
  split; [exact Hh|].
  intros Hall. rewrite Hh. clear -Hall.
  generalize (handles s). induction Hall as [|m l [d Hd] _ IH]; intros h.
  - reflexivity.
  - cbn. rewrite Hd. apply IH.
Qed.

(** X2 on a batch of two lead events and a BigQuery that refuses. *)
Lemma failed_insert_drops_the_batch_witness :
  messages (bp (snd (processBatch holding_unlucky))) = [] /\
  lead_event (snd (processBatch holding_unlucky)) = [] /\
  handles (snd (processBatch holding_unlucky)) = ∅.
Proof.
  assert (Hg : locatable (ipDb holding_unlucky) (messages (bp holding_unlucky))).
  { repeat constructor. eexists. reflexivity. }
  assert (Hst : staged_payloads (messages (bp holding_unlucky)) <> []) by discriminate.
  assert (Hp : forall rows, rows <> [] -> bqPutOk holding_unlucky rows = false).
  { intros [|r rows] Hr; [done|reflexivity]. }
  destruct (failed_insert_drops_the_batch holding_unlucky Hg Hst Hp)
    as (_ & Hm & Ht & _ & Hh).
  split; [exact Hm|]. split; [exact Ht|].
  apply Hh. repeat constructor; eexists; reflexivity.
Defined.

(** X3. When the geo database resolves the addresses that the flush looks
    up, a successful flush appends to the table one row for each message
    that could be staged, in the order of the buffer: the uuids of the new
    rows are the uuids of those payloads. *)
Theorem successful_insert_appends_staged_rows_in_order (s : State) :
  locatable (ipDb s) (messages (bp s)) ->
  messages (bp s) <> [] ->
  (forall rows, bqPutOk s rows = true) ->
  exists rows,
    lead_event (snd (processBatch s)) = lead_event s ++ rows /\
    map r_uuid rows = map UUID (staged_payloads (messages (bp s))).
Proof.
  intros Hgeo Hne Hput.
  destruct (processBatch_outcome s Hgeo Hne) as (_ & _ & rows & Hu & Hok & _).
  exists rows. split; [apply (Hok (Hput rows))|exact Hu].
Qed.

(** X3 on the batch of X1: one message is skipped, two rows are appended. *)
Lemma successful_insert_appends_staged_rows_in_order_witness :
  exists rows,
    lead_event (snd (processBatch holding_mixed)) = [] ++ rows /\
    map r_uuid rows = ["e"; "e"].
Proof.
  assert (Hg : locatable (ipDb holding_mixed) (messages (bp holding_mixed))).
  { repeat constructor. eexists. reflexivity. }
  assert (Hne : messages (bp holding_mixed) <> []) by discriminate.
  assert (Hp : forall rows, bqPutOk holding_mixed rows = true) by reflexivity.
  destruct (successful_insert_appends_staged_rows_in_order holding_mixed Hg Hne Hp)
    as (rows & Ht & Hu).
  exists rows. split; [exact Ht|exact Hu].
Defined.

(** X4. A [page_behavior] event is never looked up, whatever its consent
    flag and its [ip] field: the loop body makes no geo lookup, cannot end
    the process, and the staged row has empty location fields while it
    keeps the address. *)
Theorem page_behavior_is_never_located
    (s : State) (msg : Msg) (rows : list Row) (d : LeadEventDataPubSub) (mj : string) :
  Data msg = Some d ->
  Metas d = Some mj ->
  Name d = "page_behavior" ->
  lookups (snd (processMessage msg rows s)) = lookups s /\
  exists row,
    fst (processMessage msg rows s) = Ret (rows ++ [row]) /\
    r_ip row = IP d /\ r_consent row = Consent d /\
    r_location_country row = "" /\ r_location_city row = "".
Proof.
  intros HD HM HN. unfold processMessage. rewrite HD, HM, HN. cbn.
  split; [reflexivity|]. eexists. split; [reflexivity|]. by cbn.
Qed.

(** X4 on a [page_behavior] event with consent and an address, and a geo
    database that knows no address at all. *)
Lemma page_behavior_is_never_located_witness :
  lookups (snd (processMessage {| ID := 5; Data := Some behavior_event |} []
                  (initial 0 5 10 (fun _ => None) put_succeeds))) = [] /\
  exists row,
    fst (processMessage {| ID := 5; Data := Some behavior_event |} []
           (initial 0 5 10 (fun _ => None) put_succeeds)) = Ret ([] ++ [row]) /\
    r_ip row = "203.0.113.7" /\ r_consent row = true /\
    r_location_country row = "" /\ r_location_city row = "".
Proof.
  apply (page_behavior_is_never_located
           (initial 0 5 10 (fun _ => None) put_succeeds)
           {| ID := 5; Data := Some behavior_event |} [] behavior_event "{}");
    reflexivity.
Defined.

(** X5. A timer firing that finds the buffer empty flushes nothing: the
    table, the handles and the lookups are untouched, no batch is recorded,
    and the timer is armed again [maxWaitTime] from now. *)
Theorem empty_tick_only_rearms_the_timer (s : State) :
  batchMutex (bp s) = false ->
  timerC (bp s) = true ->
  messages (bp s) = [] ->
  fst (StartBatchTimer_iter s) = Ret tt /\
  lead_event (snd (StartBatchTimer_iter s)) = lead_event s /\
  handles (snd (StartBatchTimer_iter s)) = handles s /\
  lookups (snd (StartBatchTimer_iter s)) = lookups s /\
  flushed (trace (snd (StartBatchTimer_iter s))) = flushed (trace s) /\
  batchTimer (bp (snd (StartBatchTimer_iter s))) = Some (now s + maxWaitTime (bp s))%nat /\
  timerC (bp (snd (StartBatchTimer_iter s))) = false /\
  batchMutex (bp (snd (StartBatchTimer_iter s))) = false.
Proof.
  intros Hm Hc He. rewrite (StartBatchTimer_iter_unfold s Hm), Hc, He. cbn.
  repeat split; try reflexivity.
  rewrite <- !app_assoc, flushed_app. cbn. by rewrite app_nil_r.
Qed.

(** X5 on a fresh consumer after [maxWaitTime]. *)
Lemma empty_tick_only_rearms_the_timer_witness :
  fst (StartBatchTimer_iter (elapse 10 (initial 0 5 10 geo_one put_succeeds))) = Ret tt /\
  batchTimer (bp (snd (StartBatchTimer_iter
                         (elapse 10 (initial 0 5 10 geo_one put_succeeds)))))
  = Some 20%nat.
Proof.
  pose proof (empty_tick_only_rearms_the_timer
                (elapse 10 (initial 0 5 10 geo_one put_succeeds))
                eq_refl eq_refl eq_refl) as H.
  destruct H as (H1 & _ & _ & _ & _ & H2 & _).
  split; [exact H1|exact H2].
Defined.

Lemma Forall_flushed_bound size t l :
  Forall (fun b : list Msg => Z.of_nat (length b) <= size) (flushed l) ->
  Forall (fun b : list Msg => Z.of_nat (length b) <= size) (flushed t) ->
  Forall (fun b : list Msg => Z.of_nat (length b) <= size) (flushed (t ++ l)).
Proof. intros Hl Ht. rewrite flushed_app. apply Forall_app. by split. Qed.

Lemma step_bound a s size :
  1 <= size ->
  batchMutex (bp s) = false ->
  maxBatchSize (bp s) = size ->
  Z.of_nat (length (messages (bp s))) < size ->
  Forall (fun b => Z.of_nat (length b) <= size) (flushed (trace s)) ->
  Forall (fun b => Z.of_nat (length b) <= size) (flushed (trace (snd (step a s)))) /\
  (fst (step a s) = Ret tt ->
   maxBatchSize (bp (snd (step a s))) = size /\
   Z.of_nat (length (messages (bp (snd (step a s))))) < size).
Proof.
  intros Hsize Hm Hmax Hlen HF. destruct a as [m|d|]; cbn [step].
  - destruct (AddMessage_spec m s Hm) as [Hb H]. rewrite Hmax in H.
    assert (Hlen' : length (messages (bp s) ++ [m]) = S (length (messages (bp s))))
      by (rewrite length_app; cbn; lia).
    destruct (Z.geb_spec (Z.of_nat (length (messages (bp s) ++ [m]))) size) as [Hge|Hlt].
    + destruct H as (_ & He & Hr).
      destruct (AddMessage m s) as [[[]| |] s']; cbn [fst snd] in *; [| |done].
      * destruct (Hr eq_refl) as (Hbp & _ & _ & Htr). rewrite Htr, Hbp. split.
        -- apply Forall_flushed_bound; [|exact HF]. cbn.
           constructor; [lia|constructor].
        -- intros _. cbn. split; [exact Hmax|lia].
      * rewrite (He eq_refl). split; [|discriminate].
        apply Forall_flushed_bound; [|exact HF]. cbn.
        constructor; [lia|constructor].
    + destruct H as (Hret & Hbp & _ & _ & Htr). rewrite Htr, Hbp. split.
      * apply Forall_flushed_bound; [constructor|exact HF].
      * intros _. cbn. split; [exact Hmax|lia].
  - cbn. destruct (elapse_fields d s) as (Emsg & _ & Emax & _ & _ & _ & Etr).
    rewrite Etr, Emsg, Emax. split; [exact HF|]. intros _. by split.
  - destruct (timerC (bp s)) eqn:Hc.
    + destruct (StartBatchTimer_iter_spec s Hm Hc) as [Hb H].
      destruct (0 <? length (messages (bp s)))%nat.
      * destruct H as (_ & He & Hr).
        destruct (StartBatchTimer_iter s) as [[[]| |] s']; cbn [fst snd] in *; [| |done].
        -- destruct (Hr eq_refl) as (Hbp & _ & _ & Htr). rewrite Htr, Hbp. split.
           ++ apply Forall_flushed_bound; [|exact HF]. cbn.
              constructor; [lia|constructor].
           ++ intros _. cbn. split; [exact Hmax|lia].
        -- rewrite (He eq_refl). split; [|discriminate].
           apply Forall_flushed_bound; [|exact HF]. cbn.
           constructor; [lia|constructor].
      * destruct H as (Hret & Hbp & _ & _ & Htr).
        destruct (StartBatchTimer_iter s) as [[[]| |] s']; cbn [fst snd] in *; try done.
        rewrite Htr, Hbp. split.
        -- apply Forall_flushed_bound; [constructor|exact HF].
        -- intros _. cbn. split; [exact Hmax|exact Hlen].
    + rewrite (StartBatchTimer_iter_unfold s Hm), Hc. cbn. split; [exact HF|]. by intros _.
Qed.

Lemma run_bound l : forall s size,
  1 <= size ->
  batchMutex (bp s) = false ->
  maxBatchSize (bp s) = size ->
  Z.of_nat (length (messages (bp s))) < size ->
  Forall (fun b => Z.of_nat (length b) <= size) (flushed (trace s)) ->
  Forall (fun b => Z.of_nat (length b) <= size) (flushed (trace (snd (run l s)))) /\
  (fst (run l s) = Ret tt ->
   Z.of_nat (length (messages (bp (snd (run l s))))) < size).
Proof.
  induction l as [|a l IH]; intros s size Hsize Hm Hmax Hlen HF.
  - rewrite run_nil. by split.
  - rewrite run_cons.
    destruct (step_bound a s size Hsize Hm Hmax Hlen HF) as [HF1 Hr].
    destruct (step_spec a s Hm) as (Hb & _ & Hok & _).
    destruct (step a s) as [[[]| |] s1]; cbn [fst snd] in *; [| |done].
    + destruct (Hr eq_refl) as [Hmax1 Hlen1].
      destruct (Hok eq_refl) as [Hm1 _ _ _ _ _].
      by apply IH.
    + split; [exact HF1|discriminate].
Qed.

(** X6. With [maxBatchSize] at least 1, whatever the schedule: no batch
    handed to [processBatch] holds more than [maxBatchSize] messages, and
    between two actions the buffer holds fewer than [maxBatchSize]. *)
Theorem batches_never_exceed_maxBatchSize
    (t0 : nat) (size : Z) (wait : nat) (geo : string -> option IPLocation)
    (put : list Row -> bool) (sched : list action) :
  1 <= size ->
  Forall (fun b => Z.of_nat (length b) <= size)
    (flushed (trace (snd (run sched (initial t0 size wait geo put))))) /\
  (fst (run sched (initial t0 size wait geo put)) = Ret tt ->
   Z.of_nat (length (messages (bp (snd (run sched (initial t0 size wait geo put))))))
   < size).
Proof.
  intros Hsize. apply run_bound; [exact Hsize|reflexivity|reflexivity|cbn; lia|constructor].
Qed.

(** X6 on five deliveries to a consumer with [maxBatchSize] 2. *)
Lemma batches_never_exceed_maxBatchSize_witness :
  Forall (fun b => Z.of_nat (length b) <= 2)
    (flushed (trace (snd (run [Deliver m1; Deliver m2; Deliver m3; Deliver m1; Deliver m2]
                            (initial 0 2 10 geo_one put_succeeds))))).
Proof.
  pose proof (batches_never_exceed_maxBatchSize 0 2 10 geo_one put_succeeds
                [Deliver m1; Deliver m2; Deliver m3; Deliver m1; Deliver m2]) as H.
  destruct H as [H _]; [lia|]. exact H.
Defined.

End LeadEventOutcomeFacts.

(** ** Page consumer: what a flush does *)

Module PageConsumerFacts.
Import PageConsumer.

Ltac page_unfold :=
  unfold processBatch, processMessage, getPageFromDB, db_Begin, tx_Exec, tx_Commit,
    tx_Rollback, LogInfo, LogError, Ack, Nack, bind, ret, get, modify.

(** X7. When [db.Begin] fails the flush gives up at once: apart from the
    log nothing changes, and in particular the buffer keeps its messages,
    which are neither acknowledged nor negatively acknowledged. *)
Theorem failed_begin_keeps_the_buffer (env : Services) (s : State) :
  beginOk env = false ->
  fst (processBatch env s) = Ret tt /\
  messages (snd (processBatch env s)) = messages s /\
  page (snd (processBatch env s)) = page s /\
  bq_page (snd (processBatch env s)) = bq_page s /\
  handles (snd (processBatch env s)) = handles s /\
  tx_state (snd (processBatch env s)) = tx_state s.
Proof.
  intros Hb. page_unfold. cbn. rewrite Hb.
  destruct (length (messages s) =? 0)%nat; cbn; repeat split; reflexivity.
Qed.

Lemma failed_begin_keeps_the_buffer_witness :
  messages (snd (processBatch
                   {| beginOk := false; queryOk := fun _ _ => true; execOk := fun _ => true;
                      commitOk := true; bqPutOk := fun _ => true;
                      parseLocale := fun _ => Some "fr"; detectLanguage := fun _ => "fr" |}
                   (holding [page_msg 7] [])))
  = [page_msg 7].
Proof.
  pose proof (failed_begin_keeps_the_buffer
                {| beginOk := false; queryOk := fun _ _ => true; execOk := fun _ => true;
                   commitOk := true; bqPutOk := fun _ => true;
                   parseLocale := fun _ => Some "fr"; detectLanguage := fun _ => "fr" |}
                (holding [page_msg 7] []) eq_refl) as H.
  destruct H as (_ & H & _). exact H.
Defined.

(** X8. A batch of one valid message for a page that has no row yet, with
    every service answering: the row is committed to [page], the same
    payload is appended to BigQuery, the message is acknowledged and the
    buffer is emptied. *)
Theorem new_page_is_committed_mirrored_and_acked
    (env : Services) (s : State) (msg : Msg) (d : PageDataPubSub) (lang : string) :
  messages s = [msg] ->
  Data msg = Some d ->
  handles s !! ID msg = None ->
  parseLocale env (Language d) = Some lang ->
  detectLanguage env (Content d) = lang ->
  List.find (key_matches (Brand d) (URL d)) (page s) = None ->
  beginOk env = true ->
  queryOk env (Brand d) (URL d) = true ->
  execOk env (InsertPage d) = true ->
  commitOk env = true ->
  bqPutOk env [d] = true ->
  fst (processBatch env s) = Ret tt /\
  page (snd (processBatch env s)) = page s ++ [inserted_row d] /\
  bq_page (snd (processBatch env s)) = bq_page s ++ [d] /\
  handles (snd (processBatch env s)) = <[ID msg := Acked]> (handles s) /\
  messages (snd (processBatch env s)) = [].
Proof.
  intros Hmsgs HD Hh HL HC HF Hb Hq He Hc Hp.
  repeat (progress (page_unfold; cbn;
                    rewrite ?Hmsgs, ?Hb, ?HD, ?HL, ?HC, ?String.eqb_refl, ?Hq, ?HF, ?He,
                      ?Hc, ?Hp)).
  unfold settle. rewrite Hh. repeat split; reflexivity.
Qed.

Lemma new_page_is_committed_mirrored_and_acked_witness :
  page (snd (processBatch all_ok (holding [page_msg 7] []))) = [] ++ [inserted_row article] /\
  bq_page (snd (processBatch all_ok (holding [page_msg 7] []))) = [] ++ [article].
Proof.
  pose proof (new_page_is_committed_mirrored_and_acked all_ok (holding [page_msg 7] [])
                (page_msg 7) article "fr"
                eq_refl eq_refl eq_refl eq_refl eq_refl eq_refl eq_refl eq_refl eq_refl
                eq_refl eq_refl) as H.
  destruct H as (_ & H1 & H2 & _). split; [exact H1|exact H2].
Defined.

(** X9. A batch of one valid message for a page whose row has another
    modification date (to the second), with every service answering: the
    UPDATE is committed on every row of that key, the payload is appended to
    BigQuery and the message is acknowledged. *)
Theorem changed_page_is_updated_mirrored_and_acked
    (env : Services) (s : State) (msg : Msg) (d : PageDataPubSub) (lang : string)
    (row : PageData) :
  messages s = [msg] ->
  Data msg = Some d ->
  handles s !! ID msg = None ->
  parseLocale env (Language d) = Some lang ->
  detectLanguage env (Content d) = lang ->
  List.find (key_matches (Brand d) (URL d)) (page s) = Some row ->
  option_map Format (p_ModificationDate row) <> option_map Format (ModificationDate d) ->
  beginOk env = true ->
  queryOk env (Brand d) (URL d) = true ->
  execOk env (UpdatePage d) = true ->
  commitOk env = true ->
  bqPutOk env [d] = true ->
  fst (processBatch env s) = Ret tt /\
  page (snd (processBatch env s)) = map (updated_row d) (page s) /\
  bq_page (snd (processBatch env s)) = bq_page s ++ [d] /\
  handles (snd (processBatch env s)) = <[ID msg := Acked]> (handles s) /\
  messages (snd (processBatch env s)) = [].
Proof.
  intros Hmsgs HD Hh HL HC HF Hdiff Hb Hq He Hc Hp.
  assert (Hneq : option_Z_eqb (option_map Format (p_ModificationDate row))
                   (option_map Format (ModificationDate d)) = false).
  { destruct (option_map Format (p_ModificationDate row)) as [x|],
             (option_map Format (ModificationDate d)) as [y|]; cbn; try reflexivity.
    - apply Z.eqb_neq. congruence.
    - congruence. }
  repeat (progress (page_unfold; cbn;
                    rewrite ?Hmsgs, ?Hb, ?HD, ?HL, ?HC, ?String.eqb_refl, ?Hq, ?HF, ?Hneq,
                      ?He, ?Hc, ?Hp)).
  unfold settle. rewrite Hh. repeat split; reflexivity.
Qed.

Lemma changed_page_is_updated_mirrored_and_acked_witness :
  map p_Title
    (page (snd (processBatch all_ok
                  (holding [ConsumerSamples.msg_of 8 ConsumerSamples.article_v2]
                     [inserted_row article]))))
  = ["Titre corrige"].
Proof.
  pose proof (changed_page_is_updated_mirrored_and_acked all_ok
                (holding [ConsumerSamples.msg_of 8 ConsumerSamples.article_v2]
                   [inserted_row article])
                (ConsumerSamples.msg_of 8 ConsumerSamples.article_v2)
                ConsumerSamples.article_v2 "fr" (inserted_row article)
                eq_refl eq_refl eq_refl eq_refl eq_refl eq_refl) as H.
  assert (Hdiff : option_map Format (p_ModificationDate (inserted_row article)) <>
                  option_map Format (ModificationDate ConsumerSamples.article_v2))
    by discriminate.
  destruct (H Hdiff eq_refl eq_refl eq_refl eq_refl eq_refl) as (_ & Hpage & _).
  rewrite Hpage. reflexivity.
Defined.

(** X10. A message whose detected content language differs from the base
    language of its declared locale is acknowledged on the spot and never
    reaches the database: nothing is staged, the transaction and both
    tables are as before. *)
Theorem language_mismatch_is_acked_and_dropped
    (env : Services) (msg : Msg) (acc : list Msg * list PageDataPubSub) (s : State)
    (d : PageDataPubSub) (lang : string) :
  Data msg = Some d ->
  parseLocale env (Language d) = Some lang ->
  detectLanguage env (Content d) <> lang ->
  fst (processMessage env msg acc s) = Ret acc /\
  handles (snd (processMessage env msg acc s)) = settle Acked (ID msg) (handles s) /\
  tx_pending (snd (processMessage env msg acc s)) = tx_pending s /\
  tx_state (snd (processMessage env msg acc s)) = tx_state s /\
  page (snd (processMessage env msg acc s)) = page s /\
  bq_page (snd (processMessage env msg acc s)) = bq_page s.
Proof.
  intros HD HL HC. apply String.eqb_neq in HC.
  page_unfold. cbn. rewrite HD, HL, HC. cbn. repeat split; reflexivity.
Qed.

Lemma language_mismatch_is_acked_and_dropped_witness :
  handles (snd (processMessage ConsumerSamples.detects_english (page_msg 7) ([], [])
                  (holding [page_msg 7] []))) !! 7%nat = Some Acked.
Proof.
  pose proof (language_mismatch_is_acked_and_dropped ConsumerSamples.detects_english
                (page_msg 7) ([], []) (holding [page_msg 7] []) article "fr"
                eq_refl eq_refl) as H.
  destruct H as (_ & H & _); [discriminate|].
  rewrite H. reflexivity.
Defined.

Lemma processMessage_staging (env : Services) msg acc s :
  map Data (fst acc) = map Some (snd acc) ->
  exists acc',
    fst (processMessage env msg acc s) = Ret acc' /\
    map Data (fst acc') = map Some (snd acc').
Proof.
  intros Hinv. page_unfold. cbn.
  destruct (Data msg) as [d|] eqn:HD; cbn; [|by eexists].
  destruct (parseLocale env (Language d)); cbn; [|by eexists].
  destruct (negb _); cbn; [by eexists|].
  destruct (queryOk env (Brand d) (URL d)); cbn; [|by eexists].
  assert (Hstage : map Data (fst acc ++ [msg]) = map Some (snd acc ++ [d])).
  { rewrite !map_app, Hinv. cbn. by rewrite HD. }
  destruct (List.find _ (page s)) as [row|]; cbn.
  - destruct (negb _); cbn; [|by eexists].
    destruct (tx_state s); cbn; try (by eexists).
    destruct (execOk env (UpdatePage d)); cbn; by eexists.
  - destruct (tx_state s); cbn; try (by eexists).
    destruct (execOk env (InsertPage d)); cbn; by eexists.
Qed.

(** X11. The loop of a flush keeps its two lists in step: the rows it
    stages for BigQuery are, one for one and in order, the payloads of the
    messages it stages for acknowledgement. It never exits nor blocks. *)
Theorem staged_rows_are_the_payloads_of_staged_messages
    (env : Services) (msgs : list Msg) (s : State) :
  exists acc,
    fst (rangeM (processMessage env) msgs ([], []) s) = Ret acc /\
    map Data (fst acc) = map Some (snd acc).
Proof.
  assert (H : forall acc0 s0, map Data (fst acc0) = map Some (snd acc0) ->
            exists acc,
              fst (rangeM (processMessage env) msgs acc0 s0) = Ret acc /\
              map Data (fst acc) = map Some (snd acc)).
  { induction msgs as [|msg msgs IH]; intros acc0 s0 Hinv.
    - exists acc0. by rewrite rangeM_nil.
    - rewrite rangeM_cons, bind_run.
      destruct (processMessage_staging env msg acc0 s0 Hinv) as (acc1 & Hr & Hinv1).
      destruct (processMessage env msg acc0 s0) as [r s1]; cbn [fst] in Hr. subst r.
      apply IH. exact Hinv1. }
  apply H. reflexivity.
Qed.

Lemma find_inserted (t : list PageData) (d : PageDataPubSub) :
  List.find (key_matches (Brand d) (URL d)) (t ++ [inserted_row d]) =
  match List.find (key_matches (Brand d) (URL d)) t with
  | Some old => Some old
  | None => Some (inserted_row d)
  end.
Proof.
  induction t as [|r t IH]; cbn.
  - unfold key_matches. cbn. by rewrite !String.eqb_refl.
  - destruct (key_matches (Brand d) (URL d) r); [reflexivity|exact IH].
Qed.

Lemma find_updated (t : list PageData) (d : PageDataPubSub) :
  List.find (key_matches (Brand d) (URL d)) (map (updated_row d) t) =
  option_map (updated_row d) (List.find (key_matches (Brand d) (URL d)) t).
Proof.
  induction t as [|r t IH]; cbn; [reflexivity|].
  unfold updated_row at 1. destruct (key_matches (Brand d) (URL d) r) eqn:E.
  - unfold key_matches in *. cbn. rewrite E. cbn. unfold updated_row, key_matches.
    by rewrite E.
  - rewrite E. exact IH.
Qed.

(** X13. Redelivery is a no-op once the statement of the first delivery is
    committed: if the table is the result of the INSERT (on a table without
    the key) or of the UPDATE (on a table with the key) staged for a valid
    message, processing the same payload again only writes to the log. *)
Theorem redelivery_after_commit_only_logs
    (env : Services) (msg : Msg) (acc : list Msg * list PageDataPubSub) (s : State)
    (d : PageDataPubSub) (lang : string) (t : list PageData) :
  Data msg = Some d ->
  parseLocale env (Language d) = Some lang ->
  detectLanguage env (Content d) = lang ->
  queryOk env (Brand d) (URL d) = true ->
  (List.find (key_matches (Brand d) (URL d)) t = None /\
   page s = apply_stmt t (InsertPage d))
  \/
  (is_Some (List.find (key_matches (Brand d) (URL d)) t) /\
   page s = apply_stmt t (UpdatePage d)) ->
  fst (processMessage env msg acc s) = Ret acc /\
  page (snd (processMessage env msg acc s)) = page s /\
  tx_pending (snd (processMessage env msg acc s)) = tx_pending s /\
  tx_state (snd (processMessage env msg acc s)) = tx_state s /\
  bq_page (snd (processMessage env msg acc s)) = bq_page s /\
  handles (snd (processMessage env msg acc s)) = handles s.
Proof.
  intros HD HL HC HQ Hcase.
  assert (Hrow : exists row,
            List.find (key_matches (Brand d) (URL d)) (page s) = Some row /\
            option_map Format (p_ModificationDate row) =
            option_map Format (ModificationDate d)).
  { destruct Hcase as [[Hnone ->] | [[old Hold] ->]].
    - cbn [apply_stmt]. rewrite find_inserted, Hnone. by eexists.
    - cbn [apply_stmt]. rewrite find_updated, Hold. cbn. eexists. split; [reflexivity|].
      unfold updated_row. apply find_some in Hold as [_ ->]. reflexivity. }
  destruct Hrow as (row & Hfind & Hdate).
  rewrite (ConsumerFacts.page_unchanged_only_logs env msg acc s d row lang
             HD HL HC HQ Hfind Hdate).
  repeat split; reflexivity.
Qed.

Lemma redelivery_after_commit_only_logs_witness :
  fst (processMessage all_ok (page_msg 8) ([], [])
         (holding [page_msg 8] (apply_stmt [] (InsertPage article)))) = Ret ([], []) /\
  fst (processMessage all_ok (ConsumerSamples.msg_of 9 ConsumerSamples.article_v2) ([], [])
         (holding [] (apply_stmt [inserted_row article]
                        (UpdatePage ConsumerSamples.article_v2)))) = Ret ([], []).
Proof.
  split.
  - pose proof (redelivery_after_commit_only_logs all_ok (page_msg 8) ([], [])
                  (holding [page_msg 8] (apply_stmt [] (InsertPage article)))
                  article "fr" [] eq_refl eq_refl eq_refl eq_refl) as H.
    destruct H as [H _]; [|exact H]. left. by split.
  - pose proof (redelivery_after_commit_only_logs all_ok
                  (ConsumerSamples.msg_of 9 ConsumerSamples.article_v2) ([], [])
                  (holding [] (apply_stmt [inserted_row article]
                                 (UpdatePage ConsumerSamples.article_v2)))
                  ConsumerSamples.article_v2 "fr" [inserted_row article]
                  eq_refl eq_refl eq_refl eq_refl) as H.
    destruct H as [H _]; [|exact H]. right. split; [by eexists|reflexivity].
Defined.

(** X14. The lookup of the loop does not see what the open transaction has
    staged: when the same new page is delivered twice in one batch, both
    deliveries take the "new page" branch, and after the commit the table
    holds two rows for the key, BigQuery two rows, and both messages are
    acknowledged. *)
Theorem same_new_page_twice_in_one_batch_is_inserted_twice
    (env : Services) (s : State) (ma mb : Msg) (d : PageDataPubSub) (lang : string) :
  messages s = [ma; mb] ->
  Data ma = Some d -> Data mb = Some d ->
  ID ma <> ID mb ->
  handles s !! ID ma = None -> handles s !! ID mb = None ->
  parseLocale env (Language d) = Some lang ->
  detectLanguage env (Content d) = lang ->
  List.find (key_matches (Brand d) (URL d)) (page s) = None ->
  beginOk env = true ->
  queryOk env (Brand d) (URL d) = true ->
  execOk env (InsertPage d) = true ->
  commitOk env = true ->
  bqPutOk env [d; d] = true ->
  fst (processBatch env s) = Ret tt /\
  page (snd (processBatch env s)) = page s ++ [inserted_row d; inserted_row d] /\
  bq_page (snd (processBatch env s)) = bq_page s ++ [d; d] /\
  handles (snd (processBatch env s)) !! ID ma = Some Acked /\
  handles (snd (processBatch env s)) !! ID mb = Some Acked.
Proof.
  intros Hmsgs HDa HDb Hid Hha Hhb HL HC HF Hb Hq He Hc Hp.
  repeat (progress (page_unfold; cbn;
                    rewrite ?Hmsgs, ?Hb, ?HDa, ?HDb, ?HL, ?HC, ?String.eqb_refl, ?Hq, ?HF,
                      ?He, ?Hc, ?Hp)).
  split; [reflexivity|]. split; [by rewrite <- app_assoc|]. split; [reflexivity|].
  split.
  - rewrite settle_lookup_ne by congruence. rewrite settle_lookup_self, Hha. reflexivity.
  - rewrite settle_lookup_self. rewrite settle_lookup_ne by done. by rewrite Hhb.
Qed.

Lemma same_new_page_twice_in_one_batch_is_inserted_twice_witness :
  page (snd (processBatch all_ok (holding [page_msg 7; page_msg 8] [])))
  = [] ++ [inserted_row article; inserted_row article].
Proof.
  pose proof (same_new_page_twice_in_one_batch_is_inserted_twice all_ok
                (holding [page_msg 7; page_msg 8] []) (page_msg 7) (page_msg 8)
                article "fr" eq_refl eq_refl eq_refl) as H.
  assert (Hid : ID (page_msg 7) <> ID (page_msg 8)) by discriminate.
  destruct (H Hid eq_refl eq_refl eq_refl eq_refl eq_refl eq_refl eq_refl eq_refl
              eq_refl eq_refl) as (_ & Hpage & _).
  exact Hpage.
Defined.

Import PageConsumerFlush.

Lemma ack_loop_fields (l : list Msg) : forall st,
  fst (rangeM (fun m (_ : unit) => Ack m) l tt st) = Ret tt /\
  page (snd (rangeM (fun m (_ : unit) => Ack m) l tt st)) = page st /\
  bq_page (snd (rangeM (fun m (_ : unit) => Ack m) l tt st)) = bq_page st /\
  handles (snd (rangeM (fun m (_ : unit) => Ack m) l tt st)) = ack_all (handles st) l.
Proof.
  induction l as [|m l IH]; intros st.
  - rewrite rangeM_nil. by cbn.
  - rewrite rangeM_cons, bind_run. cbn [Ack modify].
    destruct (IH (set_handles (settle Acked (ID m) (handles st)) st))
      as (E1 & E2 & E3 & E4).
    split; [exact E1|]. split; [exact E2|]. split; [exact E3|]. exact E4.
Qed.

Lemma flush_outcome
    (env : Services) (s s1 : State) (acc : list Msg * list PageDataPubSub) :
  messages s <> [] ->
  beginOk env = true ->
  rangeM (processMessage env) (messages s) ([], []) (began s) = (Ret acc, s1) ->
  fst (processBatch env s) = Ret tt /\
  messages (snd (processBatch env s)) = [] /\
  page (snd (processBatch env s)) =
    match tx_state s1 with
    | TxActive => if commitOk env then fold_left apply_stmt (tx_pending s1) (page s1)
                  else page s1
    | _ => page s1
    end /\
  bq_page (snd (processBatch env s)) =
    (if bqPutOk env (snd acc) then bq_page s1 ++ snd acc else bq_page s1) /\
  handles (snd (processBatch env s)) =
    (if bqPutOk env (snd acc) then ack_all (handles s1) (fst acc) else handles s1).
Proof.
  intros Hne Hb Hloop. unfold processBatch. rewrite bind_run. cbn [get].
  assert (E0 : (length (messages s) =? 0)%nat = false).
  { destruct (messages s); [done|reflexivity]. }
  rewrite E0. rewrite bind_run. cbn [LogInfo modify].
  rewrite bind_run. unfold db_Begin. rewrite Hb.
  rewrite bind_run. cbn [modify]. cbn [ret]. rewrite bind_run.
  change (set_tx TxActive [] _) with (began s). rewrite Hloop.
  rewrite bind_run. unfold tx_Commit. rewrite bind_run. cbn [get].
  assert (Hput : forall st,
            let out :=
              bind
                (if bqPutOk env acc.2
                 then bind (modify (fun s1 => set_bq_page (bq_page s1 ++ acc.2) s1))
                        (fun _ => bind (rangeM (fun m (_ : unit) => Ack m) acc.1 tt)
                           (fun _ => LogInfo "Successfully inserted %d rows in BigQuery."))
                 else LogError "Failed to insert rows: %v")
                (fun _ => bind (LogInfo
                                  "Successfully processed %d out of %d messages in %dms.")
                   (fun _ => modify (set_messages []))) st in
            fst out = Ret tt /\ messages (snd out) = [] /\
            page (snd out) = page st /\
            bq_page (snd out) = (if bqPutOk env acc.2 then bq_page st ++ acc.2
                                 else bq_page st) /\
            handles (snd out) = (if bqPutOk env acc.2 then ack_all (handles st) acc.1
                                 else handles st)).
  { intros st. cbn zeta. rewrite bind_run.
    destruct (bqPutOk env acc.2).
    - rewrite bind_run. cbn [modify]. rewrite bind_run.
      destruct (ack_loop_fields acc.1 (set_bq_page (bq_page st ++ acc.2) st))
        as (E1 & E2 & E3 & E4).
      destruct (rangeM _ acc.1 tt _) as [r2 s2]. cbn [fst snd] in *. subst r2.
      cbn. rewrite E2, E3, E4. cbn. done.
    - cbn. done. }
  destruct (tx_state s1).
  - destruct (commitOk env).
    + rewrite !bind_run. cbn [modify ret]. rewrite bind_run. cbn [LogInfo modify].
      match goal with |- context [bind _ _ ?st] => specialize (Hput st) end.
      cbn zeta in Hput. cbn in Hput |- *. exact Hput.
    + rewrite !bind_run. cbn [modify ret]. rewrite bind_run. cbn [LogError modify].
      match goal with |- context [bind _ _ ?st] => specialize (Hput st) end.
      cbn zeta in Hput. cbn in Hput |- *. exact Hput.
  - rewrite !bind_run. cbn [modify ret]. rewrite bind_run. cbn [LogError modify].
    match goal with |- context [bind _ _ ?st] => specialize (Hput st) end.
    cbn zeta in Hput. cbn in Hput |- *. exact Hput.
  - cbn [ret]. rewrite bind_run. cbn [LogError modify].
    match goal with |- context [bind _ _ ?st] => specialize (Hput st) end.
    cbn zeta in Hput. cbn in Hput |- *. exact Hput.
Qed.

(** X15. What a flush writes, given what its loop has staged. The flush
    always returns with an empty buffer. The table [page] changes only if
    the transaction is still open after the loop and [tx.Commit] succeeds,
    and then by the staged statements in order. Whatever the fate of the
    transaction, the staged rows are appended to BigQuery and the staged
    messages acknowledged if and only if [inserter.Put] succeeds. *)
Theorem flush_writes_what_the_loop_staged
    (env : Services) (s s1 : State) (acc : list Msg * list PageDataPubSub) :
  messages s <> [] ->
  beginOk env = true ->
  rangeM (processMessage env) (messages s) ([], []) (began s) = (Ret acc, s1) ->
  fst (processBatch env s) = Ret tt /\
  messages (snd (processBatch env s)) = [] /\
  page (snd (processBatch env s)) =
    match tx_state s1 with
    | TxActive => if commitOk env then fold_left apply_stmt (tx_pending s1) (page s1)
                  else page s1
    | _ => page s1
    end /\
  bq_page (snd (processBatch env s)) =
    (if bqPutOk env (snd acc) then bq_page s1 ++ snd acc else bq_page s1) /\
  handles (snd (processBatch env s)) =
    (if bqPutOk env (snd acc) then ack_all (handles s1) (fst acc) else handles s1).
Proof. exact (flush_outcome env s s1 acc). Qed.

Lemma flush_writes_what_the_loop_staged_witness :
  page (snd (processBatch commit_fails (holding [page_msg 7] []))) = [] /\
  bq_page (snd (processBatch commit_fails (holding [page_msg 7] []))) = [article].
Proof.
  assert (Hne : messages (holding [page_msg 7] []) <> []) by discriminate.
  assert (Hloop : rangeM (processMessage commit_fails)
                    (messages (holding [page_msg 7] [])) ([], [])
                    (began (holding [page_msg 7] []))
                  = (Ret ([page_msg 7], [article]),
                     snd (rangeM (processMessage commit_fails)
                            (messages (holding [page_msg 7] [])) ([], [])
                            (began (holding [page_msg 7] []))))) by reflexivity.
  destruct (flush_writes_what_the_loop_staged commit_fails (holding [page_msg 7] []) _ _
              Hne eq_refl Hloop) as (_ & _ & Hpage & Hbq & _).
  split; [rewrite Hpage|rewrite Hbq]; reflexivity.
Defined.

Lemma processMessage_new (env : Services) msg acc s d lang :
  Data msg = Some d ->
  parseLocale env (Language d) = Some lang ->
  detectLanguage env (Content d) = lang ->
  queryOk env (Brand d) (URL d) = true ->
  List.find (key_matches (Brand d) (URL d)) (page s) = None ->
  tx_state s = TxActive ->
  execOk env (InsertPage d) = true ->
  exists s',
    processMessage env msg acc s = (Ret (fst acc ++ [msg], snd acc ++ [d]), s') /\
    page s' = page s /\ bq_page s' = bq_page s /\ handles s' = handles s /\
    tx_state s' = TxActive /\ tx_pending s' = tx_pending s ++ [InsertPage d].
Proof.
  intros HD HL HC Hq HF Ht He.
  page_unfold. cbn. rewrite HD, HL, HC, String.eqb_refl. cbn. rewrite Hq. cbn.
  rewrite HF. cbn. rewrite Ht, He. cbn. eexists. repeat split; reflexivity.
Qed.

Lemma processMessage_insert_refused (env : Services) msg acc s d lang :
  Data msg = Some d ->
  parseLocale env (Language d) = Some lang ->
  detectLanguage env (Content d) = lang ->
  queryOk env (Brand d) (URL d) = true ->
  List.find (key_matches (Brand d) (URL d)) (page s) = None ->
  tx_state s = TxActive ->
  execOk env (InsertPage d) = false ->
  exists s',
    processMessage env msg acc s = (Ret acc, s') /\
    page s' = page s /\ bq_page s' = bq_page s /\
    handles s' = settle Nacked (ID msg) (handles s) /\
    tx_state s' = TxDone.
Proof.
  intros HD HL HC Hq HF Ht He.
  page_unfold. cbn. rewrite HD, HL, HC, String.eqb_refl. cbn. rewrite Hq. cbn.
  rewrite HF. cbn. rewrite Ht, He. cbn. eexists. repeat split; reflexivity.
Qed.

Lemma processMessage_lookup_failed (env : Services) msg acc s d lang :
  Data msg = Some d ->
  parseLocale env (Language d) = Some lang ->
  detectLanguage env (Content d) = lang ->
  queryOk env (Brand d) (URL d) = false ->
  exists s',
    processMessage env msg acc s = (Ret acc, s') /\
    page s' = page s /\ bq_page s' = bq_page s /\
    handles s' = settle Nacked (ID msg) (handles s) /\
    tx_state s' = tx_state s /\ tx_pending s' = tx_pending s.
Proof.
  intros HD HL HC Hq.
  page_unfold. cbn. rewrite HD, HL, HC, String.eqb_refl. cbn. rewrite Hq. cbn.
  eexists. repeat split; reflexivity.
Qed.

(** X12. A failed lookup costs only its own message. When the SELECT of
    [getPageFromDB] returns an error for the first message of a batch of
    two, that message is negatively acknowledged and nothing is staged for
    it; the transaction stays open, so the second message, a new page, is
    committed to [page], appended to BigQuery and acknowledged. *)
Theorem failed_lookup_costs_only_its_own_message
    (env : Services) (s : State) (ma mb : Msg) (da db : PageDataPubSub)
    (la lb : string) :
  messages s = [ma; mb] ->
  Data ma = Some da -> Data mb = Some db ->
  ID ma <> ID mb ->
  handles s !! ID ma = None -> handles s !! ID mb = None ->
  parseLocale env (Language da) = Some la -> detectLanguage env (Content da) = la ->
  parseLocale env (Language db) = Some lb -> detectLanguage env (Content db) = lb ->
  queryOk env (Brand da) (URL da) = false ->
  queryOk env (Brand db) (URL db) = true ->
  List.find (key_matches (Brand db) (URL db)) (page s) = None ->
  beginOk env = true ->
  execOk env (InsertPage db) = true ->
  commitOk env = true ->
  bqPutOk env [db] = true ->
  fst (processBatch env s) = Ret tt /\
  page (snd (processBatch env s)) = page s ++ [inserted_row db] /\
  bq_page (snd (processBatch env s)) = bq_page s ++ [db] /\
  handles (snd (processBatch env s)) !! ID ma = Some Nacked /\
  handles (snd (processBatch env s)) !! ID mb = Some Acked.
Proof.
  intros Hmsgs HDa HDb Hid Hha Hhb HLa HCa HLb HCb Hqa Hqb HFb Hb Heb Hc Hp.
  destruct (processMessage_lookup_failed env ma ([], []) (began s) da la HDa HLa HCa Hqa)
    as (s1 & E1 & Hp1 & Hb1 & Hh1 & Ht1 & Hpe1).
  assert (HFb1 : List.find (key_matches (Brand db) (URL db)) (page s1) = None)
    by (rewrite Hp1; exact HFb).
  assert (Ht1' : tx_state s1 = TxActive) by (rewrite Ht1; reflexivity).
  destruct (processMessage_new env mb ([], []) s1 db lb HDb HLb HCb Hqb HFb1 Ht1' Heb)
    as (s2 & E2 & Hp2 & Hb2 & Hh2 & Ht2 & Hpe2).
  assert (Hloop : rangeM (processMessage env) (messages s) ([], []) (began s)
                  = (Ret ([mb], [db]), s2)).
  { rewrite Hmsgs, rangeM_cons, bind_run, E1.
    rewrite rangeM_cons, bind_run, E2. reflexivity. }
  assert (Hne : messages s <> []) by (rewrite Hmsgs; discriminate).
  destruct (flush_outcome env s s2 ([mb], [db]) Hne Hb Hloop)
    as (Hret & _ & Hpage & Hbq & Hh).
  cbn [fst snd] in Hbq, Hh. rewrite Hp in Hbq, Hh. rewrite Ht2, Hc in Hpage.
  split; [exact Hret|]. split.
  { rewrite Hpage, Hpe2, Hpe1, Hp2, Hp1. reflexivity. }
  split; [by rewrite Hbq, Hb2, Hb1|].
  rewrite Hh, Hh2, Hh1. cbn. split.
  - rewrite settle_lookup_ne by congruence. rewrite settle_lookup_self.
    by rewrite Hha.
  - rewrite settle_lookup_self. rewrite settle_lookup_ne by done. by rewrite Hhb.
Qed.

Lemma failed_lookup_costs_only_its_own_message_witness :
  page (snd (processBatch ConsumerSamples.lookup_fails_a
               (holding [page_msg 7; ConsumerSamples.msg_of 8 ConsumerSamples.article_b] [])))
  = [] ++ [inserted_row ConsumerSamples.article_b] /\
  handles (snd (processBatch ConsumerSamples.lookup_fails_a
               (holding [page_msg 7; ConsumerSamples.msg_of 8 ConsumerSamples.article_b] [])))
    !! 7%nat = Some Nacked.
Proof.
  pose proof (failed_lookup_costs_only_its_own_message
                ConsumerSamples.lookup_fails_a
                (holding [page_msg 7; ConsumerSamples.msg_of 8 ConsumerSamples.article_b] [])
                (page_msg 7) (ConsumerSamples.msg_of 8 ConsumerSamples.article_b)
                article ConsumerSamples.article_b "fr" "fr" eq_refl eq_refl eq_refl) as H.
  assert (Hid : ID (page_msg 7) <> ID (ConsumerSamples.msg_of 8 ConsumerSamples.article_b))
    by discriminate.
  destruct (H Hid eq_refl eq_refl eq_refl eq_refl eq_refl eq_refl eq_refl eq_refl
              eq_refl eq_refl eq_refl eq_refl eq_refl) as (_ & Hpage & _ & Hnack & _).
  split; [exact Hpage|exact Hnack].
Defined.

(** X16. One refused INSERT undoes the whole batch in PostgreSQL but not in
    BigQuery: in a batch of two new pages where the second INSERT fails, the
    consumer rolls back, the commit then fails and [page] is unchanged; yet
    the first payload is still appended to BigQuery and its message
    acknowledged. Only the second message is negatively acknowledged. *)
Theorem refused_insert_rolls_back_but_earlier_rows_reach_bigquery
    (env : Services) (s : State) (ma mb : Msg) (da db : PageDataPubSub)
    (la lb : string) :
  messages s = [ma; mb] ->
  Data ma = Some da -> Data mb = Some db ->
  ID ma <> ID mb ->
  handles s !! ID ma = None -> handles s !! ID mb = None ->
  parseLocale env (Language da) = Some la -> detectLanguage env (Content da) = la ->
  parseLocale env (Language db) = Some lb -> detectLanguage env (Content db) = lb ->
  List.find (key_matches (Brand da) (URL da)) (page s) = None ->
  List.find (key_matches (Brand db) (URL db)) (page s) = None ->
  beginOk env = true ->
  queryOk env (Brand da) (URL da) = true ->
  queryOk env (Brand db) (URL db) = true ->
  execOk env (InsertPage da) = true ->
  execOk env (InsertPage db) = false ->
  bqPutOk env [da] = true ->
  fst (processBatch env s) = Ret tt /\
  page (snd (processBatch env s)) = page s /\
  bq_page (snd (processBatch env s)) = bq_page s ++ [da] /\
  handles (snd (processBatch env s)) !! ID ma = Some Acked /\
  handles (snd (processBatch env s)) !! ID mb = Some Nacked.
Proof.
  intros Hmsgs HDa HDb Hid Hha Hhb HLa HCa HLb HCb HFa HFb Hb Hqa Hqb Hea Heb Hp.
  destruct (processMessage_new env ma ([], []) (began s) da la HDa HLa HCa Hqa HFa
              eq_refl Hea) as (s1 & E1 & Hp1 & Hb1 & Hh1 & Ht1 & _).
  assert (HFb1 : List.find (key_matches (Brand db) (URL db)) (page s1) = None)
    by (rewrite Hp1; exact HFb).
  destruct (processMessage_insert_refused env mb ([ma], [da]) s1 db lb HDb HLb HCb Hqb
              HFb1 Ht1 Heb) as (s2 & E2 & Hp2 & Hb2 & Hh2 & Ht2).
  assert (Hloop : rangeM (processMessage env) (messages s) ([], []) (began s)
                  = (Ret ([ma], [da]), s2)).
  { rewrite Hmsgs, rangeM_cons, bind_run, E1. cbn [fst snd app].
    rewrite rangeM_cons, bind_run.
    match goal with
    | |- context [processMessage env mb ?a s1] =>
        replace (processMessage env mb a s1) with (Ret ([ma], [da]), s2)
          by (symmetry; exact E2)
    end.
    reflexivity. }
  assert (Hne : messages s <> []) by (rewrite Hmsgs; discriminate).
  destruct (flush_outcome env s s2 ([ma], [da]) Hne Hb Hloop)
    as (Hret & _ & Hpage & Hbq & Hh).
  cbn [fst snd] in Hbq, Hh. rewrite Hp in Hbq, Hh. rewrite Ht2 in Hpage.
  split; [exact Hret|]. split; [by rewrite Hpage, Hp2, Hp1|].
  split; [by rewrite Hbq, Hb2, Hb1|].
  rewrite Hh, Hh2, Hh1. cbn. split.
  - rewrite settle_lookup_self. rewrite settle_lookup_ne by done. by rewrite Hha.
  - rewrite settle_lookup_ne by congruence. rewrite settle_lookup_self, Hhb. reflexivity.
Qed.

Lemma refused_insert_rolls_back_but_earlier_rows_reach_bigquery_witness :
  page (snd (processBatch ConsumerSamples.refuses_b
               (holding [page_msg 7; ConsumerSamples.msg_of 8 ConsumerSamples.article_b] [])))
  = [] /\
  bq_page (snd (processBatch ConsumerSamples.refuses_b
               (holding [page_msg 7; ConsumerSamples.msg_of 8 ConsumerSamples.article_b] [])))
  = [] ++ [article].
Proof.
  pose proof (refused_insert_rolls_back_but_earlier_rows_reach_bigquery
                ConsumerSamples.refuses_b
                (holding [page_msg 7; ConsumerSamples.msg_of 8 ConsumerSamples.article_b] [])
                (page_msg 7) (ConsumerSamples.msg_of 8 ConsumerSamples.article_b)
                article ConsumerSamples.article_b "fr" "fr" eq_refl eq_refl eq_refl) as H.
  assert (Hid : ID (page_msg 7) <> ID (ConsumerSamples.msg_of 8 ConsumerSamples.article_b))
    by discriminate.
  destruct (H Hid eq_refl eq_refl eq_refl eq_refl eq_refl eq_refl eq_refl eq_refl
              eq_refl eq_refl eq_refl eq_refl eq_refl eq_refl) as (_ & Hpage & Hbq & _).
  split; [exact Hpage|exact Hbq].
Defined.

End PageConsumerFacts.

(** ** User consumer *)

Module UserConsumerFacts.
Import UserConsumer.

Ltac user_unfold :=
  unfold processBatch, processMessage, getUserFromDB, db_Begin, tx_Exec, db_Exec,
    tx_Commit, tx_Rollback, LogInfo, LogError, Ack, Nack, bind, ret, get, modify.

(** X17. The UPDATE of a changed user runs on [db], not in the
    transaction: with a batch of one message for a user whose subscriber
    flag changed, the row is updated in [user] even though [tx.Commit]
    fails; the payload is appended to BigQuery and the message
    acknowledged. *)
Theorem user_update_does_not_wait_for_the_commit
    (env : Services) (s : State) (msg : Msg) (d : UserDataPubSub) (row : UserData) :
  messages s = [msg] ->
  Data msg = Some d ->
  handles s !! ID msg = None ->
  List.find (key_matches (Brand d) (LeadUUID d)) (user s) = Some row ->
  u_IsSubscriber row <> IsSubscriber d ->
  beginOk env = true ->
  queryOk env (Brand d) (LeadUUID d) = true ->
  execOk env (UpdateUser d) = true ->
  commitOk env = false ->
  bqPutOk env [d] = true ->
  fst (processBatch env s) = Ret tt /\
  user (snd (processBatch env s)) = map (updated_row d) (user s) /\
  bq_user (snd (processBatch env s)) = bq_user s ++ [d] /\
  handles (snd (processBatch env s)) = <[ID msg := Acked]> (handles s) /\
  messages (snd (processBatch env s)) = [].
Proof.
  intros Hmsgs HD Hh HF Hdiff Hb Hq He Hc Hp.
  assert (Hneq : Bool.eqb (u_IsSubscriber row) (IsSubscriber d) = false).
  { destruct (u_IsSubscriber row), (IsSubscriber d); try reflexivity; congruence. }
  repeat (progress (user_unfold; cbn;
                    rewrite ?Hmsgs, ?Hb, ?HD, ?Hq, ?HF, ?Hneq, ?He, ?Hc, ?Hp)).
  unfold settle. rewrite Hh. repeat split; reflexivity.
Qed.

Lemma user_update_does_not_wait_for_the_commit_witness :
  map u_IsSubscriber
    (user (snd (processBatch commit_fails
                  (holding [ConsumerSamples.user_msg_of 8 ConsumerSamples.subscriber]
                     [inserted_row reader]))))
  = [true].
Proof.
  pose proof (user_update_does_not_wait_for_the_commit commit_fails
                (holding [ConsumerSamples.user_msg_of 8 ConsumerSamples.subscriber]
                   [inserted_row reader])
                (ConsumerSamples.user_msg_of 8 ConsumerSamples.subscriber)
                ConsumerSamples.subscriber (inserted_row reader)
                eq_refl eq_refl eq_refl eq_refl) as H.
  assert (Hdiff : u_IsSubscriber (inserted_row reader)
                  <> IsSubscriber ConsumerSamples.subscriber) by discriminate.
  destruct (H Hdiff eq_refl eq_refl eq_refl eq_refl eq_refl) as (_ & Huser & _).
  rewrite Huser. reflexivity.
Defined.

(** X18. Change detection for users looks at the subscriber flag only: a
    message for a known user with the same flag writes nothing, whatever
    its user id, e-mail and names, and its handle is left unsettled. *)
Theorem user_with_same_flag_only_logs
    (env : Services) (msg : Msg) (acc : list Msg * list UserDataPubSub) (s : State)
    (d : UserDataPubSub) (row : UserData) :
  Data msg = Some d ->
  queryOk env (Brand d) (LeadUUID d) = true ->
  List.find (key_matches (Brand d) (LeadUUID d)) (user s) = Some row ->
  u_IsSubscriber row = IsSubscriber d ->
  fst (processMessage env msg acc s) = Ret acc /\
  user (snd (processMessage env msg acc s)) = user s /\
  tx_pending (snd (processMessage env msg acc s)) = tx_pending s /\
  bq_user (snd (processMessage env msg acc s)) = bq_user s /\
  handles (snd (processMessage env msg acc s)) = handles s.
Proof.
  intros HD Hq HF Hsame. user_unfold. cbn. rewrite HD. cbn. rewrite Hq. cbn.
  rewrite HF, Hsame. cbn. rewrite Bool.eqb_reflx. cbn. repeat split; reflexivity.
Qed.

Lemma user_with_same_flag_only_logs_witness :
  user (snd (processMessage all_ok
               (ConsumerSamples.user_msg_of 8
                  {| DateTime := 1700003600; Brand := "brand"; LeadUUID := "lead-1";
                     UserID := "u-1"; Email := "new@example.org"; FirstName := "Ada";
                     LastName := "L"; IsSubscriber := false |})
               ([], []) (holding [] [inserted_row reader])))
  = [inserted_row reader].
Proof.
  pose proof (user_with_same_flag_only_logs all_ok
                (ConsumerSamples.user_msg_of 8
                   {| DateTime := 1700003600; Brand := "brand"; LeadUUID := "lead-1";
                      UserID := "u-1"; Email := "new@example.org"; FirstName := "Ada";
                      LastName := "L"; IsSubscriber := false |})
                ([], []) (holding [] [inserted_row reader]) _ (inserted_row reader)
                eq_refl eq_refl eq_refl eq_refl) as H.
  destruct H as (_ & H & _). exact H.
Defined.

End UserConsumerFacts.

(** ** Rollup upserts: what the merge keeps and what it does not *)

Module RollupMoreFacts.
Import Rollup.

(** X19. An upsert of a row with a non-negative count never removes a key
    and never lowers a stored count, whether it inserts, merges or fails on
    a zero divisor; the rows of the other keys are untouched. *)
Theorem upsert_never_lowers_a_count
    (k k' : Key) (v old : Metrics) (t : gmap Key Metrics) :
  0 <= view_count v ->
  t !! k' = Some old ->
  (exists new, exec_insert k v t !! k' = Some new /\ view_count old <= view_count new) /\
  (k <> k' -> exec_insert k v t !! k' = Some old).
Proof.
  intros Hv Hold. unfold exec_insert, upsert.
  destruct (decide (k = k')) as [->|Hne].
  - rewrite Hold. unfold do_update.
    destruct (Z.eqb_spec (view_count old + view_count v) 0) as [Hz|Hnz]; cbn.
    + split; [|done]. exists old. split; [exact Hold|lia].
    + split; [|done]. eexists. rewrite lookup_insert_eq. split; [reflexivity|]. cbn. lia.
  - assert (Hother : forall x, <[k := x]> t !! k' = Some old)
      by (intros x; rewrite lookup_insert_ne by done; exact Hold).
    destruct (t !! k) as [oldk|]; cbn.
    + destruct (do_update oldk v); cbn.
      * split; [|by intros _]. exists old. split; [apply Hother|lia].
      * split; [|by intros _]. exists old. split; [exact Hold|lia].
    + split; [|by intros _]. exists old. split; [apply Hother|lia].
Qed.

Lemma upsert_never_lowers_a_count_witness :
  exists new,
    exec_insert ("brand", "lead-1", "day") incoming_row
      {[ ("brand", "lead-1", "day") := existing_row ]} !! ("brand", "lead-1", "day")
    = Some new /\ 10 <= view_count new.
Proof.
  pose proof (upsert_never_lowers_a_count ("brand", "lead-1", "day")
                ("brand", "lead-1", "day") incoming_row existing_row
                {[ ("brand", "lead-1", "day") := existing_row ]}) as H.
  destruct H as [H _]; [cbn; lia|apply lookup_singleton_eq|]. exact H.
Defined.

(** X20. The merge does not tell the stored row from the incoming one:
    swapping them gives the same count and the same averages, and fails in
    the same cases. *)
Theorem merge_is_symmetric (a b : Metrics) :
  match do_update a b, do_update b a with
  | Some x, Some y =>
      view_count x = view_count y /\
      (avg_time_spent x == avg_time_spent y)%Q /\
      (avg_reading_rate x == avg_reading_rate y)%Q
  | None, None => True
  | _, _ => False
  end.
Proof.
  unfold do_update. rewrite (Z.add_comm (view_count b) (view_count a)).
  destruct (view_count a + view_count b =? 0); [exact I|]. cbn.
  split; [reflexivity|]. split; unfold Qdiv; ring.
Qed.

(** X21. The upsert is not idempotent. Sending the same row twice for a key
    that was not in the table doubles the count and replaces the average
    [a] of a row of [n] views by [a / n]. *)
Theorem same_row_twice_divides_the_average_by_the_count
    (k : Key) (v : Metrics) (t : gmap Key Metrics) :
  t !! k = None ->
  view_count v <> 0 ->
  exists new,
    exec_insert k v (exec_insert k v t) !! k = Some new /\
    view_count new = 2 * view_count v /\
    (avg_time_spent new == avg_time_spent v / inject_Z (view_count v))%Q /\
    (avg_reading_rate new == avg_reading_rate v / inject_Z (view_count v))%Q.
Proof.
  intros Hk Hn.
  assert (E1 : exec_insert k v t = <[k := v]> t).
  { unfold exec_insert. by rewrite (RollupFacts.upsert_fresh k v t Hk). }
  rewrite E1. unfold exec_insert, upsert. rewrite lookup_insert_eq.
  rewrite RollupFacts.do_update_defined by lia. simpl default.
  eexists. rewrite lookup_insert_eq. split; [reflexivity|]. cbn.
  split; [lia|].
  assert (Hq : ~ (inject_Z (view_count v) == 0)%Q).
  { intros H. apply Hn. unfold Qeq in H. cbn in H. lia. }
  rewrite inject_Z_plus. split; field; lra.
Qed.

Lemma same_row_twice_divides_the_average_by_the_count_witness :
  exists new,
    exec_insert ("brand", "lead-1", "day") incoming_row
      (exec_insert ("brand", "lead-1", "day") incoming_row ∅) !! ("brand", "lead-1", "day")
    = Some new /\
    view_count new = 10 /\ (avg_time_spent new == 16)%Q.
Proof.
  pose proof (same_row_twice_divides_the_average_by_the_count
                ("brand", "lead-1", "day") incoming_row ∅) as H.
  destruct H as (new & H1 & H2 & H3 & _); [apply lookup_empty|discriminate|].
  exists new. split; [exact H1|]. split; [exact H2|]. rewrite H3. reflexivity.
Defined.

End RollupMoreFacts.

(** ** The backfill jobs *)

Module RollupJobFacts.
Import Rollup RollupJob.

Section Backfill.

Variable step : Z.
Hypothesis step_pos : 0 < step.
Variable render : Z -> string.
Variable query : string -> Time -> Time -> option (list (string * Metrics)).

Lemma Add_0 t : Add t (Z.of_nat 0 * step) = t.
Proof. destruct t. unfold Add. cbn. f_equal. lia. Qed.

Lemma Add_Add t i : Add (Add t step) (Z.of_nat i * step) = Add t (Z.of_nat (S i) * step).
Proof. unfold Add. cbn [unix zone]. f_equal. lia. Qed.

Lemma iterations_done startDate endDate :
  unix endDate <= unix startDate -> iterations step startDate endDate = 0%nat.
Proof.
  intros H. unfold iterations.
  assert ((unix endDate - unix startDate + step - 1) / step <= 0).
  { apply Z.lt_succ_r. apply Z.div_lt_upper_bound; lia. }
  lia.
Qed.

Lemma iterations_next startDate endDate :
  unix startDate < unix endDate ->
  iterations step startDate endDate = S (iterations step (Add startDate step) endDate).
Proof.
  intros H. unfold iterations. cbn [Add unix].
  replace (unix endDate - unix startDate + step - 1)
    with ((unix endDate - (unix startDate + step) + step - 1) + 1 * step) by lia.
  rewrite Z.div_add by lia.
  assert (0 <= (unix endDate - (unix startDate + step) + step - 1) / step).
  { apply Z.div_pos; lia. }
  lia.
Qed.

Lemma fold_left_shift {A} (f : A -> nat -> A) (n : nat) (a : A) :
  fold_left f (seq 1 n) a = fold_left (fun a i => f a (S i)) (seq 0 n) a.
Proof.
  rewrite <- seq_shift. generalize (seq 0 n). intros l. revert a.
  induction l as [|x l IH]; intros a; [reflexivity|]. cbn. apply IH.
Qed.

Lemma fold_left_pointwise {A B} (f g : A -> B -> A) (l : list B) (a : A) :
  (forall a x, f a x = g a x) -> fold_left f l a = fold_left g l a.
Proof.
  intros H. revert a. induction l as [|x l IH]; intros a; [reflexivity|].
  cbn. rewrite H. apply IH.
Qed.

Lemma backfill_fold fuel : forall brandName startDate endDate tbl,
  (iterations step startDate endDate <= fuel)%nat ->
  backfill step render query fuel brandName startDate endDate tbl =
  Some (fold_left
          (fun tbl i =>
             interval_body step render query brandName
               (Add startDate (Z.of_nat i * step)) tbl)
          (seq 0 (iterations step startDate endDate)) tbl).
Proof.
  induction fuel as [|fuel IH]; intros brandName startDate endDate tbl Hfuel.
  - cbn [backfill]. unfold Before.
    destruct (Z.ltb_spec (unix startDate) (unix endDate)) as [Hlt|Hge].
    + rewrite (iterations_next _ _ Hlt) in Hfuel. lia.
    + by rewrite (iterations_done _ _ Hge).
  - cbn [backfill]. unfold Before.
    destruct (Z.ltb_spec (unix startDate) (unix endDate)) as [Hlt|Hge].
    + rewrite (iterations_next _ _ Hlt) in *.
      rewrite IH by lia. f_equal.
      cbn [seq fold_left]. rewrite Add_0, fold_left_shift.
      apply fold_left_pointwise. intros a i. by rewrite Add_Add.
    + by rewrite (iterations_done _ _ Hge).
Qed.

Lemma exec_insert_other (k k' : Key) (v : Metrics) (t : gmap Key Metrics) :
  k <> k' -> exec_insert k v t !! k' = t !! k'.
Proof.
  intros Hne. unfold exec_insert, upsert.
  destruct (t !! k) as [old|]; [destruct (do_update old v)|]; cbn;
    rewrite ?lookup_insert_ne; done.
Qed.

Lemma store_rows_cons brandName label r rows tbl :
  store_rows brandName label (r :: rows) tbl
  = store_rows brandName label rows (exec_insert (brandName, r.1, label) r.2 tbl).
Proof. reflexivity. Qed.

Lemma store_rows_other brandName label rows : forall tbl (k : Key),
  (forall r, r ∈ rows -> k <> (brandName, r.1, label)) ->
  store_rows brandName label rows tbl !! k = tbl !! k.
Proof.
  induction rows as [|r rows IH]; intros tbl k Hk; [reflexivity|].
  rewrite store_rows_cons, IH.
  - apply exec_insert_other. intros E. apply (Hk r); [left|done].
  - intros r' Hr'. apply Hk. by right.
Qed.

Lemma store_rows_fresh brandName label rows : forall tbl,
  NoDup rows.*1 ->
  (forall r, r ∈ rows -> tbl !! (brandName, r.1, label) = None) ->
  forall r, r ∈ rows ->
  store_rows brandName label rows tbl !! (brandName, r.1, label) = Some r.2.
Proof.
  induction rows as [|r0 rows IH]; intros tbl Hnd Hfresh r Hr.
  { by apply elem_of_nil in Hr. }
  cbn in Hnd. apply NoDup_cons in Hnd as [Hnotin Hnd].
  assert (Hne : forall r', r' ∈ rows ->
            (brandName, r0.1, label) <> (brandName, r'.1, label)).
  { intros r' Hr' E. apply Hnotin. apply list_elem_of_fmap.
    exists r'. split; [congruence|done]. }
  assert (E0 : exec_insert (brandName, r0.1, label) r0.2 tbl
               = <[(brandName, r0.1, label) := r0.2]> tbl).
  { unfold exec_insert. rewrite RollupFacts.upsert_fresh; [done|].
    apply Hfresh. left. }
  rewrite store_rows_cons, E0.
  apply elem_of_cons in Hr as [->|Hr].
  - rewrite store_rows_other by done. apply lookup_insert_eq.
  - apply IH; [done| |done].
    intros r' Hr'. rewrite lookup_insert_ne by (apply Hne; done).
    apply Hfresh. by right.
Qed.

Hypothesis render_inj : forall a b, render a = render b -> a = b.
Variable offset : Z.

Lemma period_nth (t : Time) (i : nat) :
  (forall x, zone t x = offset) ->
  period step render (Add t (Z.of_nat i * step))
  = render ((unix t + offset) / step + Z.of_nat i).
Proof.
  intros Hz. unfold period. cbn [Add unix zone]. rewrite Hz. f_equal.
  replace (unix t + Z.of_nat i * step + offset)
    with (unix t + offset + Z.of_nat i * step) by lia.
  apply Z.div_add. lia.
Qed.

Lemma period_nth_inj (t : Time) (i j : nat) :
  (forall x, zone t x = offset) ->
  period step render (Add t (Z.of_nat i * step))
  = period step render (Add t (Z.of_nat j * step)) ->
  i = j.
Proof.
  intros Hz. rewrite !period_nth by done. intros E.
  apply render_inj in E. lia.
Qed.

Lemma fresh_run_invariant brandName (startDate : Time) (n : nat) :
  (forall x, zone startDate x = offset) ->
  (forall i rows, (i < n)%nat ->
     query brandName (Add startDate (Z.of_nat i * step))
           (Add (Add startDate (Z.of_nat i * step)) step) = Some rows ->
     NoDup rows.*1) ->
  let tbl := fold_left
               (fun tbl i =>
                  interval_body step render query brandName
                    (Add startDate (Z.of_nat i * step)) tbl)
               (seq 0 n) ∅ in
  (forall i rows r, (i < n)%nat ->
     query brandName (Add startDate (Z.of_nat i * step))
           (Add (Add startDate (Z.of_nat i * step)) step) = Some rows ->
     r ∈ rows ->
     tbl !! (brandName, r.1, period step render (Add startDate (Z.of_nat i * step)))
     = Some r.2) /\
  (forall k : Key,
     (forall i u, (i < n)%nat ->
        k <> (brandName, u, period step render (Add startDate (Z.of_nat i * step)))) ->
     tbl !! k = None).
Proof.
  intros Hz. induction n as [|n IH]; intros Hnd tbl.
  { split; [intros; lia|]. intros k _. apply lookup_empty. }
  destruct IH as [IHa IHb]. { intros i rows Hi. apply Hnd. lia. }
  subst tbl. rewrite seq_S, fold_left_app. cbn [fold_left Nat.add].
  set (tbl := fold_left _ (seq 0 n) ∅) in *.
  unfold interval_body.
  destruct (query brandName (Add startDate (Z.of_nat n * step))
              (Add (Add startDate (Z.of_nat n * step)) step)) as [rows_n|] eqn:Eq.
  - split.
    + intros i rows r Hi Hq Hr.
      destruct (decide (i = n)) as [->|Hin].
      * rewrite Eq in Hq. injection Hq as <-.
        apply store_rows_fresh; [by apply (Hnd n); [lia|]| |done].
        intros r' _. apply IHb. intros j u Hj E.
        injection E as _ E. apply period_nth_inj in E; [lia|done].
      * rewrite store_rows_other.
        { apply (IHa i rows); [lia|done..]. }
        intros r' _ E. injection E as _ E.
        apply period_nth_inj in E; [lia|done].
    + intros k Hk. rewrite store_rows_other.
      * apply IHb. intros j u Hj. apply Hk. lia.
      * intros r' _. apply Hk. lia.
  - split.
    + intros i rows r Hi Hq Hr.
      destruct (decide (i = n)) as [->|Hin]; [congruence|].
      apply (IHa i rows); [lia|done..].
    + intros k Hk. apply IHb. intros j u Hj. apply Hk. lia.
Qed.

End Backfill.

(** X22. The loop over the intervals ends after
    ceil((endDate - startDate) / step) iterations (none when endDate is not
    after startDate): it runs the body once for each start
    [startDate + i * step], in increasing order. Unless the range is a
    multiple of the step, the last interval reaches beyond [endDate], by
    less than one step. *)
Theorem backfill_runs_once_per_step
    (step : Z) (render : Z -> string)
    (query : string -> Time -> Time -> option (list (string * Metrics)))
    (fuel : nat) (brandName : string) (startDate endDate : Time)
    (tbl : gmap Key Metrics) :
  0 < step ->
  (iterations step startDate endDate <= fuel)%nat ->
  backfill step render query fuel brandName startDate endDate tbl =
    Some (fold_left
            (fun tbl i =>
               interval_body step render query brandName
                 (Add startDate (Z.of_nat i * step)) tbl)
            (seq 0 (iterations step startDate endDate)) tbl) /\
  (unix endDate <= unix startDate -> iterations step startDate endDate = 0%nat) /\
  (unix startDate < unix endDate ->
   unix endDate
   <= unix startDate + Z.of_nat (iterations step startDate endDate) * step
   < unix endDate + step).
Proof.
  intros Hstep Hfuel. split; [by apply backfill_fold|]. split.
  - by apply iterations_done.
  - intros Hlt. unfold iterations.
    set (x := unix endDate - unix startDate + step - 1).
    assert (Hx : 0 <= x / step) by (apply Z.div_pos; lia).
    rewrite Z2Nat.id by exact Hx.
    pose proof (Z.mul_div_le x step Hstep) as H1.
    pose proof (Z.mul_succ_div_gt x step Hstep) as H2.
    lia.
Qed.

Lemma backfill_runs_once_per_step_witness :
  backfill hour sample_render sample_query 3 "brand" (utc 0) (utc (2 * hour + 5)) ∅ =
    Some (fold_left
            (fun tbl i =>
               interval_body hour sample_render sample_query "brand"
                 (Add (utc 0) (Z.of_nat i * hour)) tbl)
            (seq 0 3) ∅).
Proof.
  pose proof (backfill_runs_once_per_step hour sample_render sample_query 3 "brand"
                (utc 0) (utc (2 * hour + 5)) ∅) as H.
  destruct H as [H _]; [reflexivity|vm_compute; lia|]. exact H.
Defined.

(** X23. One run of a job that starts on an empty table never merges two
    rows: when the wall-clock offset of the start date is fixed, distinct
    interval numbers give distinct labels and no query result names a url
    (or lead) twice, every row read for an interval is in the table as it
    was read, under the label of that interval. *)
Theorem fresh_run_stores_rows_unmerged
    (step : Z) (render : Z -> string)
    (query : string -> Time -> Time -> option (list (string * Metrics)))
    (offset : Z) (fuel : nat) (brandName : string) (startDate endDate : Time) :
  0 < step ->
  (forall a b, render a = render b -> a = b) ->
  (forall x, zone startDate x = offset) ->
  (forall i rows, (i < iterations step startDate endDate)%nat ->
     query brandName (Add startDate (Z.of_nat i * step))
           (Add (Add startDate (Z.of_nat i * step)) step) = Some rows ->
     NoDup rows.*1) ->
  (iterations step startDate endDate <= fuel)%nat ->
  exists tbl,
    backfill step render query fuel brandName startDate endDate ∅ = Some tbl /\
    forall i rows r, (i < iterations step startDate endDate)%nat ->
      query brandName (Add startDate (Z.of_nat i * step))
            (Add (Add startDate (Z.of_nat i * step)) step) = Some rows ->
      r ∈ rows ->
      tbl !! (brandName, r.1, period step render (Add startDate (Z.of_nat i * step)))
      = Some r.2.
Proof.
  intros Hstep Hinj Hz Hnd Hfuel. eexists. split.
  - by apply backfill_fold.
  - by apply (fresh_run_invariant step Hstep render query Hinj offset).
Qed.

Lemma fresh_run_stores_rows_unmerged_witness :
  exists tbl,
    backfill hour sample_render sample_query 3 "brand" (utc 0) (utc (2 * hour + 5)) ∅
      = Some tbl /\
    tbl !! ("brand", "https://example.org/a", sample_render 2) = Some existing_row.
Proof.
  pose proof (fresh_run_stores_rows_unmerged hour sample_render sample_query 0 3 "brand"
                (utc 0) (utc (2 * hour + 5))) as H.
  destruct H as [tbl [Hrun Hrows]].
  - reflexivity.
  - intros a b E. unfold sample_render in E. by apply (inj pretty) in E.
  - reflexivity.
  - intros i rows _ E. injection E as <-.
    apply (bool_decide_unpack _). vm_compute. exact I.
  - vm_compute. lia.
  - exists tbl. split; [exact Hrun|].
    apply (Hrows 2%nat
             [("https://example.org/a", existing_row);
              ("https://example.org/b", incoming_row)]
             ("https://example.org/a", existing_row));
      [vm_compute; lia|reflexivity|left].
Defined.

End RollupJobFacts.

(** ** The collector *)

Module CollectorFacts.
Import Collector CollectorSpec.

Lemma append_cons (x : Ascii.ascii) (a b : string) :
  String x a +:+ b = String x (a +:+ b).
Proof. reflexivity. Qed.

Lemma append_assoc (a b c : string) : (a +:+ b) +:+ c = a +:+ (b +:+ c).
Proof.
  induction a as [|x a IH]; [reflexivity|]. by rewrite !append_cons, IH.
Qed.

Lemma prefix_spec (p s : string) :
  String.prefix p s = true <-> exists q, s = p +:+ q.
Proof.
  revert s. induction p as [|x p IH]; intros s.
  - split; [intros _; by exists s|]. intros _. by destruct s.
  - destruct s as [|y s]; cbn [String.prefix].
    + split; [discriminate|]. intros [q Hq]. rewrite append_cons in Hq. discriminate.
    + destruct (Ascii.ascii_dec x y) as [->|Hne].
      * rewrite IH. split; intros [q Hq]; exists q; rewrite append_cons in *; congruence.
      * split; [discriminate|]. intros [q Hq]. rewrite append_cons in Hq. congruence.
Qed.

Lemma Contains_spec (s substr : string) :
  Contains s substr = true <-> exists p q, s = p +:+ substr +:+ q.
Proof.
  induction s as [|x s IH].
  - cbn [Contains]. rewrite orb_false_r, prefix_spec. split.
    + intros [q Hq]. by exists "", q.
    + intros [p [q Hq]]. destruct p; [by exists q|].
      rewrite append_cons in Hq. discriminate.
  - cbn [Contains]. rewrite orb_true_iff, prefix_spec, IH. split.
    + intros [[q Hq]|[p [q Hq]]]; [by exists "", q|].
      exists (String x p), q. rewrite append_cons. by rewrite Hq.
    + intros [p [q Hq]]. destruct p as [|y p]; [left; by exists q|].
      right. exists p, q. rewrite append_cons in Hq. congruence.
Qed.

Lemma isUserAgentBlocked_in_spec (blocked : list string) (userAgent : string) :
  isUserAgentBlocked_in blocked userAgent = true <->
  exists b, b ∈ blocked /\ Contains userAgent b = true.
Proof.
  induction blocked as [|b0 blocked IH]; cbn.
  - split; [discriminate|]. intros [b [Hb _]]. by apply elem_of_nil in Hb.
  - destruct (Contains userAgent b0) eqn:E.
    + split; [|done]. intros _. exists b0. split; [left|done].
    + rewrite IH. split; intros [b [Hb Hc]].
      * exists b. split; [by right|done].
      * apply elem_of_cons in Hb as [->|Hb]; [congruence|]. by exists b.
Qed.

(** X24. The block list is matched by substring: a user agent that is
    blocked stays blocked whatever is written before and after it. *)
Theorem blocked_user_agent_stays_blocked_inside_a_longer_one
    (userAgent before after : string) :
  isUserAgentBlocked userAgent = true ->
  isUserAgentBlocked (before +:+ userAgent +:+ after) = true.
Proof.
  unfold isUserAgentBlocked. rewrite !isUserAgentBlocked_in_spec.
  intros [b [Hb Hc]]. exists b. split; [done|].
  apply Contains_spec in Hc as [p [q ->]]. apply Contains_spec.
  exists (before +:+ p), (q +:+ after). by rewrite !append_assoc.
Qed.

Lemma blocked_user_agent_stays_blocked_inside_a_longer_one_witness :
  isUserAgentBlocked "curl/8.5.0" = true /\
  isUserAgentBlocked ("Mozilla/5.0 (compatible; " +:+ "curl/8.5.0" +:+ ")") = true.
Proof.
  split; [reflexivity|].
  apply (blocked_user_agent_stays_blocked_inside_a_longer_one
           "curl/8.5.0" "Mozilla/5.0 (compatible; " ")").
  reflexivity.
Defined.

Lemma brand_key_inj (h1 h2 : string) : brand_key h1 = brand_key h2 -> h1 = h2.
Proof. unfold brand_key. rewrite !append_cons. intros [= E]. exact E. Qed.

Lemma page_key_not_brand env brand pageData : not_a_brand_key (page_key env brand pageData).
Proof.
  intros host E. unfold page_key, brand_key in E. rewrite !append_cons in E.
  discriminate.
Qed.

Lemma lead_event_key_not_brand brand d : not_a_brand_key (lead_event_key brand d).
Proof.
  intros host E. unfold lead_event_key, brand_key in E. rewrite !append_cons in E.
  discriminate.
Qed.

Lemma redis_Set_fields env key v ttl s :
  let s' := snd (redis_Set env key v ttl s) in
  now s' = now s /\ topic_page s' = topic_page s /\
  topic_lead_event s' = topic_lead_event s /\
  forall k, k <> key -> redis s' !! k = redis s !! k.
Proof.
  unfold redis_Set. destruct (redis_set_err env key); cbn; [done|].
  repeat split. intros k Hk. by rewrite lookup_insert_ne.
Qed.

Lemma redis_Set_ok env key v ttl s :
  redis_set_err env key = false ->
  redis (snd (redis_Set env key v ttl s)) !! key
  = Some {| value := v; expires := now s + ttl |}.
Proof. intros H. unfold redis_Set. rewrite H. cbn. apply lookup_insert_eq. Qed.

Lemma redis_Get_fresh env key e s :
  redis_get_err env key = false ->
  redis s !! key = Some e -> now s < expires e ->
  redis_Get env key s = Found (value e).
Proof.
  intros Hg He Ht. unfold redis_Get. rewrite Hg, He.
  destruct (Z.ltb_spec (now s) (expires e)); [done|lia].
Qed.

Lemma getBrandFromHost_fields env host s :
  let s' := snd (getBrandFromHost env host s) in
  now s' = now s /\ topic_page s' = topic_page s /\
  topic_lead_event s' = topic_lead_event s /\
  forall k, k <> brand_key host -> redis s' !! k = redis s !! k.
Proof.
  unfold getBrandFromHost.
  destruct (redis_Get env (brand_key host) s) as [| |[|b]];
    try destruct (brand_row env host) as [[name site_host]|]; cbn [snd];
    try done; apply redis_Set_fields.
Qed.

Lemma getBrandFromHost_ok env host s :
  brand_cache_ok (redis s) ->
  brand_cache_ok (redis (snd (getBrandFromHost env host s))).
Proof.
  intros Hok. unfold getBrandFromHost.
  destruct (redis_Get env (brand_key host) s) as [| |[|b]];
    try destruct (brand_row env host) as [[name site_host]|]; cbn [snd]; try done.
  all: unfold redis_Set; destruct (redis_set_err env (brand_key host)); cbn; [done|].
  all: intros h e; destruct (decide (brand_key h = brand_key host)) as [E|E];
    [rewrite E, lookup_insert_eq; intros [= <-]; cbn; eexists; split; [done|];
     cbn; symmetry; by apply brand_key_inj
    |rewrite lookup_insert_ne by done; apply Hok].
Qed.

Lemma getBrandFromHost_brand env host s b :
  brand_cache_ok (redis s) ->
  fst (getBrandFromHost env host s) = Some b -> Host b = host.
Proof.
  intros Hok. unfold getBrandFromHost, redis_Get.
  destruct (redis_get_err env (brand_key host)).
  { destruct (brand_row env host) as [[name site_host]|]; cbn; [|done].
    by intros [= <-]. }
  destruct (redis s !! brand_key host) as [e|] eqn:Ee.
  - destruct (now s <? expires e).
    + destruct (Hok host e Ee) as [b' [Hv Hh]]. rewrite Hv. cbn. by intros [= <-].
    + destruct (brand_row env host) as [[name site_host]|]; cbn; [|done].
      by intros [= <-].
  - destruct (brand_row env host) as [[name site_host]|]; cbn; [|done].
    by intros [= <-].
Qed.

Lemma isCollectAllowed_unfold {B} env (r : http.Request B) s :
  snd (isCollectAllowed env r s) = s \/
  snd (isCollectAllowed env r s) = snd (getBrandFromHost env (http.Host r) s).
Proof.
  unfold isCollectAllowed.
  destruct (negb (http.Method r =? "POST")%string); [by left|].
  destruct (isUserAgentBlocked (http.UserAgent r)); [by left|].
  destruct (http.Host r =? "")%string; [by left|].
  right.
  destruct (getBrandFromHost env (http.Host r) s) as [[brand|] s1]; [|done].
  destruct (http.Origin r =? "")%string; [done|].
  destruct (url_Parse env (http.Origin r)) as [h|]; [|done].
  by destruct (negb (h =? SiteHost brand)%string && negb (h =? Host brand)%string).
Qed.

Lemma isCollectAllowed_fields {B} env (r : http.Request B) s :
  let s' := snd (isCollectAllowed env r s) in
  now s' = now s /\ topic_page s' = topic_page s /\
  topic_lead_event s' = topic_lead_event s /\
  forall k, not_a_brand_key k -> redis s' !! k = redis s !! k.
Proof.
  cbv zeta. destruct (isCollectAllowed_unfold env r s) as [-> | ->]; [done|].
  destruct (getBrandFromHost_fields env (http.Host r) s) as (H1 & H2 & H3 & H4).
  repeat split; try done. intros k Hk. apply H4, Hk.
Qed.

Lemma isCollectAllowed_ok {B} env (r : http.Request B) s :
  brand_cache_ok (redis s) ->
  brand_cache_ok (redis (snd (isCollectAllowed env r s))).
Proof.
  intros Hok. destruct (isCollectAllowed_unfold env r s) as [-> | ->]; [done|].
  by apply getBrandFromHost_ok.
Qed.

(** X25. A brand read from the database is cached for one hour: when the
    cache write works, every lookup of the host during that hour returns the
    cached brand and leaves the state as it is, whatever the brand table says
    by then. *)
Theorem brand_is_served_from_the_cache_for_one_hour
    (env env' : Env) (host name site_host : string) (s s2 : State) :
  redis_Get env (brand_key host) s = Nil ->
  brand_row env host = Some (name, site_host) ->
  redis_set_err env (brand_key host) = false ->
  redis_get_err env' (brand_key host) = false ->
  redis s2 !! brand_key host
    = redis (snd (getBrandFromHost env host s)) !! brand_key host ->
  now s <= now s2 < now s + RollupJob.hour ->
  fst (getBrandFromHost env host s)
    = Some {| Name := name; Host := host; SiteHost := site_host |} /\
  getBrandFromHost env' host s2
    = (Some {| Name := name; Host := host; SiteHost := site_host |}, s2).
Proof.
  intros Hmiss Hrow Hset Hget Hsame Hnow.
  unfold getBrandFromHost at 1 in Hsame. unfold getBrandFromHost at 1.
  rewrite Hmiss, Hrow in *. cbn [fst snd] in *. split; [done|].
  rewrite redis_Set_ok in Hsame by done.
  unfold getBrandFromHost.
  rewrite (redis_Get_fresh env' _ _ s2 Hget Hsame) by (cbn; lia). done.
Qed.

Lemma brand_is_served_from_the_cache_for_one_hour_witness :
  getBrandFromHost brand_renamed "collect.example.org"
    (serve (serve (started 0) (PageData_ all_up (post (Some sample_page))))
           (Sleep (30 * minute)))
  = (Some sample_brand,
     serve (serve (started 0) (PageData_ all_up (post (Some sample_page))))
           (Sleep (30 * minute))).
Proof.
  pose proof (brand_is_served_from_the_cache_for_one_hour all_up brand_renamed
                "collect.example.org" "brand" "www.example.org" (started 0)
                (serve (serve (started 0) (PageData_ all_up (post (Some sample_page))))
                       (Sleep (30 * minute)))) as H.
  assert (Hnow : now (started 0)
                 <= now (serve (serve (started 0)
                                  (PageData_ all_up (post (Some sample_page))))
                               (Sleep (30 * minute)))
                 < now (started 0) + RollupJob.hour).
  { vm_compute. split; [discriminate|reflexivity]. }
  destruct (H eq_refl eq_refl eq_refl eq_refl eq_refl Hnow) as [_ H'].
  exact H'.
Defined.

(** X26. In a state whose brand keys hold brands of their hosts, a request
    that [isCollectAllowed] lets through is a POST of a user agent that is
    not blocked, with a Host header, and an Origin that is empty or parses to
    the site host or the host of the brand; the brand returned is the brand
    of the Host header, and the brand keys still hold brands of their
    hosts. *)
Theorem allowed_request_gets_the_brand_of_its_host
    {B} (env : Env) (r : http.Request B) (s s' : State) (brand : Brand) :
  brand_cache_ok (redis s) ->
  isCollectAllowed env r s = (inl brand, s') ->
  http.Method r = "POST" /\
  isUserAgentBlocked (http.UserAgent r) = false /\
  http.Host r <> "" /\
  Host brand = http.Host r /\
  (http.Origin r = "" \/
   exists h, url_Parse env (http.Origin r) = Some h /\
             (h = SiteHost brand \/ h = Host brand)) /\
  brand_cache_ok (redis s').
Proof.
  intros Hok Hres.
  pose proof (isCollectAllowed_ok env r s Hok) as Hok'.
  rewrite Hres in Hok'. cbn [snd] in Hok'.
  unfold isCollectAllowed in Hres.
  destruct (String.eqb_spec (http.Method r) "POST") as [Hm|Hm]; [|done]. cbn [negb] in Hres.
  destruct (isUserAgentBlocked (http.UserAgent r)) eqn:Hua; [done|].
  destruct (String.eqb_spec (http.Host r) "") as [Hh|Hh]; [done|].
  pose proof (getBrandFromHost_brand env (http.Host r) s) as Hb.
  destruct (getBrandFromHost env (http.Host r) s) as [[brand0|] s1]; [|done].
  cbn [fst] in Hb. specialize (Hb brand0 Hok eq_refl).
  destruct (String.eqb_spec (http.Origin r) "") as [Ho|Ho].
  { injection Hres as -> ->. repeat split; try done. by left. }
  destruct (url_Parse env (http.Origin r)) as [h|] eqn:Hp; [|done].
  destruct (String.eqb_spec h (SiteHost brand0)) as [E1|E1];
    destruct (String.eqb_spec h (Host brand0)) as [E2|E2];
    cbn [negb andb] in Hres; try done;
    injection Hres as -> ->; repeat split; try done; right; exists h;
    (split; [done|]); auto.
Qed.

Lemma allowed_request_gets_the_brand_of_its_host_witness :
  Host sample_brand = "collect.example.org" /\
  brand_cache_ok
    (redis (snd (isCollectAllowed all_up (post (Some sample_page)) (started 0)))).
Proof.
  pose proof (allowed_request_gets_the_brand_of_its_host all_up
                (post (Some sample_page)) (started 0)
                (snd (isCollectAllowed all_up (post (Some sample_page)) (started 0)))
                sample_brand) as H.
  destruct H as (_ & _ & _ & H1 & _ & H2).
  - intros host e He. cbn [started redis] in He. rewrite lookup_empty in He.
    discriminate.
  - reflexivity.
  - split; [exact H1|exact H2].
Defined.

Lemma isCollectAllowed_code {B} env (r : http.Request B) s code :
  fst (isCollectAllowed env r s) = inr code -> code <> http.StatusNoContent.
Proof.
  unfold isCollectAllowed.
  destruct (negb (http.Method r =? "POST")%string); [by intros [= <-]|].
  destruct (isUserAgentBlocked (http.UserAgent r)); [by intros [= <-]|].
  destruct (http.Host r =? "")%string; [by intros [= <-]|].
  destruct (getBrandFromHost env (http.Host r) s) as [[brand|] s1];
    [|by intros [= <-]].
  destruct (http.Origin r =? "")%string; [done|].
  destruct (url_Parse env (http.Origin r)) as [h|]; [|by intros [= <-]].
  destruct (negb (h =? SiteHost brand)%string && negb (h =? Host brand)%string);
    [by intros [= <-]|done].
Qed.

Lemma redis_Set_other_ok env key v ttl s :
  not_a_brand_key key -> brand_cache_ok (redis s) ->
  brand_cache_ok (redis (snd (redis_Set env key v ttl s))).
Proof.
  intros Hk Hok. unfold redis_Set. destruct (redis_set_err env key); cbn; [done|].
  intros h e. rewrite lookup_insert_ne by apply Hk. apply Hok.
Qed.

Lemma publish_lead_event_fields env d s :
  let s' := publish_lead_event env d s in
  now s' = now s /\ redis s' = redis s /\ topic_page s' = topic_page s /\
  topic_lead_event s' = (if publish_err env then topic_lead_event s
                         else topic_lead_event s ++ [d]).
Proof. unfold publish_lead_event. by destruct (publish_err env). Qed.

Lemma publishPageData_fields env brandName pageData s :
  let s' := snd (publishPageData env brandName pageData s) in
  now s' = now s /\ redis s' = redis s /\
  topic_lead_event s' = topic_lead_event s /\
  topic_page s' = (if publish_err env then topic_page s
                   else topic_page s ++ [pageDataPubSub brandName pageData s]).
Proof. unfold publishPageData. by destruct (publish_err env). Qed.

Lemma classify_referrer_fields env d :
  LeadEvent.c_Name (classify_referrer env d) = LeadEvent.c_Name d /\
  LeadEvent.c_Consent (classify_referrer env d) = LeadEvent.c_Consent d.
Proof.
  unfold classify_referrer.
  destruct (LeadEvent.c_Name d =? "page_view")%string; [|done].
  destruct (LeadEvent.c_Referrer d =? "")%string; [done|].
  by destruct (match url_Parse env (LeadEvent.c_Url d) with
               | Some u => match url_Parse env (LeadEvent.c_Referrer d) with
                           | Some v => (u =? v)%string
                           | None => false
                           end
               | None => false
               end).
Qed.

(** What one call of the part of the lead handler after [isCollectAllowed]
    does to the state: nothing, or the cache write at the event's key
    followed by the publication, failed or not. *)
Lemma collectLeadEvent_cases env brand r s :
  snd (collectLeadEvent env brand r s) = s \/
  exists d d1,
    http.Body r = Some d /\ allowed (LeadEvent.c_Name d) = true /\
    d1 = (if (LeadEvent.c_LeadUUID d =? "")%string
          then with_LeadUUID (new_uuid env) d else d) /\
    redis_Get env (lead_event_key brand d1) s = Nil /\
    collectLeadEvent env brand r s =
      ({| status := http.StatusNoContent;
          lead_uuid_cookie := if (LeadEvent.c_LeadUUID d =? "")%string
                              then Some (new_uuid env) else None |},
       publish_lead_event env (lead_payload env brand r d)
         (snd (redis_Set env (lead_event_key brand d1) Exists_ (10 * second) s))).
Proof.
  unfold collectLeadEvent, lead_payload.
  destruct (http.Body r) as [d|]; [|by left].
  destruct (allowed (LeadEvent.c_Name d)) eqn:Ha; [|by left]. cbn [negb].
  destruct (LeadEvent.c_LeadUUID d =? "")%string eqn:Hf.
  - destruct (redis_Get env (lead_event_key brand (with_LeadUUID (new_uuid env) d)) s)
      eqn:Hg; [|by left..].
    right. exists d, (with_LeadUUID (new_uuid env) d). by rewrite Hf.
  - destruct (redis_Get env (lead_event_key brand d) s) eqn:Hg; [|by left..].
    right. exists d, d. by rewrite Hf.
Qed.

Lemma collectLeadEvent_fields env brand r s :
  let s' := snd (collectLeadEvent env brand r s) in
  now s' = now s /\ topic_page s' = topic_page s /\
  (brand_cache_ok (redis s) -> brand_cache_ok (redis s')) /\
  (topic_lead_event s' = topic_lead_event s \/
   exists d, http.Body r = Some d /\ allowed (LeadEvent.c_Name d) = true /\
             topic_lead_event s' = topic_lead_event s ++ [lead_payload env brand r d]).
Proof.
  cbv zeta. destruct (collectLeadEvent_cases env brand r s)
    as [-> | (d & d1 & Hb & Ha & Hd1 & Hg & ->)]; [by auto|].
  cbn [snd].
  destruct (publish_lead_event_fields env (lead_payload env brand r d)
              (snd (redis_Set env (lead_event_key brand d1) Exists_ (10 * second) s)))
    as (P1 & P2 & P3 & P4).
  destruct (redis_Set_fields env (lead_event_key brand d1) Exists_ (10 * second) s)
    as (S1 & S2 & S3 & S4).
  rewrite P1, P2, P3, P4, S1, S2, S3. repeat split.
  - apply redis_Set_other_ok, lead_event_key_not_brand.
  - destruct (publish_err env); [by left|]. right. by exists d.
Qed.

Lemma collectPageData_fields env brand r s :
  let s' := snd (collectPageData env brand r s) in
  now s' = now s /\ topic_lead_event s' = topic_lead_event s /\
  (brand_cache_ok (redis s) -> brand_cache_ok (redis s')).
Proof.
  unfold collectPageData. destruct (http.Body r) as [pageData|]; [|done].
  destruct (redis_Get env (page_key env brand pageData) s); [|done..].
  cbn [snd].
  destruct (publishPageData_fields env (Name brand) pageData s) as (P1 & P2 & P3 & P4).
  destruct (redis_Set_fields env (page_key env brand pageData) Exists_ (10 * minute)
              (snd (publishPageData env (Name brand) pageData s)))
    as (S1 & S2 & S3 & S4).
  rewrite S1, S3, P1, P3. repeat split.
  intros Hok. apply redis_Set_other_ok; [apply page_key_not_brand|]. by rewrite P2.
Qed.

(** X27. A lead event whose name is not [page_view] or [page_behavior] is
    refused: the answer is an error status without a cookie, nothing is
    published and no key other than a brand key is written. *)
Theorem unknown_event_name_is_refused_before_the_cache
    (env : Env) (r : http.Request LeadEvent.LeadEventData)
    (d : LeadEvent.LeadEventData) (s : State) :
  http.Body r = Some d ->
  allowed (LeadEvent.c_Name d) = false ->
  status (fst (collectLeadEventDataHandler env r s)) <> http.StatusNoContent /\
  lead_uuid_cookie (fst (collectLeadEventDataHandler env r s)) = None /\
  topic_lead_event (snd (collectLeadEventDataHandler env r s)) = topic_lead_event s /\
  forall k, not_a_brand_key k ->
    redis (snd (collectLeadEventDataHandler env r s)) !! k = redis s !! k.
Proof.
  intros Hb Ha. unfold collectLeadEventDataHandler.
  pose proof (isCollectAllowed_fields env r s) as (F1 & F2 & F3 & F4).
  pose proof (isCollectAllowed_code env r s) as Hc.
  destruct (isCollectAllowed env r s) as [[brand|code] s1]; cbn [fst snd] in *.
  - unfold collectLeadEvent. rewrite Hb, Ha. cbn. done.
  - repeat split; try done. by apply Hc.
Qed.

Lemma unknown_event_name_is_refused_before_the_cache_witness :
  status (fst (collectLeadEventDataHandler all_up (post (Some click_event)) (started 0)))
  <> http.StatusNoContent /\
  lead_uuid_cookie
    (fst (collectLeadEventDataHandler all_up (post (Some click_event)) (started 0)))
  = None.
Proof.
  pose proof (unknown_event_name_is_refused_before_the_cache all_up
                (post (Some click_event)) click_event (started 0) eq_refl eq_refl) as H.
  destruct H as (H1 & H2 & _). split; [exact H1|exact H2].
Defined.

(** X28. A lead event that the handler takes as new is answered 204 and
    published unless Pub/Sub fails; in both cases its key is cached first, so
    that the same event of the same lead, sent again to the same brand within
    ten seconds, is answered 204 and not published. *)
Theorem repeated_lead_event_is_dropped_for_ten_seconds
    (env env' : Env) (r : http.Request LeadEvent.LeadEventData)
    (d : LeadEvent.LeadEventData) (brand brand' : Brand) (s s0 s2 s2' : State) :
  isCollectAllowed env r s = (inl brand, s0) ->
  http.Body r = Some d ->
  allowed (LeadEvent.c_Name d) = true ->
  LeadEvent.c_LeadUUID d <> "" ->
  redis_Get env (lead_event_key brand d) s0 = Nil ->
  redis_set_err env (lead_event_key brand d) = false ->
  isCollectAllowed env' r s2 = (inl brand', s2') ->
  Name brand' = Name brand ->
  redis_get_err env' (lead_event_key brand d) = false ->
  redis s2 !! lead_event_key brand d
    = redis (snd (collectLeadEventDataHandler env r s)) !! lead_event_key brand d ->
  now s <= now s2 < now s + 10 * second ->
  status (fst (collectLeadEventDataHandler env r s)) = http.StatusNoContent /\
  topic_lead_event (snd (collectLeadEventDataHandler env r s))
    = (if publish_err env then topic_lead_event s
       else topic_lead_event s ++
            [LeadEvent.collectLeadEventData (Name brand) (classify_referrer env d)
               (http.ClientIP r)]) /\
  collectLeadEventDataHandler env' r s2 = (respond http.StatusNoContent, s2') /\
  topic_lead_event s2' = topic_lead_event s2.
Proof.
  intros E1 Hb Ha Hl Hmiss Hset E2 Hname Hget Hsame Hnow.
  pose proof (isCollectAllowed_fields env r s) as (F1 & _ & F3 & _).
  pose proof (isCollectAllowed_fields env' r s2) as (G1 & _ & G3 & G4).
  rewrite E1 in F1, F3. rewrite E2 in G1, G3, G4. cbn [snd] in *.
  assert (Hf : (LeadEvent.c_LeadUUID d =? "")%string = false).
  { by destruct (String.eqb_spec (LeadEvent.c_LeadUUID d) ""). }
  assert (Hfirst : collectLeadEventDataHandler env r s =
    ({| status := http.StatusNoContent; lead_uuid_cookie := None |},
     publish_lead_event env
       (LeadEvent.collectLeadEventData (Name brand) (classify_referrer env d)
          (http.ClientIP r))
       (snd (redis_Set env (lead_event_key brand d) Exists_ (10 * second) s0)))).
  { unfold collectLeadEventDataHandler. rewrite E1.
    unfold collectLeadEvent. rewrite Hb, Ha, Hf. cbn [negb]. by rewrite Hmiss. }
  rewrite Hfirst in *. cbn [fst snd] in *.
  destruct (publish_lead_event_fields env
              (LeadEvent.collectLeadEventData (Name brand) (classify_referrer env d)
                 (http.ClientIP r))
              (snd (redis_Set env (lead_event_key brand d) Exists_ (10 * second) s0)))
    as (P1 & P2 & _ & P4).
  destruct (redis_Set_fields env (lead_event_key brand d) Exists_ (10 * second) s0)
    as (_ & _ & S3 & _).
  rewrite P2, redis_Set_ok in Hsame by done.
  split; [done|]. split; [by rewrite P4, S3, F3|]. split; [|done].
  assert (Hkey : lead_event_key brand' d = lead_event_key brand d).
  { unfold lead_event_key. by rewrite Hname. }
  unfold collectLeadEventDataHandler. rewrite E2.
  unfold collectLeadEvent. rewrite Hb, Ha, Hf, Hkey. cbn [negb].
  rewrite <- (G4 _ (lead_event_key_not_brand brand d)) in Hsame.
  rewrite (redis_Get_fresh env' _ _ s2' Hget Hsame) by (cbn; lia). done.
Qed.

Lemma repeated_lead_event_is_dropped_for_ten_seconds_witness :
  topic_lead_event
    (snd (collectLeadEventDataHandler pubsub_down (post (Some view_event)) (started 0)))
  = [] /\
  collectLeadEventDataHandler all_up (post (Some view_event))
    (serve (serve (started 0) (LeadEvent_ pubsub_down (post (Some view_event))))
           (Sleep (9 * second)))
  = (respond http.StatusNoContent,
     serve (serve (started 0) (LeadEvent_ pubsub_down (post (Some view_event))))
           (Sleep (9 * second))).
Proof.
  pose proof (repeated_lead_event_is_dropped_for_ten_seconds pubsub_down all_up
                (post (Some view_event)) view_event sample_brand sample_brand
                (started 0)
                (snd (isCollectAllowed pubsub_down (post (Some view_event)) (started 0)))
                (serve (serve (started 0) (LeadEvent_ pubsub_down (post (Some view_event))))
                       (Sleep (9 * second)))
                (serve (serve (started 0) (LeadEvent_ pubsub_down (post (Some view_event))))
                       (Sleep (9 * second)))) as H.
  assert (Hl : LeadEvent.c_LeadUUID view_event <> "") by discriminate.
  assert (Hnow : now (started 0)
                 <= now (serve (serve (started 0)
                                  (LeadEvent_ pubsub_down (post (Some view_event))))
                               (Sleep (9 * second)))
                 < now (started 0) + 10 * second).
  { vm_compute. split; [discriminate|reflexivity]. }
  destruct (H eq_refl eq_refl eq_refl Hl eq_refl eq_refl eq_refl eq_refl eq_refl
              eq_refl Hnow) as (_ & H2 & H3 & _).
  split; [exact H2|exact H3].
Defined.

Lemma lead_payload_ok env brand r d :
  allowed (LeadEvent.c_Name d) = true -> lead_record_ok (lead_payload env brand r d).
Proof.
  intros Ha. unfold lead_record_ok, lead_payload. split; [|split].
  - eexists _, _, _. reflexivity.
  - cbn. destruct (classify_referrer_fields env
      (if (LeadEvent.c_LeadUUID d =? "")%string
       then with_LeadUUID (new_uuid env) d else d)) as [-> _].
    by destruct (LeadEvent.c_LeadUUID d =? "")%string.
  - unfold LeadEvent.collectLeadEventData. cbn. by intros ->.
Qed.

Lemma serve_inv (s : State) (q : request) : collector_inv s -> collector_inv (serve s q).
Proof.
  intros [Hok Hall]. destruct q as [env r|env r|d]; cbn [serve].
  - unfold collectPageDataHandler.
    pose proof (isCollectAllowed_fields env r s) as (_ & _ & F3 & _).
    pose proof (isCollectAllowed_ok env r s Hok) as Hok1.
    destruct (isCollectAllowed env r s) as [[brand|code] s1]; cbn [snd] in *.
    + destruct (collectPageData_fields env brand r s1) as (_ & C2 & C3).
      split; [by apply C3|]. by rewrite C2, F3.
    + split; [done|]. by rewrite F3.
  - unfold collectLeadEventDataHandler.
    pose proof (isCollectAllowed_fields env r s) as (_ & _ & F3 & _).
    pose proof (isCollectAllowed_ok env r s Hok) as Hok1.
    destruct (isCollectAllowed env r s) as [[brand|code] s1]; cbn [snd] in *.
    + destruct (collectLeadEvent_fields env brand r s1) as (_ & _ & C3 & C4).
      split; [by apply C3|].
      destruct C4 as [-> | (d & _ & Ha & ->)]; rewrite F3; [done|].
      apply Forall_app. split; [done|].
      apply Forall_singleton. by apply lead_payload_ok.
    + split; [done|]. by rewrite F3.
  - done.
Qed.

Lemma run_inv (reqs : list request) (s : State) :
  collector_inv s -> collector_inv (fold_left serve reqs s).
Proof.
  revert s. induction reqs as [|q reqs IH]; intros s Hs; [done|].
  cbn. apply IH. by apply serve_inv.
Qed.

(** X29. Whatever requests the collector has served since it started with
    an empty cache, every record on the lead-event topic was built by the
    end of the lead handler from a body with an allowed event name, and
    carries no IP address unless the lead consented; every brand key of the
    cache holds a brand of its host. *)
Theorem topic_never_holds_an_ip_without_consent (t : Z) (reqs : list request) :
  brand_cache_ok (redis (fold_left serve reqs (started t))) /\
  forall d, d ∈ topic_lead_event (fold_left serve reqs (started t)) ->
    LeadEvent.collected d /\
    allowed (LeadEvent.Name d) = true /\
    (LeadEvent.Consent d = false -> LeadEvent.IP d = "").
Proof.
  destruct (run_inv reqs (started t)) as [Hok Hall].
  { split; [|by apply Forall_nil].
    intros host e He. cbn [started redis] in He. by rewrite lookup_empty in He. }
  split; [done|]. intros d Hd. by apply (proj1 (Forall_forall _ _) Hall).
Qed.

Lemma topic_never_holds_an_ip_without_consent_witness :
  topic_lead_event
    (fold_left serve [LeadEvent_ all_up (post (Some view_event))] (started 0))
  = [LeadEvent.collectLeadEventData "brand"
       (with_ReferrerType "direct" view_event) "203.0.113.7"] /\
  LeadEvent.IP
    (LeadEvent.collectLeadEventData "brand"
       (with_ReferrerType "direct" view_event) "203.0.113.7") = "".
Proof.
  pose proof (topic_never_holds_an_ip_without_consent 0
                [LeadEvent_ all_up (post (Some view_event))]) as [_ H].
  assert (Hrun : topic_lead_event
            (fold_left serve [LeadEvent_ all_up (post (Some view_event))] (started 0))
          = [LeadEvent.collectLeadEventData "brand"
               (with_ReferrerType "direct" view_event) "203.0.113.7"])
    by reflexivity.
  split; [exact Hrun|].
  destruct (H (LeadEvent.collectLeadEventData "brand"
                 (with_ReferrerType "direct" view_event) "203.0.113.7"))
    as (_ & _ & Hip).
  - rewrite Hrun. left.
  - apply Hip. reflexivity.
Defined.

(** X30. The page handler caches the key of a page even when its
    publication fails: the request is answered 204 with nothing on the topic,
    and the same page sent again within ten minutes is answered 204 without
    being published either. *)
Theorem page_that_failed_to_publish_is_not_retried_for_ten_minutes
    (env env' : Env) (r : http.Request PageData) (pageData : PageData)
    (brand brand' : Brand) (s s0 s2 s2' : State) :
  isCollectAllowed env r s = (inl brand, s0) ->
  http.Body r = Some pageData ->
  redis_Get env (page_key env brand pageData) s0 = Nil ->
  publish_err env = true ->
  redis_set_err env (page_key env brand pageData) = false ->
  isCollectAllowed env' r s2 = (inl brand', s2') ->
  page_key env' brand' pageData = page_key env brand pageData ->
  redis_get_err env' (page_key env brand pageData) = false ->
  redis s2 !! page_key env brand pageData
    = redis (snd (collectPageDataHandler env r s)) !! page_key env brand pageData ->
  now s <= now s2 < now s + 10 * minute ->
  status (fst (collectPageDataHandler env r s)) = http.StatusNoContent /\
  topic_page (snd (collectPageDataHandler env r s)) = topic_page s /\
  collectPageDataHandler env' r s2 = (respond http.StatusNoContent, s2') /\
  topic_page s2' = topic_page s2.
Proof.
  intros E1 Hb Hmiss Hpub Hset E2 Hkey Hget Hsame Hnow.
  pose proof (isCollectAllowed_fields env r s) as (F1 & F2 & _ & _).
  pose proof (isCollectAllowed_fields env' r s2) as (G1 & G2 & _ & G4).
  rewrite E1 in F1, F2. rewrite E2 in G1, G2, G4. cbn [snd] in *.
  assert (Hfirst : collectPageDataHandler env r s =
    (respond http.StatusNoContent,
     snd (redis_Set env (page_key env brand pageData) Exists_ (10 * minute) s0))).
  { unfold collectPageDataHandler. rewrite E1.
    unfold collectPageData. rewrite Hb, Hmiss.
    unfold publishPageData. by rewrite Hpub. }
  rewrite Hfirst in *. cbn [fst snd] in *.
  destruct (redis_Set_fields env (page_key env brand pageData) Exists_ (10 * minute) s0)
    as (_ & S2 & _ & _).
  rewrite redis_Set_ok in Hsame by done.
  split; [done|]. split; [by rewrite S2, F2|]. split; [|done].
  unfold collectPageDataHandler. rewrite E2.
  unfold collectPageData. rewrite Hb, Hkey.
  rewrite <- (G4 _ (page_key_not_brand env brand pageData)) in Hsame.
  rewrite (redis_Get_fresh env' _ _ s2' Hget Hsame) by (cbn; lia). done.
Qed.

Lemma page_that_failed_to_publish_is_not_retried_for_ten_minutes_witness :
  topic_page
    (snd (collectPageDataHandler pubsub_down (post (Some sample_page)) (started 0)))
  = [] /\
  collectPageDataHandler all_up (post (Some sample_page))
    (serve (serve (started 0) (PageData_ pubsub_down (post (Some sample_page))))
           (Sleep (9 * minute)))
  = (respond http.StatusNoContent,
     serve (serve (started 0) (PageData_ pubsub_down (post (Some sample_page))))
           (Sleep (9 * minute))).
Proof.
  pose proof (page_that_failed_to_publish_is_not_retried_for_ten_minutes
                pubsub_down all_up (post (Some sample_page)) sample_page
                sample_brand sample_brand (started 0)
                (snd (isCollectAllowed pubsub_down (post (Some sample_page)) (started 0)))
                (serve (serve (started 0) (PageData_ pubsub_down (post (Some sample_page))))
                       (Sleep (9 * minute)))
                (serve (serve (started 0) (PageData_ pubsub_down (post (Some sample_page))))
                       (Sleep (9 * minute)))) as H.
  assert (Hnow : now (started 0)
                 <= now (serve (serve (started 0)
                                  (PageData_ pubsub_down (post (Some sample_page))))
                               (Sleep (9 * minute)))
                 < now (started 0) + 10 * minute).
  { vm_compute. split; [discriminate|reflexivity]. }
  destruct (H eq_refl eq_refl eq_refl eq_refl eq_refl eq_refl eq_refl eq_refl
              eq_refl Hnow) as (_ & H2 & H3 & _).
  split; [exact H2|exact H3].
Defined.

End CollectorFacts.
